(** * KuberAI: the browser-side chat and purchase controllers

    A shallow embedding of the two client scripts of the repository,
    [class KuberAI] (the primary, rupee variant) and [class GoldChatBot]
    (the simpler, dollar variant), and of the host functions they call:
    JavaScript numbers, [parseFloat], [Number.prototype.toFixed],
    [String.prototype.trim], the page elements they read and write, and
    the requests and alerts they emit.

    - A JavaScript number is an IEEE 754 binary64 value: [spec_float] at
      precision 53 and maximal exponent 1024, with the rounding
      operations of the standard library's [SpecFloat].
    - A JavaScript string is a [string] holding the bytes of the text.
    - A handler is a function in a state monad over the page with an
      exception outcome ([TypeError] of a failed property read) and a
      trace of the writes, alerts and requests it performed, in order.
    - An [async] method is cut at its [await]: one function for the part
      that runs at the call, one for the part that runs when the reply
      arrives, in whatever state the page then is.
    - A text the code assigns to [innerHTML] is markup. What the HTML
      parser builds from it matters to the code through the lookup of
      the id [typing-indicator]; the parser is a field of the page, and
      the statements hold for every parser. *)

From Stdlib Require Import ZArith List Bool Ascii String Lia.
From Stdlib Require Import SpecFloat.
From Stdlib Require DecimalString.
Import ListNotations.

Local Open Scope string_scope.
Local Open Scope Z_scope.

(** ** JavaScript strings *)

Module Str.

Fixpoint rev_onto (s acc : string) : string :=
  match s with
  | EmptyString => acc
  | String c r => rev_onto r (String c acc)
  end.

Definition rev (s : string) : string := rev_onto s EmptyString.

(** [strip_prefix p s] is [Some r] when [s = p ++ r]. *)
Fixpoint strip_prefix (p s : string) : option string :=
  match p, s with
  | EmptyString, _ => Some s
  | String a p', String b s' =>
      if Ascii.eqb a b then strip_prefix p' s' else None
  | String _ _, EmptyString => None
  end.

(** The code points [String.prototype.trim] and [parseFloat] skip:
    WhiteSpace and LineTerminator of ECMA-262, here as their UTF-8
    byte sequences (TAB, LF, VT, FF, CR, SP, NBSP, U+1680,
    U+2000..U+200A, U+2028, U+2029, U+202F, U+205F, U+3000, U+FEFF). *)
Definition byte (n : N) : ascii := ascii_of_N n.

Definition seq1 (a : N) : string := String (byte a) EmptyString.
Definition seq2 (a b : N) : string := String (byte a) (seq1 b).
Definition seq3 (a b c : N) : string := String (byte a) (seq2 b c).

Definition whitespace : list string :=
  [ seq1 9; seq1 10; seq1 11; seq1 12; seq1 13; seq1 32;
    seq2 194 160;
    seq3 225 154 128;
    seq3 226 128 128; seq3 226 128 129; seq3 226 128 130;
    seq3 226 128 131; seq3 226 128 132; seq3 226 128 133;
    seq3 226 128 134; seq3 226 128 135; seq3 226 128 136;
    seq3 226 128 137; seq3 226 128 138;
    seq3 226 128 168; seq3 226 128 169; seq3 226 128 175;
    seq3 226 129 159;
    seq3 227 128 128;
    seq3 239 187 191 ]%N.

(** [skip ws s] drops the leading code points of [s] that are in [ws].
    A white-space code point takes at most three bytes, so each step
    looks three bytes ahead. *)
Fixpoint skip (ws : list string) (s : string) : string :=
  match s with
  | EmptyString => EmptyString
  | String a r =>
      if existsb (String.eqb (String a EmptyString)) ws then skip ws r
      else
        match r with
        | String b r2 =>
            if existsb (String.eqb (String a (String b EmptyString))) ws
            then skip ws r2
            else
              match r2 with
              | String c r3 =>
                  if existsb
                       (String.eqb (String a (String b (String c EmptyString)))) ws
                  then skip ws r3
                  else s
              | EmptyString => s
              end
        | EmptyString => s
        end
  end.

Definition trimStart (s : string) : string := skip whitespace s.

Definition trimEnd (s : string) : string :=
  rev (skip (map rev whitespace) (rev s)).

(** [String.prototype.trim] *)
Definition trim (s : string) : string := trimEnd (trimStart s).

(** [s.replace(/\n/g, r)]: every line feed of [s] replaced by [r]. *)
Fixpoint replace_newlines (r s : string) : string :=
  match s with
  | EmptyString => EmptyString
  | String c s' =>
      if Ascii.eqb c (byte 10) then r ++ replace_newlines r s'
      else String c (replace_newlines r s')
  end.

End Str.

(** ** JavaScript numbers *)

Module Num.

(** The Number type: IEEE 754 binary64. *)
Definition number : Type := spec_float.

Definition prec : Z := 53.
Definition emax : Z := 1024.

Definition NaN : number := S754_nan.
Definition Infinity : number := S754_infinity false.
Definition zero : number := S754_zero false.

Definition mul : number -> number -> number := SFmul prec emax.
Definition add : number -> number -> number := SFadd prec emax.
Definition div : number -> number -> number := SFdiv prec emax.

(** [x < y] and [x <= y]: false as soon as an operand is NaN. *)
Definition ltb : number -> number -> bool := SFltb.
Definition leb : number -> number -> bool := SFleb.

Definition isNaN (x : number) : bool :=
  match x with S754_nan => true | _ => false end.

Definition isFinite (x : number) : bool :=
  match x with S754_nan | S754_infinity _ => false | _ => true end.

(** ToBoolean on a number: [+0], [-0] and [NaN] are falsy. *)
Definition truthy (x : number) : bool :=
  match x with S754_zero _ | S754_nan => false | _ => true end.

(** The values a binary64 can hold. *)
Definition is_double (x : number) : bool := valid_binary prec emax x.

(** The double nearest to the integer [m] (ties to even). *)
Definition of_Z (m : Z) : number := binary_normalize prec emax m 0 false.

(** The double nearest to [(-1)^neg * m * 10^e], for [m >= 0]: the
    rounding of a decimal literal. *)
Definition of_decimal (neg : bool) (m e : Z) : number :=
  match m with
  | Zpos p =>
      if 0 <=? e
      then binary_normalize prec emax
             (if neg then - (m * 10 ^ e) else m * 10 ^ e) 0 false
      else SFdiv prec emax (S754_finite neg p 0)
             (S754_finite false (Z.to_pos (10 ^ (- e))) 0)
  | _ => S754_zero neg
  end.

(** *** parseFloat *)

Definition digit_value (c : ascii) : option Z :=
  let n := Z.of_N (N_of_ascii c) in
  if (48 <=? n) && (n <=? 57) then Some (n - 48) else None.

(** [take_digits s acc k] reads the decimal digits at the head of [s]:
    the number read (continuing [acc]), how many digits were read
    (continuing [k]) and the rest of the string. *)
Fixpoint take_digits (s : string) (acc k : Z) : Z * Z * string :=
  match s with
  | EmptyString => (acc, k, s)
  | String c r =>
      match digit_value c with
      | Some d => take_digits r (10 * acc + d) (k + 1)
      | None => (acc, k, s)
      end
  end.

Definition take_sign (s : string) : bool * string :=
  match s with
  | String "-" r => (true, r)
  | String "+" r => (false, r)
  | _ => (false, s)
  end.

(** The exponent part [e[+-]ddd] at the head of [s], 0 when there is
    none (an [e] that no digit follows is not part of the literal). *)
Definition take_exponent (s : string) : Z :=
  match s with
  | String c r =>
      if Ascii.eqb c "e" || Ascii.eqb c "E" then
        let '(neg, r') := take_sign r in
        let '(ev, ne, _) := take_digits r' 0 0 in
        if ne =? 0 then 0 else if neg then - ev else ev
      else 0
  | EmptyString => 0
  end.

(** [parseFloat(s)]: leading white space skipped, then the longest
    prefix that is a StrDecimalLiteral; NaN when there is none. *)
Definition parseFloat (s : string) : number :=
  let '(neg, s1) := take_sign (Str.trimStart s) in
  match Str.strip_prefix "Infinity" s1 with
  | Some _ => S754_infinity neg
  | None =>
      let '(ip, ni, r1) := take_digits s1 0 0 in
      let '(m, nf, r2) :=
        match r1 with
        | String "." r => take_digits r ip 0
        | _ => (ip, 0, r1)
        end in
      if ni + nf =? 0 then NaN
      else of_decimal neg m (take_exponent r2 - nf)
  end.

(** *** Number.prototype.toFixed *)

(** The decimal digits of a natural number, ["0"] for zero. *)
Definition dec (n : Z) : string :=
  DecimalString.NilZero.string_of_uint (N.to_uint (Z.to_N n)).

Fixpoint zeros (k : nat) : string :=
  match k with
  | O => EmptyString
  | S k' => String "0" (zeros k')
  end.

Fixpoint take (k : nat) (s : string) : string :=
  match k, s with
  | S k', String c r => String c (take k' r)
  | _, _ => EmptyString
  end.

Fixpoint drop (k : nat) (s : string) : string :=
  match k, s with
  | S k', String _ r => drop k' r
  | _, _ => s
  end.

(** Steps 9 and 10 of toFixed: the digits of [n] with a point before
    the last [f] of them, after padding with zeros on the left to
    [f + 1] digits. *)
Definition place_point (f : nat) (n : Z) : string :=
  let m := dec n in
  match f with
  | O => m
  | S _ =>
      let k := String.length m in
      let m' := if (k <=? f)%nat then zeros (f + 1 - k) ++ m else m in
      let k' := String.length m' in
      take (k' - f) m' ++ "." ++ drop (k' - f) m'
  end.

(** The integer [n] for which [n / 10^f - m * 2^e] is as close to zero
    as possible, the larger one when there are two. *)
Definition scaled_round (m : positive) (e : Z) (f : nat) : Z :=
  let a := Zpos m * 10 ^ Z.of_nat f in
  if 0 <=? e then a * 2 ^ e
  else (2 * a + 2 ^ (- e)) / (2 * 2 ^ (- e)).

(** [m * 2^e >= 10^21] *)
Definition ge_1e21 (m : positive) (e : Z) : bool :=
  if 0 <=? e then 10 ^ 21 <=? Zpos m * 2 ^ e
  else 10 ^ 21 * 2 ^ (- e) <=? Zpos m.

(** Number::toString for a finite [x >= 10^21], whose value is the
    integer [X] of [nd] digits: the least number [k] of digits [s] such
    that [s * 10^(n-k)] rounds to [x], the closest such [s] if several,
    the even one of two as close, written in exponent notation (here
    [n > 21]). The search is given one step for each of the [nd]
    digits; with all of them [s] is [X] itself, so it ends before the
    steps run out. *)
Definition round_trips (x : number) (V : Z) : bool := SFeqb (of_Z V) x.

Fixpoint shortest (fuel : nat) (k : Z) (x : number) (X nd : Z) : Z * Z :=
  let p := 10 ^ (nd - k) in
  let lo := (X / p) * p in
  let hi := lo + p in
  let pack V :=
    let s := V / p in
    if s =? 10 ^ k then (10 ^ (k - 1), nd + 1) else (s, nd) in
  match fuel with
  | O => pack lo
  | S fuel' =>
      match round_trips x lo, round_trips x hi with
      | true, true =>
          match (X - lo) ?= (hi - X) with
          | Lt => pack lo
          | Gt => pack hi
          | Eq => if Z.even (lo / p) then pack lo else pack hi
          end
      | true, false => pack lo
      | false, true => pack hi
      | false, false => shortest fuel' (k + 1) x X nd
      end
  end.

Definition toString_large (m : positive) (e : Z) : string :=
  let X := if 0 <=? e then Zpos m * 2 ^ e else Zpos m / 2 ^ (- e) in
  let nd := Z.of_nat (String.length (dec X)) in
  let '(s, n) := shortest (Z.to_nat nd) 1 (S754_finite false m e) X nd in
  let ds := dec s in
  match ds with
  | String d EmptyString => String d ("e+" ++ dec (n - 1))
  | String d r => String d ("." ++ r ++ "e+" ++ dec (n - 1))
  | EmptyString => EmptyString
  end.

(** [x.toFixed(f)] for [0 <= f <= 100]. *)
Definition toFixed (f : nat) (x : number) : string :=
  match x with
  | S754_nan => "NaN"
  | S754_infinity s => if s then "-Infinity" else "Infinity"
  | S754_zero _ => place_point f 0
  | S754_finite s m e =>
      (if s then "-" else EmptyString) ++
      (if ge_1e21 m e then toString_large m e
       else place_point f (scaled_round m e f))
  end.

End Num.

(** ** Handlers: state, exceptions and a trace of effects *)

Module Eff.

(** What a handler can throw: the TypeError of reading a property of
    [undefined] or [null] and of a [fetch] that fails, the SyntaxError
    of a body that is not JSON. *)
Inductive exn : Type := TypeError | SyntaxError.

Inductive outcome (A : Type) : Type :=
| Done (a : A)
| Thrown (e : exn).
Arguments Done {A} a.
Arguments Thrown {A} e.

Section Monad.
Context {S E : Type}.

(** How an effect changes the state. *)
Variable apply : E -> S -> S.

Record result (A : Type) : Type := mk_result
  { out : outcome A; final : S; trace : list E }.
Arguments mk_result {A} _ _ _.
Arguments out {A} _.
Arguments final {A} _.
Arguments trace {A} _.

Definition M (A : Type) : Type := S -> result A.

Definition ret {A} (a : A) : M A := fun s => mk_result (Done a) s [].

Definition throw {A} (e : exn) : M A := fun s => mk_result (Thrown e) s [].

Definition bind {A B} (m : M A) (k : A -> M B) : M B :=
  fun s =>
    let r := m s in
    match out r with
    | Done a =>
        let r' := k a (final r) in
        mk_result (out r') (final r') (trace r ++ trace r')
    | Thrown e => mk_result (Thrown e) (final r) (trace r)
    end.

(** [try { m } catch (error) { h }] *)
Definition try_catch {A} (m : M A) (h : exn -> M A) : M A :=
  fun s =>
    let r := m s in
    match out r with
    | Done a => r
    | Thrown e =>
        let r' := h e (final r) in
        mk_result (out r') (final r') (trace r ++ trace r')
    end.

(** The run [r], after the effects [t]. *)
Definition prepend {A} (t : list E) (r : result A) : result A :=
  mk_result (out r) (final r) (t ++ trace r).

(** Read the state. *)
Definition gets {A} (f : S -> A) : M A := fun s => mk_result (Done (f s)) s [].

(** Perform one effect: it changes the state and is recorded. *)
Definition emit (e : E) : M unit :=
  fun s => mk_result (Done tt) (apply e s) [e].

(** [items.forEach((item) => f(item))], the callback also given the
    position of the item. *)
Fixpoint forEach {A} (f : nat -> A -> M unit) (i : nat) (l : list A) : M unit :=
  match l with
  | [] => ret tt
  | x :: r => bind (f i x) (fun _ => forEach f (Datatypes.S i) r)
  end.

End Monad.

Arguments mk_result {S E A} _ _ _.
Arguments out {S E A} _.
Arguments final {S E A} _.
Arguments trace {S E A} _.
Arguments ret {S E A} a.
Arguments throw {S E A} e.
Arguments bind {S E A B} m k.
Arguments try_catch {S E A} m h.
Arguments gets {S E A} f.
Arguments prepend {S E A} t r.

End Eff.

Declare Scope eff_scope.
Delimit Scope eff_scope with eff.
Notation "x <- m ;; k" := (Eff.bind m (fun x => k))
  (at level 61, m at next level, right associativity) : eff_scope.
Notation "m ;; k" := (Eff.bind m (fun _ => k))
  (at level 61, right associativity) : eff_scope.

(** ** What both controllers share: values, chat nodes, requests *)

Module Dom.

Import Num.

(** The values a price field holds: a number, or [undefined] when the
    reply carried no such field. *)
Inductive value : Type :=
| Undefined
| Number (x : number).

(** ToNumber *)
Definition to_number (v : value) : number :=
  match v with
  | Undefined => NaN
  | Number x => x
  end.

Inductive sender : Type := User | Bot.

Definition sender_eqb (a b : sender) : bool :=
  match a, b with
  | User, User | Bot, Bot => true
  | _, _ => false
  end.

(** A node of the chat log: a message, or the typing placeholder
    (the element with id [typing-indicator]).

    The text of a message is assigned to [innerHTML], so it is markup:
    the HTML parser may build from it elements that carry an id of
    their own, the id [typing-indicator] among them, which is the one
    the chat code looks up. A message is held as the markup it was
    given and the number of elements with that id that have since been
    removed from it. The details of the success modal are the other
    text of the page that is given as markup, and are held in the same
    way by the pages. The time of a message is a clock reading, a text
    without markup, and the fixed markup of a message and of the
    placeholder carries no id. *)
Record message : Type := mk_message
  { msg_sender : sender;
    msg_html : string;          (* the markup assigned to its text *)
    msg_time : string;          (* the clock reading when it was added *)
    msg_purchase_button : bool; (* the purchase-suggestion block *)
    msg_removed : nat           (* elements with id typing-indicator
                                   removed from its text so far *) }.

Inductive chat_node : Type :=
| Message (m : message)
| TypingIndicator.

Definition is_typing (n : chat_node) : bool :=
  match n with TypingIndicator => true | Message _ => false end.

(** The message with one more element removed from its text. *)
Definition remove_from (m : message) : message :=
  {| msg_sender := msg_sender m; msg_html := msg_html m;
     msg_time := msg_time m; msg_purchase_button := msg_purchase_button m;
     msg_removed := S (msg_removed m) |}.

(** Whether [document.getElementById('typing-indicator')] finds an
    element in a node: the placeholder is one; a message holds one as
    long as the parser built more of them from its markup than were
    removed. [ids markup] is what the HTML parser decides: how many
    times in a row the lookup followed by [remove()] finds an element
    in the tree built from [markup]. *)
Definition holds_typing (ids : string -> nat) (n : chat_node) : bool :=
  match n with
  | TypingIndicator => true
  | Message m => (msg_removed m <? ids (msg_html m))%nat
  end.

(** [document.getElementById('typing-indicator').remove()] when the
    element is found in the chat log: the first element with the id,
    in the order of the log, leaves it. It is the first placeholder
    when no message before it holds such an element, otherwise an
    element inside the text of that message. *)
Fixpoint remove_typing (ids : string -> nat) (l : list chat_node) : list chat_node :=
  match l with
  | [] => []
  | TypingIndicator :: r => r
  | Message m :: r =>
      if (msg_removed m <? ids (msg_html m))%nat
      then Message (remove_from m) :: r
      else Message m :: remove_typing ids r
  end.

(** A field of a JSON object, as [JSON.stringify] writes it; a request
    body is an object of such fields, in the order of the literal. *)
Inductive json : Type :=
| JNull
| JNum (x : number)
| JStr (s : string).

(** A number that is not finite is written [null], and a zero of
    either sign is written [0]. *)
Definition json_of_number (x : number) : json :=
  match x with
  | S754_zero _ => JNum zero
  | S754_finite _ _ _ => JNum x
  | S754_infinity _ | S754_nan => JNull
  end.

(** A form entry that is absent ([FormData.get] gives [null]) is
    written [null]. *)
Definition json_of_entry (o : option string) : json :=
  match o with
  | Some s => JStr s
  | None => JNull
  end.

Inductive method : Type := GET | POST.

Record request : Type := mk_request
  { url : string; verb : method; body : option (list (string * json)) }.

(** The body of a reply, after [response.json()]. *)
Inductive parsed (A : Type) : Type :=
| ParseFailure          (* response.json() rejects *)
| Null                  (* the document is null *)
| Object (a : A).       (* any other document, read through its fields *)
Arguments ParseFailure {A}.
Arguments Null {A}.
Arguments Object {A} a.

(** What [await fetch(...)] followed by [await response.json()] gives. *)
Inductive reply (A : Type) : Type :=
| NetworkError                         (* fetch rejects *)
| Response (ok : bool) (b : parsed A). (* response.ok and the body *)
Arguments NetworkError {A}.
Arguments Response {A} ok b.

(** The fields of a chat reply: [response] when it is a string,
    and the truth value of [purchase_encouraged]. *)
Record chat_data : Type := mk_chat_data
  { response : option string; purchase_encouraged : bool }.

(** ToString of a form entry: [null] reads as the text null. *)
Definition entry_text (o : option string) : string :=
  match o with
  | Some s => s
  | None => "null"
  end.

(** The double quote, for markup. *)
Definition dq : string := String (Str.byte 34) EmptyString.

(** A line feed. *)
Definition nl : string := String (Str.byte 10) EmptyString.

End Dom.

(** ** The primary controller: [class KuberAI] *)

Module KuberAI.

Import Num Dom Eff.
Local Open Scope eff_scope.

(** *** The page *)

(** A [.nav-item]: its [data-section] attribute ([None] when it has
    none) and whether its class list holds [active]. *)
Record nav_item : Type := mk_nav_item
  { data_section : option string; nav_active : bool }.

(** A [.content-section]: its id and whether its class list holds
    [active]. *)
Record content_section : Type := mk_content_section
  { section_id : string; section_active : bool }.

(** The fields of the controller and the elements it reads and writes.
    An element the code tests before it uses it is optional ([None]
    when the page has none); the others are part of the page. The form
    entry [amount] that [FormData] reads is the value of [#amount], the
    element [showSuccessModal] reads the purchase amount from. *)
Record page : Type := mk_page
  { userId : string  (* this.userId *);
    goldPriceINR : value  (* this.goldPriceINR *);
    currentSection : string  (* this.currentSection *);
    chatMessages : list chat_node  (* the children of #chatMessages *);
    messageInput : string  (* #messageInput, its value *);
    purchaseModal : string  (* #purchaseModal, its style.display *);
    successModal : string  (* #successModal, its style.display *);
    successDetails : string  (* #successDetails, the markup it was given *);
    formUserName : option string  (* the form entry userName *);
    formUserEmail : option string  (* the form entry userEmail *);
    amountInput : option string  (* #amount, its value (the form entry amount) *);
    goldAmountSpan : option string  (* #goldAmount, its text *);
    gstAmount : option string  (* #gstAmount, its text *);
    totalAmount : option string  (* #totalAmount, its text *);
    pricePerGram : option string  (* #pricePerGram, its text *);
    sidebarGoldPrice : option string  (* #sidebarGoldPrice, its text *);
    navItems : list nav_item  (* the .nav-item elements *);
    contentSections : list content_section  (* the .content-section elements *);
    sectionTitle : string  (* #sectionTitle, its text *);
    sectionSubtitle : string  (* #sectionSubtitle, its text *);
    clock : string  (* what new Date().toLocaleTimeString(...) reads now *);
    typing_ids : string -> nat
      (* the HTML parser: the elements with id typing-indicator that a
         markup brings, see [Dom.holds_typing] *);
    details_removed : nat
      (* the elements with id typing-indicator removed from
         #successDetails since it was filled *);
    details_first : bool
      (* whether #successDetails comes before #chatMessages in the
         document *) }.

Definition set_goldPriceINR (v : value) (p : page) : page :=
  {| userId := userId p; goldPriceINR := v;
     currentSection := currentSection p; chatMessages := chatMessages p;
     messageInput := messageInput p; purchaseModal := purchaseModal p;
     successModal := successModal p; successDetails := successDetails p;
     formUserName := formUserName p; formUserEmail := formUserEmail p;
     amountInput := amountInput p; goldAmountSpan := goldAmountSpan p;
     gstAmount := gstAmount p; totalAmount := totalAmount p;
     pricePerGram := pricePerGram p;
     sidebarGoldPrice := sidebarGoldPrice p; navItems := navItems p;
     contentSections := contentSections p; sectionTitle := sectionTitle p;
     sectionSubtitle := sectionSubtitle p; clock := clock p;
     typing_ids := typing_ids p;
     details_removed := details_removed p;
     details_first := details_first p |}.

Definition set_currentSection (v : string) (p : page) : page :=
  {| userId := userId p; goldPriceINR := goldPriceINR p;
     currentSection := v; chatMessages := chatMessages p;
     messageInput := messageInput p; purchaseModal := purchaseModal p;
     successModal := successModal p; successDetails := successDetails p;
     formUserName := formUserName p; formUserEmail := formUserEmail p;
     amountInput := amountInput p; goldAmountSpan := goldAmountSpan p;
     gstAmount := gstAmount p; totalAmount := totalAmount p;
     pricePerGram := pricePerGram p;
     sidebarGoldPrice := sidebarGoldPrice p; navItems := navItems p;
     contentSections := contentSections p; sectionTitle := sectionTitle p;
     sectionSubtitle := sectionSubtitle p; clock := clock p;
     typing_ids := typing_ids p;
     details_removed := details_removed p;
     details_first := details_first p |}.

Definition set_chatMessages (v : list chat_node) (p : page) : page :=
  {| userId := userId p; goldPriceINR := goldPriceINR p;
     currentSection := currentSection p; chatMessages := v;
     messageInput := messageInput p; purchaseModal := purchaseModal p;
     successModal := successModal p; successDetails := successDetails p;
     formUserName := formUserName p; formUserEmail := formUserEmail p;
     amountInput := amountInput p; goldAmountSpan := goldAmountSpan p;
     gstAmount := gstAmount p; totalAmount := totalAmount p;
     pricePerGram := pricePerGram p;
     sidebarGoldPrice := sidebarGoldPrice p; navItems := navItems p;
     contentSections := contentSections p; sectionTitle := sectionTitle p;
     sectionSubtitle := sectionSubtitle p; clock := clock p;
     typing_ids := typing_ids p;
     details_removed := details_removed p;
     details_first := details_first p |}.

Definition set_details_removed (v : nat) (p : page) : page :=
  {| userId := userId p; goldPriceINR := goldPriceINR p;
     currentSection := currentSection p; chatMessages := chatMessages p;
     messageInput := messageInput p; purchaseModal := purchaseModal p;
     successModal := successModal p; successDetails := successDetails p;
     formUserName := formUserName p; formUserEmail := formUserEmail p;
     amountInput := amountInput p; goldAmountSpan := goldAmountSpan p;
     gstAmount := gstAmount p; totalAmount := totalAmount p;
     pricePerGram := pricePerGram p;
     sidebarGoldPrice := sidebarGoldPrice p; navItems := navItems p;
     contentSections := contentSections p; sectionTitle := sectionTitle p;
     sectionSubtitle := sectionSubtitle p; clock := clock p;
     typing_ids := typing_ids p;
     details_removed := v;
     details_first := details_first p |}.

Definition set_messageInput (v : string) (p : page) : page :=
  {| userId := userId p; goldPriceINR := goldPriceINR p;
     currentSection := currentSection p; chatMessages := chatMessages p;
     messageInput := v; purchaseModal := purchaseModal p;
     successModal := successModal p; successDetails := successDetails p;
     formUserName := formUserName p; formUserEmail := formUserEmail p;
     amountInput := amountInput p; goldAmountSpan := goldAmountSpan p;
     gstAmount := gstAmount p; totalAmount := totalAmount p;
     pricePerGram := pricePerGram p;
     sidebarGoldPrice := sidebarGoldPrice p; navItems := navItems p;
     contentSections := contentSections p; sectionTitle := sectionTitle p;
     sectionSubtitle := sectionSubtitle p; clock := clock p;
     typing_ids := typing_ids p;
     details_removed := details_removed p;
     details_first := details_first p |}.

Definition set_purchaseModal (v : string) (p : page) : page :=
  {| userId := userId p; goldPriceINR := goldPriceINR p;
     currentSection := currentSection p; chatMessages := chatMessages p;
     messageInput := messageInput p; purchaseModal := v;
     successModal := successModal p; successDetails := successDetails p;
     formUserName := formUserName p; formUserEmail := formUserEmail p;
     amountInput := amountInput p; goldAmountSpan := goldAmountSpan p;
     gstAmount := gstAmount p; totalAmount := totalAmount p;
     pricePerGram := pricePerGram p;
     sidebarGoldPrice := sidebarGoldPrice p; navItems := navItems p;
     contentSections := contentSections p; sectionTitle := sectionTitle p;
     sectionSubtitle := sectionSubtitle p; clock := clock p;
     typing_ids := typing_ids p;
     details_removed := details_removed p;
     details_first := details_first p |}.

Definition set_successModal (v : string) (p : page) : page :=
  {| userId := userId p; goldPriceINR := goldPriceINR p;
     currentSection := currentSection p; chatMessages := chatMessages p;
     messageInput := messageInput p; purchaseModal := purchaseModal p;
     successModal := v; successDetails := successDetails p;
     formUserName := formUserName p; formUserEmail := formUserEmail p;
     amountInput := amountInput p; goldAmountSpan := goldAmountSpan p;
     gstAmount := gstAmount p; totalAmount := totalAmount p;
     pricePerGram := pricePerGram p;
     sidebarGoldPrice := sidebarGoldPrice p; navItems := navItems p;
     contentSections := contentSections p; sectionTitle := sectionTitle p;
     sectionSubtitle := sectionSubtitle p; clock := clock p;
     typing_ids := typing_ids p;
     details_removed := details_removed p;
     details_first := details_first p |}.

Definition set_successDetails (v : string) (p : page) : page :=
  {| userId := userId p; goldPriceINR := goldPriceINR p;
     currentSection := currentSection p; chatMessages := chatMessages p;
     messageInput := messageInput p; purchaseModal := purchaseModal p;
     successModal := successModal p; successDetails := v;
     formUserName := formUserName p; formUserEmail := formUserEmail p;
     amountInput := amountInput p; goldAmountSpan := goldAmountSpan p;
     gstAmount := gstAmount p; totalAmount := totalAmount p;
     pricePerGram := pricePerGram p;
     sidebarGoldPrice := sidebarGoldPrice p; navItems := navItems p;
     contentSections := contentSections p; sectionTitle := sectionTitle p;
     sectionSubtitle := sectionSubtitle p; clock := clock p;
     typing_ids := typing_ids p;
     details_removed := details_removed p;
     details_first := details_first p |}.

Definition set_amountInput (v : option string) (p : page) : page :=
  {| userId := userId p; goldPriceINR := goldPriceINR p;
     currentSection := currentSection p; chatMessages := chatMessages p;
     messageInput := messageInput p; purchaseModal := purchaseModal p;
     successModal := successModal p; successDetails := successDetails p;
     formUserName := formUserName p; formUserEmail := formUserEmail p;
     amountInput := v; goldAmountSpan := goldAmountSpan p;
     gstAmount := gstAmount p; totalAmount := totalAmount p;
     pricePerGram := pricePerGram p;
     sidebarGoldPrice := sidebarGoldPrice p; navItems := navItems p;
     contentSections := contentSections p; sectionTitle := sectionTitle p;
     sectionSubtitle := sectionSubtitle p; clock := clock p;
     typing_ids := typing_ids p;
     details_removed := details_removed p;
     details_first := details_first p |}.

Definition set_goldAmountSpan (v : option string) (p : page) : page :=
  {| userId := userId p; goldPriceINR := goldPriceINR p;
     currentSection := currentSection p; chatMessages := chatMessages p;
     messageInput := messageInput p; purchaseModal := purchaseModal p;
     successModal := successModal p; successDetails := successDetails p;
     formUserName := formUserName p; formUserEmail := formUserEmail p;
     amountInput := amountInput p; goldAmountSpan := v;
     gstAmount := gstAmount p; totalAmount := totalAmount p;
     pricePerGram := pricePerGram p;
     sidebarGoldPrice := sidebarGoldPrice p; navItems := navItems p;
     contentSections := contentSections p; sectionTitle := sectionTitle p;
     sectionSubtitle := sectionSubtitle p; clock := clock p;
     typing_ids := typing_ids p;
     details_removed := details_removed p;
     details_first := details_first p |}.

Definition set_gstAmount (v : option string) (p : page) : page :=
  {| userId := userId p; goldPriceINR := goldPriceINR p;
     currentSection := currentSection p; chatMessages := chatMessages p;
     messageInput := messageInput p; purchaseModal := purchaseModal p;
     successModal := successModal p; successDetails := successDetails p;
     formUserName := formUserName p; formUserEmail := formUserEmail p;
     amountInput := amountInput p; goldAmountSpan := goldAmountSpan p;
     gstAmount := v; totalAmount := totalAmount p;
     pricePerGram := pricePerGram p;
     sidebarGoldPrice := sidebarGoldPrice p; navItems := navItems p;
     contentSections := contentSections p; sectionTitle := sectionTitle p;
     sectionSubtitle := sectionSubtitle p; clock := clock p;
     typing_ids := typing_ids p;
     details_removed := details_removed p;
     details_first := details_first p |}.

Definition set_totalAmount (v : option string) (p : page) : page :=
  {| userId := userId p; goldPriceINR := goldPriceINR p;
     currentSection := currentSection p; chatMessages := chatMessages p;
     messageInput := messageInput p; purchaseModal := purchaseModal p;
     successModal := successModal p; successDetails := successDetails p;
     formUserName := formUserName p; formUserEmail := formUserEmail p;
     amountInput := amountInput p; goldAmountSpan := goldAmountSpan p;
     gstAmount := gstAmount p; totalAmount := v;
     pricePerGram := pricePerGram p;
     sidebarGoldPrice := sidebarGoldPrice p; navItems := navItems p;
     contentSections := contentSections p; sectionTitle := sectionTitle p;
     sectionSubtitle := sectionSubtitle p; clock := clock p;
     typing_ids := typing_ids p;
     details_removed := details_removed p;
     details_first := details_first p |}.

Definition set_pricePerGram (v : option string) (p : page) : page :=
  {| userId := userId p; goldPriceINR := goldPriceINR p;
     currentSection := currentSection p; chatMessages := chatMessages p;
     messageInput := messageInput p; purchaseModal := purchaseModal p;
     successModal := successModal p; successDetails := successDetails p;
     formUserName := formUserName p; formUserEmail := formUserEmail p;
     amountInput := amountInput p; goldAmountSpan := goldAmountSpan p;
     gstAmount := gstAmount p; totalAmount := totalAmount p;
     pricePerGram := v; sidebarGoldPrice := sidebarGoldPrice p;
     navItems := navItems p; contentSections := contentSections p;
     sectionTitle := sectionTitle p; sectionSubtitle := sectionSubtitle p;
     clock := clock p;
     typing_ids := typing_ids p;
     details_removed := details_removed p;
     details_first := details_first p |}.

Definition set_sidebarGoldPrice (v : option string) (p : page) : page :=
  {| userId := userId p; goldPriceINR := goldPriceINR p;
     currentSection := currentSection p; chatMessages := chatMessages p;
     messageInput := messageInput p; purchaseModal := purchaseModal p;
     successModal := successModal p; successDetails := successDetails p;
     formUserName := formUserName p; formUserEmail := formUserEmail p;
     amountInput := amountInput p; goldAmountSpan := goldAmountSpan p;
     gstAmount := gstAmount p; totalAmount := totalAmount p;
     pricePerGram := pricePerGram p; sidebarGoldPrice := v;
     navItems := navItems p; contentSections := contentSections p;
     sectionTitle := sectionTitle p; sectionSubtitle := sectionSubtitle p;
     clock := clock p;
     typing_ids := typing_ids p;
     details_removed := details_removed p;
     details_first := details_first p |}.

Definition set_navItems (v : list nav_item) (p : page) : page :=
  {| userId := userId p; goldPriceINR := goldPriceINR p;
     currentSection := currentSection p; chatMessages := chatMessages p;
     messageInput := messageInput p; purchaseModal := purchaseModal p;
     successModal := successModal p; successDetails := successDetails p;
     formUserName := formUserName p; formUserEmail := formUserEmail p;
     amountInput := amountInput p; goldAmountSpan := goldAmountSpan p;
     gstAmount := gstAmount p; totalAmount := totalAmount p;
     pricePerGram := pricePerGram p;
     sidebarGoldPrice := sidebarGoldPrice p; navItems := v;
     contentSections := contentSections p; sectionTitle := sectionTitle p;
     sectionSubtitle := sectionSubtitle p; clock := clock p;
     typing_ids := typing_ids p;
     details_removed := details_removed p;
     details_first := details_first p |}.

Definition set_contentSections (v : list content_section) (p : page) : page :=
  {| userId := userId p; goldPriceINR := goldPriceINR p;
     currentSection := currentSection p; chatMessages := chatMessages p;
     messageInput := messageInput p; purchaseModal := purchaseModal p;
     successModal := successModal p; successDetails := successDetails p;
     formUserName := formUserName p; formUserEmail := formUserEmail p;
     amountInput := amountInput p; goldAmountSpan := goldAmountSpan p;
     gstAmount := gstAmount p; totalAmount := totalAmount p;
     pricePerGram := pricePerGram p;
     sidebarGoldPrice := sidebarGoldPrice p; navItems := navItems p;
     contentSections := v; sectionTitle := sectionTitle p;
     sectionSubtitle := sectionSubtitle p; clock := clock p;
     typing_ids := typing_ids p;
     details_removed := details_removed p;
     details_first := details_first p |}.

Definition set_sectionTitle (v : string) (p : page) : page :=
  {| userId := userId p; goldPriceINR := goldPriceINR p;
     currentSection := currentSection p; chatMessages := chatMessages p;
     messageInput := messageInput p; purchaseModal := purchaseModal p;
     successModal := successModal p; successDetails := successDetails p;
     formUserName := formUserName p; formUserEmail := formUserEmail p;
     amountInput := amountInput p; goldAmountSpan := goldAmountSpan p;
     gstAmount := gstAmount p; totalAmount := totalAmount p;
     pricePerGram := pricePerGram p;
     sidebarGoldPrice := sidebarGoldPrice p; navItems := navItems p;
     contentSections := contentSections p; sectionTitle := v;
     sectionSubtitle := sectionSubtitle p; clock := clock p;
     typing_ids := typing_ids p;
     details_removed := details_removed p;
     details_first := details_first p |}.

Definition set_sectionSubtitle (v : string) (p : page) : page :=
  {| userId := userId p; goldPriceINR := goldPriceINR p;
     currentSection := currentSection p; chatMessages := chatMessages p;
     messageInput := messageInput p; purchaseModal := purchaseModal p;
     successModal := successModal p; successDetails := successDetails p;
     formUserName := formUserName p; formUserEmail := formUserEmail p;
     amountInput := amountInput p; goldAmountSpan := goldAmountSpan p;
     gstAmount := gstAmount p; totalAmount := totalAmount p;
     pricePerGram := pricePerGram p;
     sidebarGoldPrice := sidebarGoldPrice p; navItems := navItems p;
     contentSections := contentSections p; sectionTitle := sectionTitle p;
     sectionSubtitle := v; clock := clock p;
     typing_ids := typing_ids p;
     details_removed := details_removed p;
     details_first := details_first p |}.

(** Modelled from the spec: the markup of the purchase form
    ([templates/index.html]) is not among the sources, so the initial
    values of its controls are not known; the spec has the reset return
    the form and the quote display to idle, which makes them the empty
    text. [this.purchaseForm.reset()] then gives every control of the
    form the empty text. *)
Definition reset_form (p : page) : page :=
  {| userId := userId p; goldPriceINR := goldPriceINR p;
     currentSection := currentSection p; chatMessages := chatMessages p;
     messageInput := messageInput p; purchaseModal := purchaseModal p;
     successModal := successModal p; successDetails := successDetails p;
     formUserName := option_map (fun _ => EmptyString) (formUserName p);
     formUserEmail := option_map (fun _ => EmptyString) (formUserEmail p);
     amountInput := option_map (fun _ => EmptyString) (amountInput p);
     goldAmountSpan := goldAmountSpan p;
     gstAmount := gstAmount p; totalAmount := totalAmount p;
     pricePerGram := pricePerGram p;
     sidebarGoldPrice := sidebarGoldPrice p; navItems := navItems p;
     contentSections := contentSections p; sectionTitle := sectionTitle p;
     sectionSubtitle := sectionSubtitle p; clock := clock p;
     typing_ids := typing_ids p;
     details_removed := details_removed p;
     details_first := details_first p |}.

(** *** Effects *)

Inductive target : Type :=
| GoldAmount | GstAmount | TotalAmount | PricePerGram | SidebarGoldPrice
| SectionTitle | SectionSubtitle | SuccessDetails.

Inductive modal : Type := PurchaseModal | SuccessModal.

Inductive event : Type :=
| SetPrice (v : value)                 (* this.goldPriceINR = v *)
| SetCurrentSection (s : string)       (* this.currentSection = s *)
| SetText (t : target) (v : string)    (* textContent or innerHTML = v *)
| SetDisplay (m : modal) (v : string)  (* style.display = v *)
| SetMessageInput (v : string)         (* this.messageInput.value = v *)
| AppendChat (n : chat_node)           (* this.chatMessages.appendChild(n) *)
| RemoveTyping                         (* typingIndicator.remove() *)
| FormReset                            (* this.purchaseForm.reset() *)
| NavClass (i : nat) (on : bool)       (* classList.add/remove('active') *)
| SectionClass (i : nat) (on : bool)
| Alert (msg : string)                 (* alert(msg) *)
| Fetch (r : request).                 (* fetch(url, ...) *)

(** What a target shows, [None] for an optional element the page
    lacks. *)
Definition text_of (t : target) (p : page) : option string :=
  match t with
  | GoldAmount => goldAmountSpan p
  | GstAmount => gstAmount p
  | TotalAmount => totalAmount p
  | PricePerGram => pricePerGram p
  | SidebarGoldPrice => sidebarGoldPrice p
  | SectionTitle => Some (sectionTitle p)
  | SectionSubtitle => Some (sectionSubtitle p)
  | SuccessDetails => Some (successDetails p)
  end.

Definition write (o : option string) (v : string) : option string :=
  option_map (fun _ => v) o.

Definition set_text (t : target) (v : string) (p : page) : page :=
  match t with
  | GoldAmount => set_goldAmountSpan (write (goldAmountSpan p) v) p
  | GstAmount => set_gstAmount (write (gstAmount p) v) p
  | TotalAmount => set_totalAmount (write (totalAmount p) v) p
  | PricePerGram => set_pricePerGram (write (pricePerGram p) v) p
  | SidebarGoldPrice => set_sidebarGoldPrice (write (sidebarGoldPrice p) v) p
  | SectionTitle => set_sectionTitle v p
  | SectionSubtitle => set_sectionSubtitle v p
  | SuccessDetails => set_details_removed 0 (set_successDetails v p)
  end.

(** The list [l] with [f] applied to its element at position [i]. *)
Fixpoint update_nth {A} (i : nat) (f : A -> A) (l : list A) : list A :=
  match l, i with
  | [], _ => []
  | x :: r, O => f x :: r
  | x :: r, S i' => x :: update_nth i' f r
  end.

Definition set_nav_active (on : bool) (it : nav_item) : nav_item :=
  {| data_section := data_section it; nav_active := on |}.

Definition set_section_active (on : bool) (c : content_section) : content_section :=
  {| section_id := section_id c; section_active := on |}.

(** Whether [document.getElementById('typing-indicator')] finds an
    element in the chat log, in the details of the success modal. The
    details are given as markup too, and hold such an element as long
    as the parser built more of them than were removed. *)
Definition chat_holds (p : page) : bool :=
  existsb (holds_typing (typing_ids p)) (chatMessages p).

Definition details_hold (p : page) : bool :=
  (details_removed p <? typing_ids p (successDetails p))%nat.

(** [document.getElementById('typing-indicator').remove()]: the first
    element with the id in the document leaves it. The log is gone
    through in its order; the details of the success modal come before
    it or after it, as the page has them. *)
Definition remove_first_typing (p : page) : page :=
  if details_first p && details_hold p
  then set_details_removed (S (details_removed p)) p
  else if chat_holds p
  then set_chatMessages (remove_typing (typing_ids p) (chatMessages p)) p
  else if details_hold p
  then set_details_removed (S (details_removed p)) p
  else p.

Definition apply (e : event) (p : page) : page :=
  match e with
  | SetPrice v => set_goldPriceINR v p
  | SetCurrentSection s => set_currentSection s p
  | SetText t v => set_text t v p
  | SetDisplay PurchaseModal v => set_purchaseModal v p
  | SetDisplay SuccessModal v => set_successModal v p
  | SetMessageInput v => set_messageInput v p
  | AppendChat n => set_chatMessages (chatMessages p ++ [n]) p
  | RemoveTyping => remove_first_typing p
  | FormReset => reset_form p
  | NavClass i on => set_navItems (update_nth i (set_nav_active on) (navItems p)) p
  | SectionClass i on =>
      set_contentSections (update_nth i (set_section_active on) (contentSections p)) p
  | Alert _ => p
  | Fetch _ => p
  end.

Definition M : Type -> Type := Eff.M (S := page) (E := event).

Definition emit (e : event) : M unit := Eff.emit apply e.

(** [if (el) el.textContent = v] *)
Definition set_if_present (t : target) (v : string) : M unit :=
  o <- gets (text_of t) ;;
  match o with
  | Some _ => emit (SetText t v)
  | None => ret tt
  end.

(** *** The operations

    The [console.log] and [console.error] calls of the source change
    nothing on the page and are left out. *)

(** The currency sign, as the source file has it. *)
Definition rupee : string := "‚Çπ".

(** [5469.25], the hardcoded fallback price. *)
Definition fallback_price : number := of_decimal false 546925 (-2).

(** [0.03], the GST rate. *)
Definition gstRate : number := of_decimal false 3 (-2).

(** [x.toFixed(f)] on a field that may hold [undefined]. *)
Definition toFixed_of (f : nat) (v : value) : M string :=
  match v with
  | Number x => ret (toFixed f x)
  | Undefined => throw TypeError
  end.

(** **** setupNavigation: the lookup table of the header *)

Record section_entry : Type := mk_section_entry
  { title : string; subtitle : string }.

(** What [object[key]] finds: an own property, a member inherited
    from [Object.prototype], or nothing ([undefined]). *)
Inductive property (A : Type) : Type :=
| Own (a : A)
| Inherited
| Absent.
Arguments Own {A} a.
Arguments Inherited {A}.
Arguments Absent {A}.

Definition object_prototype_keys : list string :=
  [ "constructor"; "hasOwnProperty"; "isPrototypeOf"; "propertyIsEnumerable";
    "toLocaleString"; "toString"; "valueOf"; "__proto__";
    "__defineGetter__"; "__defineSetter__"; "__lookupGetter__";
    "__lookupSetter__" ].

Definition sectionData_own : list (string * section_entry) :=
  [ ("chat",
     {| title := "AI Assistant";
        subtitle := "Get intelligent gold investment advice powered by advanced AI" |});
    ("analytics",
     {| title := "Analytics Dashboard";
        subtitle := "Track your investment performance and platform metrics" |});
    ("portfolio",
     {| title := "Portfolio Management";
        subtitle := "Monitor your gold holdings and investment performance" |});
    ("market",
     {| title := "Market Intelligence";
        subtitle := "Real-time gold market data and insights" |}) ].

Fixpoint assoc {A} (k : string) (l : list (string * A)) : option A :=
  match l with
  | [] => None
  | (k', a) :: r => if String.eqb k k' then Some a else assoc k r
  end.

(** [this.sectionData[sectionName]] *)
Definition sectionData (sectionName : string) : property section_entry :=
  match assoc sectionName sectionData_own with
  | Some d => Own d
  | None =>
      if existsb (String.eqb sectionName) object_prototype_keys
      then Inherited else Absent
  end.

(** **** updateAnalytics, up to its first [await]: the request leaves.
    Its reply fills the four analytics counters, which nothing here
    reads. *)
Definition updateAnalytics : M unit :=
  emit (Fetch {| url := "/analytics"; verb := GET; body := None |}).

(** **** switchSection *)
Definition switchSection (sectionName : string) : M unit :=
  items <- gets navItems ;;
  forEach (fun i item =>
             emit (NavClass i false) ;;
             match data_section item with
             | Some a =>
                 if String.eqb a sectionName then emit (NavClass i true) else ret tt
             | None => ret tt
             end) 0%nat items ;;
  sections <- gets contentSections ;;
  forEach (fun i section =>
             emit (SectionClass i false) ;;
             if String.eqb (section_id section) (sectionName ++ "-section")
             then emit (SectionClass i true) else ret tt) 0%nat sections ;;
  match sectionData sectionName with
  | Absent => throw TypeError              (* data is undefined: data.title *)
  | Own data =>
      emit (SetText SectionTitle (title data)) ;;
      emit (SetText SectionSubtitle (subtitle data))
  | Inherited =>                           (* data.title is undefined *)
      emit (SetText SectionTitle EmptyString) ;;
      emit (SetText SectionSubtitle EmptyString)
  end ;;
  emit (SetCurrentSection sectionName) ;;
  if String.eqb sectionName "analytics" then updateAnalytics else ret tt.

(** **** updateGoldPrice *)

(** Up to its first [await]. *)
Definition updateGoldPrice : M unit :=
  emit (Fetch {| url := "/gold-price"; verb := GET; body := None |}).

(** From the reply on; the body is read through its field
    [price_per_gram_inr]. *)
Definition updateGoldPrice_reply (r : reply value) : M unit :=
  try_catch
    (match r with
     | NetworkError => throw TypeError
     | Response _ ParseFailure => throw SyntaxError
     | Response _ Null => throw TypeError
     | Response _ (Object price_per_gram_inr) =>
         emit (SetPrice price_per_gram_inr) ;;
         sidebar <- gets sidebarGoldPrice ;;
         match sidebar with
         | Some _ =>
             s <- toFixed_of 2 price_per_gram_inr ;;
             emit (SetText SidebarGoldPrice (rupee ++ s ++ "/g"))
         | None => ret tt
         end ;;
         priceElement <- gets pricePerGram ;;
         match priceElement with
         | Some _ =>
             s <- toFixed_of 2 price_per_gram_inr ;;
             emit (SetText PricePerGram (rupee ++ s))
         | None => ret tt
         end
     end)
    (fun _ => emit (SetPrice (Number fallback_price))).

(** **** updateGoldCalculation *)

(** [!price || price <= 0 || isNaN(price)] *)
Definition price_invalid (v : value) : bool :=
  match v with
  | Undefined => true
  | Number x => negb (truthy x) || leb x zero || isNaN x
  end.

Definition idle_gold_amount : string := "0 grams (" ++ rupee ++ "0.00)".
Definition idle_money : string := rupee ++ "0.00".

Definition reset_displays : M unit :=
  set_if_present GoldAmount idle_gold_amount ;;
  set_if_present GstAmount idle_money ;;
  set_if_present TotalAmount idle_money.

Definition updateGoldCalculation : M unit :=
  input <- gets amountInput ;;
  match input with
  | None => ret tt
  | Some value =>
      stored <- gets goldPriceINR ;;
      (if price_invalid stored then emit (SetPrice (Number fallback_price))
       else ret tt) ;;
      let inputValue := Str.trim value in
      priceElement <- gets pricePerGram ;;
      match priceElement with
      | Some _ =>
          price <- gets goldPriceINR ;;
          s <- toFixed_of 2 price ;;
          emit (SetText PricePerGram (rupee ++ s))
      | None => ret tt
      end ;;
      if String.eqb inputValue EmptyString || isNaN (parseFloat inputValue)
      then reset_displays
      else
        let amountINR := parseFloat inputValue in
        if leb amountINR zero then reset_displays
        else
          price <- gets goldPriceINR ;;
          let gstAmount := mul amountINR gstRate in
          let totalAmount := add amountINR gstAmount in
          let goldGrams := div amountINR (to_number price) in
          if isNaN goldGrams || negb (isFinite goldGrams)
             || isNaN gstAmount || isNaN totalAmount
          then
            set_if_present GoldAmount "Calculation Error" ;;
            set_if_present GstAmount idle_money ;;
            set_if_present TotalAmount idle_money
          else
            set_if_present GoldAmount
              (toFixed 4 goldGrams ++ " grams (" ++ rupee
                 ++ toFixed 2 amountINR ++ ")") ;;
            set_if_present GstAmount (rupee ++ toFixed 2 gstAmount) ;;
            set_if_present TotalAmount (rupee ++ toFixed 2 totalAmount)
  end.

(** **** The chat *)

(** [text] is [None] when the argument is not a string: [text.replace]
    then throws. *)
Definition addMessage (text : option string) (sender : sender)
    (showPurchaseButton : bool) : M unit :=
  match text with
  | None => throw TypeError
  | Some t =>
      time <- gets clock ;;
      emit (AppendChat (Message
        {| msg_sender := sender;
           msg_html := Str.replace_newlines "<br>" t;
           msg_time := time;
           msg_purchase_button := showPurchaseButton && sender_eqb sender Bot;
           msg_removed := 0 |}))
  end.

Definition showTypingIndicator : M unit := emit (AppendChat TypingIndicator).

(** The lookup finds the first element with the id in the document,
    if any. *)
Definition hideTypingIndicator : M unit :=
  in_chat <- gets chat_holds ;;
  in_details <- gets details_hold ;;
  if in_chat || in_details then emit RemoveTyping else ret tt.

Definition apology : string :=
  "I apologize, but I encountered a technical issue. Please try again in a moment.".

(** sendMessage, up to its first [await]. *)
Definition sendMessage : M unit :=
  value <- gets messageInput ;;
  let message := Str.trim value in
  if String.eqb message EmptyString then ret tt
  else
    addMessage (Some message) User false ;;
    emit (SetMessageInput EmptyString) ;;
    showTypingIndicator ;;
    user <- gets userId ;;
    emit (Fetch {| url := "/chat"; verb := POST;
                   body := Some [("message", JStr message);
                                 ("user_id", JStr user)] |}).

(** sendMessage, from the reply on. *)
Definition sendMessage_reply (r : reply chat_data) : M unit :=
  try_catch
    (match r with
     | NetworkError => throw TypeError
     | Response _ ParseFailure => throw SyntaxError
     | Response _ Null => hideTypingIndicator ;; throw TypeError
     | Response _ (Object data) =>
         hideTypingIndicator ;;
         addMessage (response data) Bot (purchase_encouraged data)
     end)
    (fun _ =>
       hideTypingIndicator ;;
       addMessage (Some apology) Bot false).

(** **** The purchase *)

(** [!s || s.trim() === ''] on a form entry. *)
Definition blank (o : option string) : bool :=
  match o with
  | None => true
  | Some s => String.eqb s EmptyString || String.eqb (Str.trim s) EmptyString
  end.

(** [!amount] on a form entry. *)
Definition missing (o : option string) : bool :=
  match o with
  | None => true
  | Some s => String.eqb s EmptyString
  end.

(** [830], the minimum investment. *)
Definition minimum_amount : number := of_Z 830.

(** processPurchase, up to its first [await]. *)
Definition processPurchase : M unit :=
  userName <- gets formUserName ;;
  userEmail <- gets formUserEmail ;;
  amount <- gets amountInput ;;
  let amountINR := parseFloat (entry_text amount) in
  if blank userName then emit (Alert "Please enter your full name")
  else if blank userEmail then emit (Alert "Please enter your email address")
  else if missing amount || isNaN amountINR || leb amountINR zero
  then emit (Alert "Please enter a valid investment amount")
  else if ltb amountINR minimum_amount
  then emit (Alert ("Minimum investment amount is " ++ rupee ++ "830"))
  else
    user <- gets userId ;;
    emit (Fetch {| url := "/purchase"; verb := POST;
                   body := Some [("user_id", JStr user);
                                 ("user_name", JStr (Str.trim (entry_text userName)));
                                 ("email", JStr (Str.trim (entry_text userEmail)));
                                 ("amount_inr", json_of_number amountINR)] |}).

(** The body of a purchase reply, read through its fields.
    [transaction_id] and [gold_grams] are only ever written into
    text and are held as the text they give. *)
Record purchase_data : Type := mk_purchase_data
  { detail : option string;        (* [None]: no such field *)
    success : bool;                (* its truth value *)
    transaction_id : string;
    gold_grams : string;
    message : option string }.     (* [None]: no such field *)

(** [a || b] on an optional text: [undefined] and the empty text are
    falsy. *)
Definition or_else (a : option string) (b : string) : string :=
  match a with
  | Some s => if String.eqb s EmptyString then b else s
  | None => b
  end.

(** ToString, in a template. *)
Definition interpolate (a : option string) : string :=
  match a with
  | Some s => s
  | None => "undefined"
  end.

Definition calc_row (label text : string) : string :=
  "<div class=" ++ dq ++ "calc-row" ++ dq ++ "><strong>" ++ label
    ++ "</strong> <span>" ++ text ++ "</span></div>".

Definition indent12 : string := nl ++ "            ".

(** The sign before the message, as the source file has it: the bytes
    of U+F8FF, U+00FC, U+00E9 and U+00E2. *)
Definition party : string := Str.seq3 239 163 191 ++ "üéâ".

Section Locale.

(** [x.toLocaleString('en-IN', {maximumFractionDigits: 2})], the
    host's rendering of a number for the locale. *)
Variable toLocaleString : number -> string.

Definition showSuccessModal (result : purchase_data) : M unit :=
  amount <- gets amountInput ;;
  match amount with
  | None => throw TypeError
  | Some value =>
      let amountINR := parseFloat value in
      let gstAmount := mul amountINR gstRate in
      let totalWithGST := add amountINR gstAmount in
      price <- gets goldPriceINR ;;
      shown <- toFixed_of 2 price ;;
      emit (SetText SuccessDetails
              (indent12 ++ calc_row "Transaction ID:" (transaction_id result)
               ++ indent12 ++ calc_row "Gold Purchased:" (gold_grams result ++ " grams")
               ++ indent12 ++ calc_row "Investment Amount:"
                                (rupee ++ toLocaleString amountINR)
               ++ indent12 ++ calc_row "GST (3%):" (rupee ++ toLocaleString gstAmount)
               ++ indent12 ++ calc_row "Total Paid:"
                                (rupee ++ toLocaleString totalWithGST)
               ++ indent12 ++ calc_row "Price per gram:" (rupee ++ shown)
               ++ nl ++ "        ")) ;;
      emit (SetDisplay SuccessModal "block")
  end.

(** processPurchase, from the reply on. *)
Definition processPurchase_reply (r : reply purchase_data) : M unit :=
  try_catch
    (match r with
     | NetworkError => throw TypeError
     | Response _ ParseFailure => throw SyntaxError
     | Response _ Null => throw TypeError
     | Response false (Object errorData) =>
         emit (Alert ("Investment processing failed: "
                        ++ or_else (detail errorData) "Unknown error"))
     | Response true (Object result) =>
         if success result then
           emit (SetDisplay PurchaseModal "none") ;;
           showSuccessModal result ;;
           addMessage (Some (party ++ " " ++ interpolate (message result))) Bot false ;;
           updateAnalytics ;;
           emit FormReset ;;
           updateGoldCalculation
         else
           emit (Alert ("Investment processing failed: "
                          ++ or_else (message result) "Unknown error"))
     end)
    (fun _ =>
       emit (Alert
         "Investment processing failed. Please check your connection and try again.")).

End Locale.

End KuberAI.

(** ** The simpler controller: [class GoldChatBot] *)

Module GoldChatBot.

Import Num Dom Eff.
Local Open Scope eff_scope.

(** *** The page

    This controller tests no element before it uses it: all of them
    are part of the page. *)
Record page : Type := mk_page
  { userId : string  (* this.userId *);
    goldPrice : value  (* this.goldPrice *);
    chatMessages : list chat_node  (* the children of #chatMessages *);
    messageInput : string  (* #messageInput, its value *);
    purchaseModal : string  (* #purchaseModal, its style.display *);
    successModal : string  (* #successModal, its style.display *);
    successDetails : string  (* #successDetails, the markup it was given *);
    formUserName : option string  (* the form entry userName *);
    formUserEmail : option string  (* the form entry userEmail *);
    amountInput : string  (* #amount, its value (the form entry amount) *);
    goldAmountSpan : string  (* #goldAmount, its text *);
    currentPriceSpan : string  (* #current-price, its text *);
    clock : string  (* what new Date().toLocaleTimeString(...) reads now *);
    typing_ids : string -> nat
      (* the HTML parser: the elements with id typing-indicator that a
         markup brings, see [Dom.holds_typing] *);
    details_removed : nat
      (* the elements with id typing-indicator removed from
         #successDetails since it was filled *);
    details_first : bool
      (* whether #successDetails comes before #chatMessages in the
         document *) }.

Definition set_goldPrice (v : value) (p : page) : page :=
  {| userId := userId p; goldPrice := v; chatMessages := chatMessages p;
     messageInput := messageInput p; purchaseModal := purchaseModal p;
     successModal := successModal p; successDetails := successDetails p;
     formUserName := formUserName p; formUserEmail := formUserEmail p;
     amountInput := amountInput p; goldAmountSpan := goldAmountSpan p;
     currentPriceSpan := currentPriceSpan p; clock := clock p;
     typing_ids := typing_ids p;
     details_removed := details_removed p;
     details_first := details_first p |}.

Definition set_chatMessages (v : list chat_node) (p : page) : page :=
  {| userId := userId p; goldPrice := goldPrice p; chatMessages := v;
     messageInput := messageInput p; purchaseModal := purchaseModal p;
     successModal := successModal p; successDetails := successDetails p;
     formUserName := formUserName p; formUserEmail := formUserEmail p;
     amountInput := amountInput p; goldAmountSpan := goldAmountSpan p;
     currentPriceSpan := currentPriceSpan p; clock := clock p;
     typing_ids := typing_ids p;
     details_removed := details_removed p;
     details_first := details_first p |}.

Definition set_details_removed (v : nat) (p : page) : page :=
  {| userId := userId p; goldPrice := goldPrice p; chatMessages := chatMessages p;
     messageInput := messageInput p; purchaseModal := purchaseModal p;
     successModal := successModal p; successDetails := successDetails p;
     formUserName := formUserName p; formUserEmail := formUserEmail p;
     amountInput := amountInput p; goldAmountSpan := goldAmountSpan p;
     currentPriceSpan := currentPriceSpan p; clock := clock p;
     typing_ids := typing_ids p;
     details_removed := v;
     details_first := details_first p |}.

Definition set_messageInput (v : string) (p : page) : page :=
  {| userId := userId p; goldPrice := goldPrice p;
     chatMessages := chatMessages p; messageInput := v;
     purchaseModal := purchaseModal p; successModal := successModal p;
     successDetails := successDetails p; formUserName := formUserName p;
     formUserEmail := formUserEmail p; amountInput := amountInput p;
     goldAmountSpan := goldAmountSpan p;
     currentPriceSpan := currentPriceSpan p; clock := clock p;
     typing_ids := typing_ids p;
     details_removed := details_removed p;
     details_first := details_first p |}.

Definition set_purchaseModal (v : string) (p : page) : page :=
  {| userId := userId p; goldPrice := goldPrice p;
     chatMessages := chatMessages p; messageInput := messageInput p;
     purchaseModal := v; successModal := successModal p;
     successDetails := successDetails p; formUserName := formUserName p;
     formUserEmail := formUserEmail p; amountInput := amountInput p;
     goldAmountSpan := goldAmountSpan p;
     currentPriceSpan := currentPriceSpan p; clock := clock p;
     typing_ids := typing_ids p;
     details_removed := details_removed p;
     details_first := details_first p |}.

Definition set_successModal (v : string) (p : page) : page :=
  {| userId := userId p; goldPrice := goldPrice p;
     chatMessages := chatMessages p; messageInput := messageInput p;
     purchaseModal := purchaseModal p; successModal := v;
     successDetails := successDetails p; formUserName := formUserName p;
     formUserEmail := formUserEmail p; amountInput := amountInput p;
     goldAmountSpan := goldAmountSpan p;
     currentPriceSpan := currentPriceSpan p; clock := clock p;
     typing_ids := typing_ids p;
     details_removed := details_removed p;
     details_first := details_first p |}.

Definition set_successDetails (v : string) (p : page) : page :=
  {| userId := userId p; goldPrice := goldPrice p;
     chatMessages := chatMessages p; messageInput := messageInput p;
     purchaseModal := purchaseModal p; successModal := successModal p;
     successDetails := v; formUserName := formUserName p;
     formUserEmail := formUserEmail p; amountInput := amountInput p;
     goldAmountSpan := goldAmountSpan p;
     currentPriceSpan := currentPriceSpan p; clock := clock p;
     typing_ids := typing_ids p;
     details_removed := details_removed p;
     details_first := details_first p |}.

Definition set_goldAmountSpan (v : string) (p : page) : page :=
  {| userId := userId p; goldPrice := goldPrice p;
     chatMessages := chatMessages p; messageInput := messageInput p;
     purchaseModal := purchaseModal p; successModal := successModal p;
     successDetails := successDetails p; formUserName := formUserName p;
     formUserEmail := formUserEmail p; amountInput := amountInput p;
     goldAmountSpan := v; currentPriceSpan := currentPriceSpan p;
     clock := clock p;
     typing_ids := typing_ids p;
     details_removed := details_removed p;
     details_first := details_first p |}.

Definition set_currentPriceSpan (v : string) (p : page) : page :=
  {| userId := userId p; goldPrice := goldPrice p;
     chatMessages := chatMessages p; messageInput := messageInput p;
     purchaseModal := purchaseModal p; successModal := successModal p;
     successDetails := successDetails p; formUserName := formUserName p;
     formUserEmail := formUserEmail p; amountInput := amountInput p;
     goldAmountSpan := goldAmountSpan p; currentPriceSpan := v;
     clock := clock p;
     typing_ids := typing_ids p;
     details_removed := details_removed p;
     details_first := details_first p |}.

(** *** Effects *)

Inductive target : Type := GoldAmount | CurrentPrice | SuccessDetails.

Inductive modal : Type := PurchaseModal | SuccessModal.

Inductive event : Type :=
| SetPrice (v : value)                 (* this.goldPrice = v *)
| SetText (t : target) (v : string)    (* textContent or innerHTML = v *)
| SetDisplay (m : modal) (v : string)  (* style.display = v *)
| SetMessageInput (v : string)         (* this.messageInput.value = v *)
| AppendChat (n : chat_node)           (* this.chatMessages.appendChild(n) *)
| RemoveTyping                         (* typingIndicator.remove() *)
| Alert (msg : string)                 (* alert(msg) *)
| Fetch (r : request).                 (* fetch(url, ...) *)

(** Whether [document.getElementById('typing-indicator')] finds an
    element in the chat log, in the details of the success modal. The
    details are given as markup too, and hold such an element as long
    as the parser built more of them than were removed. *)
Definition chat_holds (p : page) : bool :=
  existsb (holds_typing (typing_ids p)) (chatMessages p).

Definition details_hold (p : page) : bool :=
  (details_removed p <? typing_ids p (successDetails p))%nat.

(** [document.getElementById('typing-indicator').remove()]: the first
    element with the id in the document leaves it. The log is gone
    through in its order; the details of the success modal come before
    it or after it, as the page has them. *)
Definition remove_first_typing (p : page) : page :=
  if details_first p && details_hold p
  then set_details_removed (S (details_removed p)) p
  else if chat_holds p
  then set_chatMessages (remove_typing (typing_ids p) (chatMessages p)) p
  else if details_hold p
  then set_details_removed (S (details_removed p)) p
  else p.

Definition apply (e : event) (p : page) : page :=
  match e with
  | SetPrice v => set_goldPrice v p
  | SetText GoldAmount v => set_goldAmountSpan v p
  | SetText CurrentPrice v => set_currentPriceSpan v p
  | SetText SuccessDetails v => set_details_removed 0 (set_successDetails v p)
  | SetDisplay PurchaseModal v => set_purchaseModal v p
  | SetDisplay SuccessModal v => set_successModal v p
  | SetMessageInput v => set_messageInput v p
  | AppendChat n => set_chatMessages (chatMessages p ++ [n]) p
  | RemoveTyping => remove_first_typing p
  | Alert _ => p
  | Fetch _ => p
  end.

Definition M : Type -> Type := Eff.M (S := page) (E := event).

Definition emit (e : event) : M unit := Eff.emit apply e.

(** *** The operations *)

(** [65.50], the initial price. *)
Definition initial_price : number := of_decimal false 6550 (-2).

Definition toFixed_of (f : nat) (v : value) : M string :=
  match v with
  | Number x => ret (toFixed f x)
  | Undefined => throw TypeError
  end.

(** updateGoldPrice, up to its first [await]. *)
Definition updateGoldPrice : M unit :=
  emit (Fetch {| url := "/gold-price"; verb := GET; body := None |}).

(** From the reply on; the body is read through its field
    [price_per_gram_usd]. *)
Definition updateGoldPrice_reply (r : reply value) : M unit :=
  try_catch
    (match r with
     | NetworkError => throw TypeError
     | Response _ ParseFailure => throw SyntaxError
     | Response _ Null => throw TypeError
     | Response _ (Object price_per_gram_usd) =>
         emit (SetPrice price_per_gram_usd) ;;
         s <- toFixed_of 2 price_per_gram_usd ;;
         emit (SetText CurrentPrice ("Gold: $" ++ s ++ "/g"))
     end)
    (fun _ => ret tt).

(** [x || 0] *)
Definition or_zero (x : number) : number := if truthy x then x else zero.

Definition updateGoldCalculation : M unit :=
  value <- gets amountInput ;;
  let amount := or_zero (parseFloat value) in
  price <- gets goldPrice ;;
  let goldGrams := div amount (to_number price) in
  emit (SetText GoldAmount (toFixed 4 goldGrams ++ " grams")).

(** ToString, in a template. *)
Definition interpolate (a : option string) : string :=
  match a with
  | Some s => s
  | None => "undefined"
  end.

(** [text] is [None] when the argument is [undefined]. *)
Definition addMessage (text : option string) (sender : sender)
    (showPurchaseButton : bool) : M unit :=
  time <- gets clock ;;
  emit (AppendChat (Message
    {| msg_sender := sender;
       msg_html := "<p>" ++ interpolate text ++ "</p>";
       msg_time := time;
       msg_purchase_button := showPurchaseButton && sender_eqb sender Bot;
       msg_removed := 0 |})).

Definition showTypingIndicator : M unit := emit (AppendChat TypingIndicator).

(** The lookup finds the first element with the id in the document,
    if any. *)
Definition hideTypingIndicator : M unit :=
  in_chat <- gets chat_holds ;;
  in_details <- gets details_hold ;;
  if in_chat || in_details then emit RemoveTyping else ret tt.

Definition apology : string := "Sorry, I encountered an error. Please try again.".

(** sendMessage, up to its first [await]. *)
Definition sendMessage : M unit :=
  value <- gets messageInput ;;
  let message := Str.trim value in
  if String.eqb message EmptyString then ret tt
  else
    addMessage (Some message) User false ;;
    emit (SetMessageInput EmptyString) ;;
    showTypingIndicator ;;
    user <- gets userId ;;
    emit (Fetch {| url := "/chat"; verb := POST;
                   body := Some [("message", JStr message);
                                 ("user_id", JStr user)] |}).

(** sendMessage, from the reply on. *)
Definition sendMessage_reply (r : reply chat_data) : M unit :=
  try_catch
    (match r with
     | NetworkError => throw TypeError
     | Response _ ParseFailure => throw SyntaxError
     | Response _ Null => hideTypingIndicator ;; throw TypeError
     | Response _ (Object data) =>
         hideTypingIndicator ;;
         addMessage (response data) Bot (purchase_encouraged data)
     end)
    (fun _ =>
       hideTypingIndicator ;;
       addMessage (Some apology) Bot false).

Definition showPurchaseModal : M unit :=
  emit (SetDisplay PurchaseModal "block") ;;
  updateGoldCalculation.

(** The object [purchaseData] that processPurchase builds. *)
Record purchaseData : Type := mk_purchaseData
  { user_id : string;
    user_name : option string;
    email : option string;
    amount_usd : number }.

(** [JSON.stringify(purchaseData)] *)
Definition stringify (d : purchaseData) : list (string * json) :=
  [ ("user_id", JStr (user_id d));
    ("user_name", json_of_entry (user_name d));
    ("email", json_of_entry (email d));
    ("amount_usd", json_of_number (amount_usd d)) ].

Definition gather : M purchaseData :=
  user <- gets userId ;;
  userName <- gets formUserName ;;
  userEmail <- gets formUserEmail ;;
  amount <- gets amountInput ;;
  ret {| user_id := user; user_name := userName; email := userEmail;
         amount_usd := parseFloat amount |}.

(** processPurchase, up to its first [await]. *)
Definition processPurchase : M unit :=
  data <- gather ;;
  emit (Fetch {| url := "/purchase"; verb := POST;
                 body := Some (stringify data) |}).

(** The body of a purchase reply, read through its fields. *)
Record purchase_data : Type := mk_purchase_data
  { success : bool;                (* its truth value *)
    transaction_id : string;       (* as text *)
    gold_grams : string;           (* as text *)
    total_cost : value }.

Definition calc_row (label text : string) : string :=
  "<div class=" ++ dq ++ "calc-row" ++ dq ++ "><strong>" ++ label
    ++ "</strong> <span>" ++ text ++ "</span></div>".

Definition indent12 : string := nl ++ "            ".

Definition showSuccessModal (result : purchase_data) : M unit :=
  cost <- toFixed_of 2 (total_cost result) ;;
  price <- gets goldPrice ;;
  shown <- toFixed_of 2 price ;;
  emit (SetText SuccessDetails
          (indent12 ++ calc_row "Transaction ID:" (transaction_id result)
           ++ indent12 ++ calc_row "Gold Purchased:" (gold_grams result ++ " grams")
           ++ indent12 ++ calc_row "Total Paid:" ("$" ++ cost)
           ++ indent12 ++ calc_row "Price per gram:" ("$" ++ shown)
           ++ nl ++ "        ")) ;;
  emit (SetDisplay SuccessModal "block").

(** processPurchase, from the reply on. *)
Definition processPurchase_reply (r : reply purchase_data) : M unit :=
  try_catch
    (match r with
     | NetworkError => throw TypeError
     | Response _ ParseFailure => throw SyntaxError
     | Response _ Null => throw TypeError
     | Response _ (Object result) =>
         if success result then
           emit (SetDisplay PurchaseModal "none") ;;
           showSuccessModal result ;;
           addMessage
             (Some ("🎉 Purchase completed! Transaction ID: " ++ transaction_id result
                      ++ ". You now own " ++ gold_grams result
                      ++ " grams of digital gold!")) Bot false
         else emit (Alert "Purchase failed. Please try again.")
     end)
    (fun _ => emit (Alert "Purchase failed. Please check your details and try again.")).

End GoldChatBot.

(** ** The listeners of the primary controller *)

Module KuberAIEvents.

Import Num Dom Eff KuberAI.
Local Open Scope eff_scope.

(** [this.method()], for a method the class may not declare: the call
    of what is not a function throws. *)
Definition call (method : option (M unit)) : M unit :=
  match method with
  | Some body => body
  | None => throw TypeError
  end.

(** [class KuberAI] declares no method [setupPurchaseModal]. *)
Definition setupPurchaseModal : option (M unit) := None.

(** **** showPurchaseModal; its [setTimeout] callback is the later
    input [QuoteTimer]. *)
Definition showPurchaseModal : M unit :=
  emit (SetDisplay PurchaseModal "block") ;;
  stored <- gets goldPriceINR ;;
  (if price_invalid stored then emit (SetPrice (Number fallback_price))
   else ret tt) ;;
  call setupPurchaseModal ;;
  updateGoldCalculation.

(** [switchSection(item.getAttribute('data-section'))]: the attribute
    is [null] when the item has none. With [null] as the name, the nav
    items that have no attribute are the ones marked, the content
    section looked for is [null-section], and the lookup of the header
    under the key [null] finds nothing. *)
Definition switchSection_of (attribute : option string) : M unit :=
  match attribute with
  | Some sectionName => switchSection sectionName
  | None =>
      items <- gets navItems ;;
      forEach (fun i item =>
                 emit (NavClass i false) ;;
                 match data_section item with
                 | Some _ => ret tt
                 | None => emit (NavClass i true)
                 end) 0%nat items ;;
      sections <- gets contentSections ;;
      forEach (fun i section =>
                 emit (SectionClass i false) ;;
                 if String.eqb (section_id section) "null-section"
                 then emit (SectionClass i true) else ret tt) 0%nat sections ;;
      throw TypeError
  end.

(** Where a click on the window lands. *)
Inductive click_target : Type := OnPurchaseModal | OnSuccessModal | Elsewhere.

(** What the controller reacts to: the listeners [bindEvents] and the
    page register, the interval of the page, the callback of the
    constructor, and the replies the [async] methods wait for. *)
Inductive input : Type :=
| SendClick                                  (* click on #sendButton *)
| KeyPress (key : string) (shiftKey : bool)  (* keypress in #messageInput *)
| QuickClick (data_message : option string)  (* click on a .quick-btn *)
| ClosePurchase                              (* click on .close *)
| CloseSuccess                               (* click on #closeSuccess *)
| WindowClick (target : click_target)        (* click on the window *)
| AmountInput                                (* input in #amount *)
| FormSubmit                                 (* submit of #purchaseForm *)
| NavClick (data_section : option string)    (* click on a .nav-item *)
| OpenPurchase            (* .add-investment-btn, the chat button, window.showPurchaseModal *)
| SwitchToChat                               (* window.switchToChat *)
| Tick                                       (* the 30 second interval *)
| PriceSettled                               (* updateGoldPrice().then(...) *)
| QuoteTimer                                 (* the 100 ms timer of showPurchaseModal *)
| ChatReply (r : reply chat_data)
| PurchaseReply (r : reply purchase_data)
| PriceReply (r : reply value).

(** The interval: analytics when its section is the current one, then
    the price. *)
Definition tick : M unit :=
  current <- gets currentSection ;;
  (if String.eqb current "analytics" then updateAnalytics else ret tt) ;;
  updateGoldPrice.

(** ToString of an attribute a text field is given: [null] clears it. *)
Definition attribute_value (a : option string) : string :=
  match a with
  | Some s => s
  | None => EmptyString
  end.

Section Locale.

Variable toLocaleString : number -> string.

Definition handle (i : input) : M unit :=
  match i with
  | SendClick => sendMessage
  | KeyPress key shiftKey =>
      if String.eqb key "Enter" && negb shiftKey then sendMessage else ret tt
  | QuickClick data_message =>
      emit (SetMessageInput (attribute_value data_message)) ;;
      sendMessage
  | ClosePurchase => emit (SetDisplay PurchaseModal "none")
  | CloseSuccess => emit (SetDisplay SuccessModal "none")
  | WindowClick OnPurchaseModal => emit (SetDisplay PurchaseModal "none")
  | WindowClick OnSuccessModal => emit (SetDisplay SuccessModal "none")
  | WindowClick Elsewhere => ret tt
  | AmountInput => updateGoldCalculation
  | FormSubmit => processPurchase
  | NavClick data_section => switchSection_of data_section
  | OpenPurchase => showPurchaseModal
  | SwitchToChat => switchSection "chat"
  | Tick => tick
  | PriceSettled =>
      input <- gets amountInput ;;
      match input with
      | Some _ => updateGoldCalculation
      | None => ret tt
      end
  | QuoteTimer => updateGoldCalculation
  | ChatReply r => sendMessage_reply r
  | PurchaseReply r => processPurchase_reply toLocaleString r
  | PriceReply r => updateGoldPrice_reply r
  end.

End Locale.

End KuberAIEvents.

(** ** The analytics counters of the primary controller

    The four counters are read and written by [updateAnalytics] alone,
    and [updateAnalytics] touches nothing else once its request has
    left: its reply is handled over the counters, apart from the rest
    of the page. *)

Module Analytics.

Import Num Dom Eff.
Local Open Scope eff_scope.

(** The four counters; each is tested before it is written, so each is
    optional. *)
Record panel : Type := mk_panel
  { totalUsers : option string;         (* #totalUsers, its text *)
    totalTransactions : option string;  (* #totalTransactions, its text *)
    totalGoldSold : option string;      (* #totalGoldSold, its text *)
    totalRevenue : option string }.     (* #totalRevenue, its text *)

Inductive counter : Type := Users | Transactions | GoldSold | Revenue.

Inductive event : Type :=
| SetText (c : counter) (v : string).   (* textContent = v *)

Definition write (o : option string) (v : string) : option string :=
  option_map (fun _ => v) o.

Definition apply (e : event) (p : panel) : panel :=
  match e with
  | SetText Users v =>
      {| totalUsers := write (totalUsers p) v;
         totalTransactions := totalTransactions p;
         totalGoldSold := totalGoldSold p; totalRevenue := totalRevenue p |}
  | SetText Transactions v =>
      {| totalUsers := totalUsers p;
         totalTransactions := write (totalTransactions p) v;
         totalGoldSold := totalGoldSold p; totalRevenue := totalRevenue p |}
  | SetText GoldSold v =>
      {| totalUsers := totalUsers p;
         totalTransactions := totalTransactions p;
         totalGoldSold := write (totalGoldSold p) v; totalRevenue := totalRevenue p |}
  | SetText Revenue v =>
      {| totalUsers := totalUsers p;
         totalTransactions := totalTransactions p;
         totalGoldSold := totalGoldSold p; totalRevenue := write (totalRevenue p) v |}
  end.

Definition M : Type -> Type := Eff.M (S := panel) (E := event).

Definition emit (e : event) : M unit := Eff.emit apply e.

Definition text_of (c : counter) (p : panel) : option string :=
  match c with
  | Users => totalUsers p
  | Transactions => totalTransactions p
  | GoldSold => totalGoldSold p
  | Revenue => totalRevenue p
  end.

(** The body of an analytics reply, read through its fields. The first
    three are only ever written into text and are held as the text they
    give, [None] when the body has no such field. *)
Record analytics_data : Type := mk_analytics_data
  { total_users : option string;
    total_transactions : option string;
    total_gold_sold_grams : option string;
    total_revenue_inr : value }.

(** A text property given [undefined] shows the empty text. *)
Definition assigned (a : option string) : string :=
  match a with
  | Some s => s
  | None => EmptyString
  end.

(** ToString, in a template. *)
Definition interpolate (a : option string) : string :=
  match a with
  | Some s => s
  | None => "undefined"
  end.

Section Locale.

(** [x.toLocaleString('en-IN', {maximumFractionDigits: 2})] *)
Variable toLocaleString : number -> string.

(** updateAnalytics, from the reply on. *)
Definition updateAnalytics_reply (r : reply analytics_data) : M unit :=
  try_catch
    (match r with
     | NetworkError => throw TypeError
     | Response _ ParseFailure => throw SyntaxError
     | Response _ Null =>
         users <- gets totalUsers ;;
         transactions <- gets totalTransactions ;;
         sold <- gets totalGoldSold ;;
         revenue <- gets totalRevenue ;;
         match users, transactions, sold, revenue with
         | None, None, None, None => ret tt
         | _, _, _, _ => throw TypeError
         end
     | Response _ (Object data) =>
         users <- gets totalUsers ;;
         match users with
         | Some _ => emit (SetText Users (assigned (total_users data)))
         | None => ret tt
         end ;;
         transactions <- gets totalTransactions ;;
         match transactions with
         | Some _ => emit (SetText Transactions (assigned (total_transactions data)))
         | None => ret tt
         end ;;
         sold <- gets totalGoldSold ;;
         match sold with
         | Some _ =>
             emit (SetText GoldSold (interpolate (total_gold_sold_grams data) ++ "g"))
         | None => ret tt
         end ;;
         revenue <- gets totalRevenue ;;
         match revenue with
         | Some _ =>
             match total_revenue_inr data with
             | Number x => emit (SetText Revenue (KuberAI.rupee ++ toLocaleString x))
             | Undefined => throw TypeError
             end
         | None => ret tt
         end
     end)
    (fun _ => ret tt).

End Locale.

End Analytics.

(** ** The listeners of the simpler controller *)

Module GoldChatBotEvents.

Import Num Dom Eff GoldChatBot.
Local Open Scope eff_scope.

(** Where a click on the window lands. *)
Inductive click_target : Type := OnPurchaseModal | OnSuccessModal | Elsewhere.

(** What the controller reacts to: the listeners [bindEvents] and the
    page register, and the replies the [async] methods wait for. *)
Inductive input : Type :=
| SendClick                                  (* click on #sendButton *)
| KeyPress (key : string)                    (* keypress in #messageInput *)
| QuickClick (data_message : option string)  (* click on a .quick-btn *)
| ClosePurchase                              (* click on .close *)
| CloseSuccess                               (* click on #closeSuccess *)
| WindowClick (target : click_target)        (* click on the window *)
| AmountInput                                (* input in #amount *)
| FormSubmit                                 (* submit of #purchaseForm *)
| OpenPurchase                               (* the chat button *)
| ChatReply (r : reply chat_data)
| PurchaseReply (r : reply purchase_data)
| PriceReply (r : reply value).

(** ToString of an attribute a text field is given: [null] clears it. *)
Definition attribute_value (a : option string) : string :=
  match a with
  | Some s => s
  | None => EmptyString
  end.

Definition handle (i : input) : M unit :=
  match i with
  | SendClick => sendMessage
  | KeyPress key => if String.eqb key "Enter" then sendMessage else ret tt
  | QuickClick data_message =>
      emit (SetMessageInput (attribute_value data_message)) ;;
      sendMessage
  | ClosePurchase => emit (SetDisplay PurchaseModal "none")
  | CloseSuccess => emit (SetDisplay SuccessModal "none")
  | WindowClick OnPurchaseModal => emit (SetDisplay PurchaseModal "none")
  | WindowClick OnSuccessModal => emit (SetDisplay SuccessModal "none")
  | WindowClick Elsewhere => ret tt
  | AmountInput => updateGoldCalculation
  | FormSubmit => processPurchase
  | OpenPurchase => showPurchaseModal
  | ChatReply r => sendMessage_reply r
  | PurchaseReply r => processPurchase_reply r
  | PriceReply r => updateGoldPrice_reply r
  end.

End GoldChatBotEvents.

(** * Properties *)

Import Eff Dom.
Local Open Scope list_scope.

(** The numeric and text functions stay folded under [simpl]; closed
    instances are computed where a statement needs their value. *)
Arguments Num.toFixed : simpl never.
Arguments Num.parseFloat : simpl never.
Arguments Num.of_decimal : simpl never.
Arguments Num.of_Z : simpl never.
Arguments Num.mul : simpl never.
Arguments Num.add : simpl never.
Arguments Num.div : simpl never.
Arguments Num.leb : simpl never.
Arguments Num.ltb : simpl never.
Arguments Str.trim : simpl never.
Arguments KuberAI.fallback_price : simpl never.
Arguments KuberAI.gstRate : simpl never.
Arguments KuberAI.minimum_amount : simpl never.
Arguments KuberAI.rupee : simpl never.
Arguments KuberAI.idle_money : simpl never.
Arguments KuberAI.idle_gold_amount : simpl never.
Arguments String.append : simpl never.

(** ** Sample pages *)

(** A text that is markup: an element with the id of the typing
    placeholder. *)
Definition injected_markup : string := "<i id=typing-indicator></i>".

(** What the HTML parser builds from the markups of the sample pages:
    one element with the id [typing-indicator] from [injected_markup],
    alone or inside a paragraph, and none from the others, which are
    plain text. *)
Definition sample_ids (markup : string) : nat :=
  if String.eqb markup injected_markup
     || String.eqb markup ("<p>" ++ injected_markup ++ "</p>")
  then 1%nat else 0%nat.

(** A page of the primary controller with every element, the fallback
    price stored, and [5000] typed in a filled purchase form. *)
Definition sample_page : KuberAI.page :=
  {| KuberAI.userId := "kuber_k3x9a1b2c";
     KuberAI.goldPriceINR := Number KuberAI.fallback_price;
     KuberAI.currentSection := "chat";
     KuberAI.chatMessages := [];
     KuberAI.messageInput := "   ";
     KuberAI.purchaseModal := "block";
     KuberAI.successModal := "none";
     KuberAI.successDetails := EmptyString;
     KuberAI.formUserName := Some "Asha Rao";
     KuberAI.formUserEmail := Some "asha@example.com";
     KuberAI.amountInput := Some "5000";
     KuberAI.goldAmountSpan := Some EmptyString;
     KuberAI.gstAmount := Some EmptyString;
     KuberAI.totalAmount := Some EmptyString;
     KuberAI.pricePerGram := Some EmptyString;
     KuberAI.sidebarGoldPrice := Some EmptyString;
     KuberAI.navItems :=
       [ KuberAI.mk_nav_item (Some "chat") true;
         KuberAI.mk_nav_item (Some "analytics") false;
         KuberAI.mk_nav_item (Some "portfolio") false;
         KuberAI.mk_nav_item (Some "market") false ];
     KuberAI.contentSections :=
       [ KuberAI.mk_content_section "chat-section" true;
         KuberAI.mk_content_section "analytics-section" false;
         KuberAI.mk_content_section "portfolio-section" false;
         KuberAI.mk_content_section "market-section" false ];
     KuberAI.sectionTitle := "AI Assistant";
     KuberAI.sectionSubtitle :=
       "Get intelligent gold investment advice powered by advanced AI";
     KuberAI.clock := "10:30 AM";
     KuberAI.typing_ids := sample_ids;
     KuberAI.details_removed := 0;
     KuberAI.details_first := false |}.

(** A page of the simpler controller with a stored price and an amount
    typed in. *)
Definition simple_page_with (price : value) (amount : string) : GoldChatBot.page :=
  {| GoldChatBot.userId := "user_k3x9a1b2c";
     GoldChatBot.goldPrice := price;
     GoldChatBot.chatMessages := [];
     GoldChatBot.messageInput := "   ";
     GoldChatBot.purchaseModal := "block";
     GoldChatBot.successModal := "none";
     GoldChatBot.successDetails := EmptyString;
     GoldChatBot.formUserName := Some EmptyString;
     GoldChatBot.formUserEmail := Some EmptyString;
     GoldChatBot.amountInput := amount;
     GoldChatBot.goldAmountSpan := EmptyString;
     GoldChatBot.currentPriceSpan := EmptyString;
     GoldChatBot.clock := "10:30 AM";
     GoldChatBot.typing_ids := sample_ids;
     GoldChatBot.details_removed := 0;
     GoldChatBot.details_first := false |}.

Definition simple_page : GoldChatBot.page :=
  simple_page_with (Number GoldChatBot.initial_price) "abc".

(** ** Vocabulary of the statements *)

(** A request that fails with a network or parse error: [fetch]
    rejects, or the body is not JSON. *)
Definition failed {A} (r : reply A) : bool :=
  match r with
  | NetworkError => true
  | Response _ ParseFailure => true
  | Response _ _ => false
  end.

(** The bot message that shows [html], added at [time]. *)
Definition bot_message (html time : string) : chat_node :=
  Message {| msg_sender := Bot; msg_html := html; msg_time := time;
             msg_purchase_button := false; msg_removed := 0 |}.

(** The log while a chat request is in flight: the user's message and
    the typing placeholder. *)
Definition waiting_log : list chat_node :=
  [ Message {| msg_sender := User; msg_html := "What is the gold price?";
               msg_time := "10:29 AM"; msg_purchase_button := false; msg_removed := 0 |};
    TypingIndicator ].


(** A form entry that is blank: absent, or empty once trimmed. *)
Definition is_blank (o : option string) : Prop :=
  o = None \/ exists s, o = Some s /\ Str.trim s = EmptyString.

(** The amount of the purchase form, as [parseFloat] reads it. *)
Definition form_amount (p : KuberAI.page) : Num.number :=
  Num.parseFloat (entry_text (KuberAI.amountInput p)).

(** An amount entry the primary controller turns down: missing, one
    from which [parseFloat] reads no number, not above zero, or below
    the minimum of 830. *)
Definition amount_rejected (p : KuberAI.page) : Prop :=
  KuberAI.amountInput p = None \/
  KuberAI.amountInput p = Some EmptyString \/
  Num.isNaN (form_amount p) = true \/
  Num.leb (form_amount p) Num.zero = true \/
  Num.ltb (form_amount p) KuberAI.minimum_amount = true.

(** The object the simpler controller sends for a page. *)
Definition simple_purchaseData (p : GoldChatBot.page) : GoldChatBot.purchaseData :=
  {| GoldChatBot.user_id := GoldChatBot.userId p;
     GoldChatBot.user_name := GoldChatBot.formUserName p;
     GoldChatBot.email := GoldChatBot.formUserEmail p;
     GoldChatBot.amount_usd := Num.parseFloat (GoldChatBot.amountInput p) |}.

(** The purchase form with [500] typed as the amount. *)
Definition page_500 : KuberAI.page :=
  KuberAI.set_amountInput (Some "500") sample_page.

(** The sample form with an amount typed in, at the sample price. *)
Definition amount_page (amount : string) : KuberAI.page :=
  KuberAI.set_amountInput (Some amount) sample_page.

(** An amount that is numeric, as the spec words the requirement: the
    text is a number and nothing else, that is an optional sign, then
    digits with at most one point among them. *)
Definition spec_numeric (s : string) : bool :=
  let '(_, s1) := Num.take_sign s in
  let '(_, ni, r1) := Num.take_digits s1 0 0 in
  let '(_, nf, r2) :=
    match r1 with
    | String "." r => Num.take_digits r 0 0
    | _ => (0, 0, r1)
    end in
  negb (ni + nf =? 0) && String.eqb r2 EmptyString.

(** *** The quote computation, stage by stage *)

(** The page after the price guard of [updateGoldCalculation], and what
    the guard wrote. *)
Definition guard_price (p : KuberAI.page) : KuberAI.page :=
  if KuberAI.price_invalid (KuberAI.goldPriceINR p)
  then KuberAI.set_goldPriceINR (Number KuberAI.fallback_price) p
  else p.

Definition guard_trace (p : KuberAI.page) : list KuberAI.event :=
  if KuberAI.price_invalid (KuberAI.goldPriceINR p)
  then [KuberAI.SetPrice (Number KuberAI.fallback_price)]
  else [].

(** The three texts (grams, GST, total) the computation settles on for
    the trimmed amount [v] at the price [x], branch by branch. *)
Definition quote_texts (x : Num.number) (v : string) : string * string * string :=
  let idle := (KuberAI.idle_gold_amount, KuberAI.idle_money, KuberAI.idle_money) in
  if String.eqb v EmptyString || Num.isNaN (Num.parseFloat v) then idle
  else
    let a := Num.parseFloat v in
    if Num.leb a Num.zero then idle
    else
      let gst := Num.mul a KuberAI.gstRate in
      let total := Num.add a gst in
      let grams := Num.div a x in
      if Num.isNaN grams || negb (Num.isFinite grams) || Num.isNaN gst || Num.isNaN total
      then ("Calculation Error"%string, KuberAI.idle_money, KuberAI.idle_money)
      else ((Num.toFixed 4 grams ++ " grams (" ++ KuberAI.rupee ++ Num.toFixed 2 a ++ ")")%string,
            (KuberAI.rupee ++ Num.toFixed 2 gst)%string,
            (KuberAI.rupee ++ Num.toFixed 2 total)%string).

(** The write of [v] into [t], recorded only when the page has [t]. *)
Definition write_if_present (p : KuberAI.page) (t : KuberAI.target) (v : string) : list KuberAI.event :=
  match KuberAI.text_of t p with
  | Some _ => [KuberAI.SetText t v]
  | None => []
  end.

(** The page and the trace once the three texts are written. *)
Definition show_quote (q : string * string * string) (p : KuberAI.page) : KuberAI.page :=
  let '(g, s, t) := q in
  KuberAI.set_text KuberAI.TotalAmount t
    (KuberAI.set_text KuberAI.GstAmount s (KuberAI.set_text KuberAI.GoldAmount g p)).

Definition quote_trace (q : string * string * string) (p : KuberAI.page) : list KuberAI.event :=
  let '(g, s, t) := q in
  write_if_present p KuberAI.GoldAmount g ++ write_if_present p KuberAI.GstAmount s
    ++ write_if_present p KuberAI.TotalAmount t.

(** What rounding a mantissa that is not negative can give. *)
Definition signed (s : bool) (x : Num.number) : Prop :=
  match x with
  | S754_zero s' | S754_infinity s' | S754_finite s' _ _ => s' = s
  | S754_nan => False
  end.

(** A stored price the guard is there for: missing, not above zero, or
    not a number. *)
Definition price_bad (v : value) : Prop :=
  v = Undefined \/
  exists x, v = Number x /\ (Num.leb x Num.zero = true \/ Num.isNaN x = true).

(** The sample page with a stored price and an amount typed in. *)
Definition quote_page (price : value) (amount : string) : KuberAI.page :=
  KuberAI.set_amountInput (Some amount) (KuberAI.set_goldPriceINR price sample_page).


(** *** Navigation *)

(** Whether [switchSection name] marks a nav item, a content section. *)
Definition nav_matches (name : string) (it : KuberAI.nav_item) : bool :=
  match KuberAI.data_section it with
  | Some a => String.eqb a name
  | None => false
  end.

Definition section_matches (name : string) (c : KuberAI.content_section) : bool :=
  String.eqb (KuberAI.section_id c) (name ++ "-section")%string.

Definition mark_nav (name : string) (it : KuberAI.nav_item) : KuberAI.nav_item :=
  KuberAI.set_nav_active (nav_matches name it) it.

Definition mark_section (name : string) (c : KuberAI.content_section)
  : KuberAI.content_section :=
  KuberAI.set_section_active (section_matches name c) c.

(** The class changes of the two loops, from position [i] on: each
    element is cleared, then marked if it is the one asked for. *)
Fixpoint nav_events (name : string) (i : nat) (l : list KuberAI.nav_item)
  : list KuberAI.event :=
  match l with
  | [] => []
  | it :: r =>
      KuberAI.NavClass i false
        :: (if nav_matches name it then [KuberAI.NavClass i true] else [])
        ++ nav_events name (S i) r
  end.

Fixpoint section_events (name : string) (i : nat) (l : list KuberAI.content_section)
  : list KuberAI.event :=
  match l with
  | [] => []
  | c :: r =>
      KuberAI.SectionClass i false
        :: (if section_matches name c then [KuberAI.SectionClass i true] else [])
        ++ section_events name (S i) r
  end.

(** The page after the two loops. *)
Definition marked (name : string) (p : KuberAI.page) : KuberAI.page :=
  KuberAI.set_contentSections (map (mark_section name) (KuberAI.contentSections p))
    (KuberAI.set_navItems (map (mark_nav name) (KuberAI.navItems p)) p).

Definition is_analytics_fetch (e : KuberAI.event) : bool :=
  match e with
  | KuberAI.Fetch r => String.eqb (url r) "/analytics"
  | _ => false
  end.

(** How many analytics refreshes a trace starts. *)
Definition analytics_refreshes (t : list KuberAI.event) : nat :=
  List.length (filter is_analytics_fetch t).

(** The content sections that are visible. *)
Definition visible (p : KuberAI.page) : list KuberAI.content_section :=
  filter KuberAI.section_active (KuberAI.contentSections p).

(** The callbacks of the two loops of [switchSection]. *)
Definition nav_callback (name : string) (i : nat) (item : KuberAI.nav_item)
  : KuberAI.M unit :=
  (KuberAI.emit (KuberAI.NavClass i false) ;;
   match KuberAI.data_section item with
   | Some a =>
       if String.eqb a name then KuberAI.emit (KuberAI.NavClass i true) else ret tt
   | None => ret tt
   end)%eff.

Definition section_callback (name : string) (i : nat) (section : KuberAI.content_section)
  : KuberAI.M unit :=
  (KuberAI.emit (KuberAI.SectionClass i false) ;;
   if String.eqb (KuberAI.section_id section) (name ++ "-section")%string
   then KuberAI.emit (KuberAI.SectionClass i true) else ret tt)%eff.

(** The effects of one call of [switchSection], by what the lookup of
    the header finds. *)
Definition header_events (name : string) (t s : string) : list KuberAI.event :=
  [ KuberAI.SetText KuberAI.SectionTitle t;
    KuberAI.SetText KuberAI.SectionSubtitle s;
    KuberAI.SetCurrentSection name ]
  ++ (if String.eqb name "analytics"
      then [KuberAI.Fetch {| url := "/analytics"; verb := GET; body := None |}]
      else []).

Definition with_header (name : string) (t s : string) (p : KuberAI.page) : KuberAI.page :=
  KuberAI.set_currentSection name
    (KuberAI.set_sectionSubtitle s (KuberAI.set_sectionTitle t p)).

Definition loop_events (name : string) (p : KuberAI.page) : list KuberAI.event :=
  nav_events name 0 (KuberAI.navItems p)
    ++ section_events name 0 (KuberAI.contentSections p).

(** A page that also has a settings entry and a settings section, which
    the header table does not know. *)
Definition settings_page : KuberAI.page :=
  KuberAI.set_contentSections
    (KuberAI.contentSections sample_page
       ++ [KuberAI.mk_content_section "settings-section" false])
    (KuberAI.set_navItems
       (KuberAI.navItems sample_page ++ [KuberAI.mk_nav_item (Some "settings") false])
       sample_page).

(** *** A purchase that succeeded *)












(** ** Vocabulary of the further properties *)


(** A handler performs only effects that satisfy [P]. *)
Definition emits_only {S E A : Type} (P : E -> Prop)
    (m : M (S:=S) (E:=E) A) : Prop :=
  forall s e, In e (trace (m s)) -> P e.






(** Whether an optional element is on the page. *)
Definition present {A : Type} (o : option A) : bool :=
  match o with Some _ => true | None => false end.


(** The requests the backend serves. *)
Definition endpoint (r : request) : Prop :=
  (url r = "/chat" /\ verb r = POST /\ body r <> None) \/
  (url r = "/purchase" /\ verb r = POST /\ body r <> None) \/
  (url r = "/gold-price" /\ verb r = GET /\ body r = None) \/
  (url r = "/analytics" /\ verb r = GET /\ body r = None).

Definition to_endpoint (e : KuberAI.event) : Prop :=
  match e with
  | KuberAI.Fetch r => endpoint r
  | _ => True
  end.

Definition silent (e : KuberAI.event) : Prop :=
  match e with
  | KuberAI.Alert _ => False
  | _ => True
  end.

(** The inputs whose handler may alert: the submission of the purchase
    form and the reply to it. *)
Definition about_purchase (i : KuberAIEvents.input) : bool :=
  match i with
  | KuberAIEvents.FormSubmit | KuberAIEvents.PurchaseReply _ => true
  | _ => false
  end.

(** A purchase form the primary controller lets through: a name and an
    email that are not blank, and an amount text from which
    [parseFloat] reads a number of at least 830. The text need not be
    a number as a whole: [parseFloat] reads the longest numeric prefix,
    so that [830abc] is let through as 830 and [1e400] as Infinity. *)
Definition form_valid (p : KuberAI.page) : Prop :=
  ~ is_blank (KuberAI.formUserName p) /\
  ~ is_blank (KuberAI.formUserEmail p) /\
  ~ amount_rejected p.

(** The request a valid form is sent as: the amount is the number read
    when it is finite, and [null] when it is Infinity. *)
Definition purchase_request (p : KuberAI.page) : request :=
  {| url := "/purchase"; verb := POST;
     body := Some [ ("user_id", JStr (KuberAI.userId p));
                    ("user_name",
                     JStr (Str.trim (entry_text (KuberAI.formUserName p))));
                    ("email",
                     JStr (Str.trim (entry_text (KuberAI.formUserEmail p))));
                    ("amount_inr",
                     if Num.isFinite (form_amount p)
                     then JNum (form_amount p) else JNull) ] |}.

(** A purchase reply that reports a success: an OK response whose body
    has the success flag. *)
Definition purchase_succeeded (r : reply KuberAI.purchase_data) : bool :=
  match r with
  | Response true (Object d) => KuberAI.success d
  | _ => false
  end.

(** The sample page with a stored price. *)
Definition priced_page (price : value) : KuberAI.page :=
  KuberAI.set_goldPriceINR price sample_page.

(** A success reply. *)
Definition sample_success : KuberAI.purchase_data :=
  {| KuberAI.detail := None; KuberAI.success := true;
     KuberAI.transaction_id := "KUBER-ABC12345";
     KuberAI.gold_grams := "0.9142";
     KuberAI.message := Some "Purchase completed" |}.

(** The user message that shows [html], added at [time]. *)
Definition user_message (html time : string) : chat_node :=
  Message {| msg_sender := User; msg_html := html; msg_time := time;
             msg_purchase_button := false; msg_removed := 0 |}.

(** The chat request for a message of a user. *)
Definition chat_request (message user : string) : request :=
  {| url := "/chat"; verb := POST;
     body := Some [("message", JStr message); ("user_id", JStr user)] |}.

(** The bot message of a chat reply, with or without the purchase
    suggestion. *)
Definition reply_message (html time : string) (suggest : bool) : chat_node :=
  Message {| msg_sender := Bot; msg_html := html; msg_time := time;
             msg_purchase_button := suggest; msg_removed := 0 |}.

(** A chat reply the primary controller cannot show: a null body, or a
    [response] field that is not a string. *)
Definition unreadable (r : reply chat_data) : bool :=
  match r with
  | Response _ Null => true
  | Response _ (Object d) => negb (present (response d))
  | _ => false
  end.

(** The log while two chat requests are in flight. *)
Definition two_waiting_page : KuberAI.page :=
  KuberAI.set_chatMessages (waiting_log ++ waiting_log) sample_page.








(** What a click on a nav item without [data-section] leaves of a nav
    item: it is active when it has no attribute either. *)
Definition mark_unnamed (it : KuberAI.nav_item) : KuberAI.nav_item :=
  KuberAI.set_nav_active (negb (present (KuberAI.data_section it))) it.

(** The callback of the nav loop when the name is [null]. *)
Definition unnamed_callback (i : nat) (item : KuberAI.nav_item) : KuberAI.M unit :=
  (KuberAI.emit (KuberAI.NavClass i false) ;;
   match KuberAI.data_section item with
   | Some _ => ret tt
   | None => KuberAI.emit (KuberAI.NavClass i true)
   end)%eff.

(** The changes of a class, the only effects of the two loops. *)
Definition is_class_change (e : KuberAI.event) : bool :=
  match e with
  | KuberAI.NavClass _ _ | KuberAI.SectionClass _ _ => true
  | _ => false
  end.

(** ** The host functions on known values *)

Example parseFloat_fallback :
  Num.parseFloat "5469.25" = KuberAI.fallback_price /\
  Num.is_double KuberAI.fallback_price = true.
Proof. split; reflexivity. Qed.

Example parseFloat_prefix :
  Num.parseFloat "  900abc" = Num.of_Z 900 /\
  Num.parseFloat "abc" = Num.NaN /\
  Num.parseFloat EmptyString = Num.NaN /\
  Num.parseFloat "-0" = S754_zero true /\
  Num.parseFloat "1e400" = Num.Infinity.
Proof. repeat split; reflexivity. Qed.

Example toFixed_rounds_the_binary_value :
  Num.toFixed 2 (Num.parseFloat "1.005") = "1.00" /\
  Num.toFixed 2 (Num.parseFloat "8.345") = "8.35" /\
  Num.toFixed 2 (Num.parseFloat "-0.001") = "-0.00" /\
  Num.toFixed 4 (Num.parseFloat "0.00005") = "0.0001".
Proof. repeat split; reflexivity. Qed.

Example toFixed_large :
  Num.toFixed 2 (Num.parseFloat "1e21") = "1e+21" /\
  Num.toFixed 2 (Num.parseFloat "1.03e21") = "1.03e+21" /\
  Num.toFixed 2 (Num.parseFloat "999999999999999868928") = "999999999999999868928.00".
Proof. repeat split; vm_compute; reflexivity. Qed.

(** Seventeen digits, the last one rounded down, rounded up. *)
Example toFixed_seventeen_digits :
  Num.toFixed 2 (Num.parseFloat "1180591620717411303424") = "1.1805916207174113e+21" /\
  Num.toFixed 2 (Num.parseFloat "2209278197011610861568") = "2.2092781970116109e+21" /\
  Num.toFixed 2 (Num.parseFloat "1261367088173811499008") = "1.2613670881738115e+21".
Proof. repeat split; vm_compute; reflexivity. Qed.

Example trim_white_space :
  Str.trim "  ab c  " = "ab c" /\
  Str.trim ("  " ++ Str.seq2 194 160 ++ Str.seq1 9)%string = EmptyString.
Proof. split; reflexivity. Qed.

(** ** Sending a message *)

(** C6. Sending is a no-op when the composer, once trimmed, is empty:
    in both controllers [sendMessage] returns normally, leaves the page
    as it was (chat log included) and performs no effect, so no chat
    entry is appended and no request leaves. *)
Theorem sendMessage_blank_is_noop :
  (forall p : KuberAI.page,
      Str.trim (KuberAI.messageInput p) = EmptyString ->
      KuberAI.sendMessage p = mk_result (Done tt) p []) /\
  (forall p : GoldChatBot.page,
      Str.trim (GoldChatBot.messageInput p) = EmptyString ->
      GoldChatBot.sendMessage p = mk_result (Done tt) p []).
Proof.
  split; intros p H.
  - unfold KuberAI.sendMessage, bind, gets; simpl.
    rewrite H; reflexivity.
  - unfold GoldChatBot.sendMessage, bind, gets; simpl.
    rewrite H; reflexivity.
Qed.

(** Three spaces in the composer of both sample pages. *)
Lemma sendMessage_blank_is_noop_witness :
  Str.trim (KuberAI.messageInput sample_page) = EmptyString /\
  KuberAI.sendMessage sample_page = mk_result (Done tt) sample_page [] /\
  Str.trim (GoldChatBot.messageInput simple_page) = EmptyString /\
  GoldChatBot.sendMessage simple_page = mk_result (Done tt) simple_page [].
Proof.
  split; [reflexivity|].
  split; [apply (proj1 sendMessage_blank_is_noop); reflexivity|].
  split; [reflexivity|].
  apply (proj2 sendMessage_blank_is_noop); reflexivity.
Defined.

(** Nothing is removed from a log in which the lookup finds nothing. *)
Lemma remove_typing_absent (ids : string -> nat) (l : list chat_node) :
  existsb (holds_typing ids) l = false -> remove_typing ids l = l.
Proof.
  induction l as [|n l IH]; simpl; [reflexivity|].
  destruct n as [m|]; simpl; [|discriminate].
  destruct (msg_removed m <? ids (msg_html m))%nat; simpl; [discriminate|].
  intros H; rewrite IH by exact H; reflexivity.
Qed.

(** The placeholder is what is removed when nothing before it holds an
    element with its id. *)
Lemma remove_typing_first (ids : string -> nat) (pre post : list chat_node) :
  existsb (holds_typing ids) pre = false ->
  remove_typing ids (pre ++ TypingIndicator :: post) = pre ++ post.
Proof.
  induction pre as [|n pre IH]; simpl; [reflexivity|].
  destruct n as [m|]; simpl; [|discriminate].
  destruct (msg_removed m <? ids (msg_html m))%nat; simpl; [discriminate|].
  intros H; rewrite IH by exact H; reflexivity.
Qed.

Lemma remove_typing_last (ids : string -> nat) (pre : list chat_node) :
  existsb (holds_typing ids) pre = false ->
  remove_typing ids (pre ++ [TypingIndicator]) = pre.
Proof.
  intros H. rewrite (remove_typing_first ids pre [] H). apply app_nil_r.
Qed.

(** A message that holds an element with the id loses it, and what
    follows the message stays. *)
Lemma remove_typing_inside (ids : string -> nat) (pre post : list chat_node)
      (m : message) :
  existsb (holds_typing ids) pre = false ->
  holds_typing ids (Message m) = true ->
  remove_typing ids (pre ++ Message m :: post)
  = pre ++ Message (remove_from m) :: post.
Proof.
  intros Hpre Hm. induction pre as [|n pre IH]; simpl.
  - simpl in Hm. rewrite Hm. reflexivity.
  - simpl in Hpre. destruct n as [m'|]; simpl in Hpre; [|discriminate].
    destruct (msg_removed m' <? ids (msg_html m'))%nat; simpl in Hpre;
      [discriminate|].
    rewrite IH by exact Hpre. reflexivity.
Qed.

Lemma remove_first_nowhere (p : KuberAI.page) :
  KuberAI.chat_holds p || KuberAI.details_hold p = false ->
  KuberAI.remove_first_typing p = p.
Proof.
  intros H. apply orb_false_elim in H. destruct H as [Hc Hd].
  unfold KuberAI.remove_first_typing. rewrite Hc, Hd, andb_false_r. reflexivity.
Qed.

Lemma remove_first_clock (p : KuberAI.page) :
  KuberAI.clock (KuberAI.remove_first_typing p) = KuberAI.clock p.
Proof.
  unfold KuberAI.remove_first_typing.
  destruct (KuberAI.details_first p && KuberAI.details_hold p), (KuberAI.chat_holds p),
    (KuberAI.details_hold p); reflexivity.
Qed.

(** When the details of the success modal do not come first, or hold
    no such element, the lookup finds what the chat log holds. *)
Lemma remove_first_in_chat (p : KuberAI.page) (pre post : list chat_node)
      (n : chat_node) :
  KuberAI.details_first p && KuberAI.details_hold p = false ->
  existsb (holds_typing (KuberAI.typing_ids p)) pre = false ->
  holds_typing (KuberAI.typing_ids p) n = true ->
  KuberAI.chatMessages p = pre ++ n :: post ->
  KuberAI.remove_first_typing p
  = KuberAI.set_chatMessages
      (pre ++ match n with
              | TypingIndicator => post
              | Message m => Message (remove_from m) :: post
              end) p.
Proof.
  intros Hd Hpre Hn Hlog. unfold KuberAI.remove_first_typing, KuberAI.chat_holds.
  rewrite Hd, Hlog, existsb_app. cbn [existsb]. rewrite Hn, orb_true_r.
  destruct n as [m|].
  - rewrite (remove_typing_inside _ pre post m Hpre Hn). reflexivity.
  - rewrite (remove_typing_first _ pre post Hpre). reflexivity.
Qed.


Lemma hideTypingIndicator_run (p : KuberAI.page) :
  KuberAI.hideTypingIndicator p
  = mk_result (Done tt) (KuberAI.remove_first_typing p)
      (if KuberAI.chat_holds p || KuberAI.details_hold p
       then [KuberAI.RemoveTyping] else []).
Proof.
  unfold KuberAI.hideTypingIndicator, bind, gets, KuberAI.emit, emit, ret; simpl.
  destruct (KuberAI.chat_holds p || KuberAI.details_hold p) eqn:T; simpl; [reflexivity|].
  rewrite (remove_first_nowhere p T). reflexivity.
Qed.

Lemma simple_remove_first_nowhere (p : GoldChatBot.page) :
  GoldChatBot.chat_holds p || GoldChatBot.details_hold p = false ->
  GoldChatBot.remove_first_typing p = p.
Proof.
  intros H. apply orb_false_elim in H. destruct H as [Hc Hd].
  unfold GoldChatBot.remove_first_typing. rewrite Hc, Hd, andb_false_r. reflexivity.
Qed.

Lemma simple_remove_first_clock (p : GoldChatBot.page) :
  GoldChatBot.clock (GoldChatBot.remove_first_typing p) = GoldChatBot.clock p.
Proof.
  unfold GoldChatBot.remove_first_typing.
  destruct (GoldChatBot.details_first p && GoldChatBot.details_hold p), (GoldChatBot.chat_holds p),
    (GoldChatBot.details_hold p); reflexivity.
Qed.

(** When the details of the success modal do not come first, or hold
    no such element, the lookup finds what the chat log holds. *)
Lemma simple_remove_first_in_chat (p : GoldChatBot.page) (pre post : list chat_node)
      (n : chat_node) :
  GoldChatBot.details_first p && GoldChatBot.details_hold p = false ->
  existsb (holds_typing (GoldChatBot.typing_ids p)) pre = false ->
  holds_typing (GoldChatBot.typing_ids p) n = true ->
  GoldChatBot.chatMessages p = pre ++ n :: post ->
  GoldChatBot.remove_first_typing p
  = GoldChatBot.set_chatMessages
      (pre ++ match n with
              | TypingIndicator => post
              | Message m => Message (remove_from m) :: post
              end) p.
Proof.
  intros Hd Hpre Hn Hlog. unfold GoldChatBot.remove_first_typing, GoldChatBot.chat_holds.
  rewrite Hd, Hlog, existsb_app. cbn [existsb]. rewrite Hn, orb_true_r.
  destruct n as [m|].
  - rewrite (remove_typing_inside _ pre post m Hpre Hn). reflexivity.
  - rewrite (remove_typing_first _ pre post Hpre). reflexivity.
Qed.


Lemma simple_hideTypingIndicator_run (p : GoldChatBot.page) :
  GoldChatBot.hideTypingIndicator p
  = mk_result (Done tt) (GoldChatBot.remove_first_typing p)
      (if GoldChatBot.chat_holds p || GoldChatBot.details_hold p
       then [GoldChatBot.RemoveTyping] else []).
Proof.
  unfold GoldChatBot.hideTypingIndicator, bind, gets, GoldChatBot.emit, emit, ret; simpl.
  destruct (GoldChatBot.chat_holds p || GoldChatBot.details_hold p) eqn:T; simpl; [reflexivity|].
  rewrite (simple_remove_first_nowhere p T). reflexivity.
Qed.




(** ** Submitting a purchase *)

Lemma blank_true (o : option string) : is_blank o -> KuberAI.blank o = true.
Proof.
  intros [->|(s & -> & H)]; simpl; [reflexivity|].
  rewrite H; apply orb_true_r.
Qed.

(** C3 (amended). In the primary controller, a submission whose name
    is blank, whose email is blank, or whose amount is missing, is a
    text from which [parseFloat] reads no number, or is read as a
    number that is not above zero or is below 830, ends in one alert
    and nothing else: the page is unchanged and no request is sent.
    With a name and an email filled in and the amount [500], the alert
    is the one about the minimum of 830. *)
Theorem processPurchase_validation_blocks :
  (forall p : KuberAI.page,
      is_blank (KuberAI.formUserName p) \/
      is_blank (KuberAI.formUserEmail p) \/
      amount_rejected p ->
      exists msg,
        KuberAI.processPurchase p = mk_result (Done tt) p [KuberAI.Alert msg]) /\
  (forall p : KuberAI.page,
      KuberAI.blank (KuberAI.formUserName p) = false ->
      KuberAI.blank (KuberAI.formUserEmail p) = false ->
      KuberAI.amountInput p = Some "500" ->
      KuberAI.processPurchase p =
        mk_result (Done tt) p
          [KuberAI.Alert ("Minimum investment amount is " ++ KuberAI.rupee ++ "830")%string]).
Proof.
  split.
  - intros p H.
    unfold KuberAI.processPurchase, bind, gets, KuberAI.emit, emit; simpl.
    destruct (KuberAI.blank (KuberAI.formUserName p)) eqn:Bn;
      [eexists; reflexivity|].
    destruct (KuberAI.blank (KuberAI.formUserEmail p)) eqn:Be;
      [eexists; reflexivity|].
    destruct H as [H|[H|H]];
      [apply blank_true in H; congruence | apply blank_true in H; congruence |].
    fold (form_amount p).
    destruct (KuberAI.missing (KuberAI.amountInput p)
              || Num.isNaN (form_amount p)
              || Num.leb (form_amount p) Num.zero) eqn:Bad;
      [eexists; reflexivity|].
    destruct (Num.ltb (form_amount p) KuberAI.minimum_amount) eqn:Low;
      [eexists; reflexivity|].
    exfalso.
    apply orb_false_elim in Bad; destruct Bad as [Bad Hle].
    apply orb_false_elim in Bad; destruct Bad as [Hmiss Hnan].
    destruct H as [H|[H|[H|[H|H]]]]; try congruence;
      rewrite H in Hmiss; discriminate.
  - intros p Bn Be Ha.
    unfold KuberAI.processPurchase, bind, gets, KuberAI.emit, emit; simpl.
    rewrite Bn, Be, Ha; reflexivity.
Qed.

(** The sample form with [500] as the amount. *)
Lemma processPurchase_validation_blocks_witness :
  amount_rejected page_500 /\
  KuberAI.processPurchase page_500 =
    mk_result (Done tt) page_500
      [KuberAI.Alert ("Minimum investment amount is " ++ KuberAI.rupee ++ "830")%string] /\
  exists msg,
    KuberAI.processPurchase page_500 =
      mk_result (Done tt) page_500 [KuberAI.Alert msg].
Proof.
  assert (R : amount_rejected page_500).
  { right; right; right; right; reflexivity. }
  split; [exact R|].
  split.
  - apply (proj2 processPurchase_validation_blocks); reflexivity.
  - apply (proj1 processPurchase_validation_blocks); right; right; exact R.
Defined.

(** The claim as the spec words it fails for an amount that is not
    numeric but starts with a number: [parseFloat] reads the digits at
    the head of [830abc] and stops at the letter, the four checks pass,
    and the request is sent with the amount 830. *)
Lemma processPurchase_prefix_counterexample :
  spec_numeric "830abc" = false /\
  KuberAI.processPurchase (amount_page "830abc")
  = mk_result (Done tt) (amount_page "830abc")
      [KuberAI.Fetch
         {| url := "/purchase"; verb := POST;
            body := Some [ ("user_id", JStr "kuber_k3x9a1b2c");
                           ("user_name", JStr "Asha Rao");
                           ("email", JStr "asha@example.com");
                           ("amount_inr", JNum (Num.of_Z 830)) ] |}].
Proof. split; vm_compute; reflexivity. Qed.

(** C9. The simpler controller's [processPurchase] checks nothing: for
    every page it returns normally, leaves the page as it was and sends
    one [POST /purchase] carrying the object built from the form as it
    is. When the amount does not parse, the object's [amount_usd] is
    NaN (which [JSON.stringify] writes as [null]). *)
Theorem simple_processPurchase_unconditional :
  forall p : GoldChatBot.page,
    GoldChatBot.processPurchase p =
      mk_result (Done tt) p
        [GoldChatBot.Fetch
           {| url := "/purchase"; verb := POST;
              body := Some (GoldChatBot.stringify (simple_purchaseData p)) |}] /\
    (Num.isNaN (Num.parseFloat (GoldChatBot.amountInput p)) = true ->
     GoldChatBot.amount_usd (simple_purchaseData p) = Num.NaN /\
     GoldChatBot.stringify (simple_purchaseData p) =
       [ ("user_id", JStr (GoldChatBot.userId p));
         ("user_name", json_of_entry (GoldChatBot.formUserName p));
         ("email", json_of_entry (GoldChatBot.formUserEmail p));
         ("amount_usd", JNull) ]).
Proof.
  intros p. split; [reflexivity|].
  unfold simple_purchaseData, GoldChatBot.stringify; simpl.
  destruct (Num.parseFloat (GoldChatBot.amountInput p)); simpl;
    try discriminate.
  intros _; split; reflexivity.
Qed.

(** The simpler sample page: blank name and email, [abc] as the amount. *)
Lemma simple_processPurchase_unconditional_witness :
  Num.isNaN (Num.parseFloat (GoldChatBot.amountInput simple_page)) = true /\
  GoldChatBot.processPurchase simple_page =
    mk_result (Done tt) simple_page
      [GoldChatBot.Fetch
         {| url := "/purchase"; verb := POST;
            body := Some [ ("user_id", JStr "user_k3x9a1b2c");
                           ("user_name", JStr EmptyString);
                           ("email", JStr EmptyString);
                           ("amount_usd", JNull) ] |}] /\
  GoldChatBot.amount_usd (simple_purchaseData simple_page) = Num.NaN.
Proof.
  destruct (simple_processPurchase_unconditional simple_page) as [Hrun Hnan].
  destruct (Hnan eq_refl) as [Hamount Hbody].
  split; [reflexivity|].
  split; [|exact Hamount].
  rewrite Hrun, Hbody; reflexivity.
Defined.

(** ** The quote computation *)

Lemma positive_of_valid (v : value) :
  KuberAI.price_invalid v = false ->
  exists x, v = Number x /\ Num.ltb Num.zero x = true.
Proof.
  destruct v as [|x]; simpl; [discriminate|].
  intros H. exists x. split; [reflexivity|].
  destruct x as [s|s| |s m e]; simpl in *; try discriminate;
    destruct s; simpl in *; try discriminate; reflexivity.
Qed.

Lemma guard_price_positive (p : KuberAI.page) :
  exists x, KuberAI.goldPriceINR (guard_price p) = Number x /\ Num.ltb Num.zero x = true.
Proof.
  unfold guard_price.
  destruct (KuberAI.price_invalid (KuberAI.goldPriceINR p)) eqn:E.
  - exists KuberAI.fallback_price. split; reflexivity.
  - apply positive_of_valid; exact E.
Qed.


(** *** Running a handler step by step *)

Section Run.
Context {S E : Type}.
Variable apply : E -> S -> S.

Lemma bind_gets {A B} (f : S -> A) (k : A -> M (S:=S) (E:=E) B) (s : S) :
  bind (gets f) k s = k (f s) s.
Proof. unfold bind, gets; simpl. destruct (k (f s) s); reflexivity. Qed.

Lemma bind_ret {A B} (a : A) (k : A -> M (S:=S) (E:=E) B) (s : S) :
  bind (ret a) k s = k a s.
Proof. unfold bind, ret; simpl. destruct (k a s); reflexivity. Qed.

Lemma bind_emit {B} (e : E) (k : unit -> M (S:=S) (E:=E) B) (s : S) :
  bind (emit apply e) k s = prepend [e] (k tt (apply e s)).
Proof. reflexivity. Qed.

Lemma bind_throw {A B} (x : exn) (k : A -> M (S:=S) (E:=E) B) (s : S) :
  bind (throw x) k s = mk_result (Thrown x) s [].
Proof. reflexivity. Qed.

Lemma bind_done {A B} (m : M (S:=S) (E:=E) A) (k : A -> M B) (s s' : S)
      (a : A) (t : list E) :
  m s = mk_result (Done a) s' t -> bind m k s = prepend t (k a s').
Proof. intros H. unfold bind, prepend. rewrite H. reflexivity. Qed.

Lemma bind_assoc {A B C} (m : M (S:=S) (E:=E) A) (k : A -> M B) (h : B -> M C) (s : S) :
  bind (bind m k) h s = bind m (fun a => bind (k a) h) s.
Proof.
  unfold bind. destruct (m s) as [[a|x] s1 t1]; simpl; [|reflexivity].
  destruct (k a s1) as [[b|y] s2 t2]; simpl; [|reflexivity].
  rewrite app_assoc. reflexivity.
Qed.
End Run.

Lemma set_if_present_run (t : KuberAI.target) (v : string) (p : KuberAI.page) :
  KuberAI.set_if_present t v p =
    mk_result (Done tt) (KuberAI.set_text t v p) (write_if_present p t v).
Proof.
  unfold KuberAI.set_if_present, write_if_present, bind, gets, KuberAI.emit, emit; simpl.
  destruct t; destruct p; simpl;
    try match goal with
        | |- context [match ?o with _ => _ end] => destruct o
        end; reflexivity.
Qed.

Lemma show_three (g s t : string) (p : KuberAI.page) :
  (KuberAI.set_if_present KuberAI.GoldAmount g ;;
   KuberAI.set_if_present KuberAI.GstAmount s ;;
   KuberAI.set_if_present KuberAI.TotalAmount t)%eff p =
    mk_result (Done tt) (show_quote (g, s, t) p) (quote_trace (g, s, t) p).
Proof.
  rewrite (bind_done _ _ _ _ _ _ (set_if_present_run _ _ _)).
  rewrite (bind_done _ _ _ _ _ _ (set_if_present_run _ _ _)).
  rewrite set_if_present_run.
  unfold prepend, show_quote, quote_trace, write_if_present; simpl.
  destruct p; simpl. reflexivity.
Qed.

Lemma updateGoldCalculation_run (p : KuberAI.page) (value : string) (x : Num.number) :
  KuberAI.amountInput p = Some value ->
  KuberAI.goldPriceINR (guard_price p) = Number x ->
  let shown := (KuberAI.rupee ++ Num.toFixed 2 x)%string in
  let q := quote_texts x (Str.trim value) in
  KuberAI.updateGoldCalculation p =
    mk_result (Done tt)
      (show_quote q (KuberAI.set_text KuberAI.PricePerGram shown (guard_price p)))
      (guard_trace p ++ write_if_present p KuberAI.PricePerGram shown ++ quote_trace q p).
Proof.
  intros Ha Hx shown q.
  unfold KuberAI.updateGoldCalculation.
  rewrite bind_gets, Ha, bind_gets.
  set (tail := if (Str.trim value =? EmptyString)%string || _ then _ else _).
  assert (Htail : forall s, KuberAI.goldPriceINR s = Number x ->
                            tail s = mk_result (Done tt) (show_quote q s) (quote_trace q s)).
  { intros s Hs. subst tail q. unfold quote_texts, KuberAI.reset_displays.
    destruct ((Str.trim value =? EmptyString)%string
              || Num.isNaN (Num.parseFloat (Str.trim value))); [apply show_three|].
    destruct (Num.leb (Num.parseFloat (Str.trim value)) Num.zero); [apply show_three|].
    rewrite bind_gets, Hs. cbn [to_number].
    destruct (Num.isNaN (Num.div (Num.parseFloat (Str.trim value)) x)
              || negb (Num.isFinite (Num.div (Num.parseFloat (Str.trim value)) x))
              || Num.isNaN (Num.mul (Num.parseFloat (Str.trim value)) KuberAI.gstRate)
              || Num.isNaN (Num.add (Num.parseFloat (Str.trim value))
                              (Num.mul (Num.parseFloat (Str.trim value)) KuberAI.gstRate)));
      apply show_three. }
  clearbody tail.
  unfold guard_price, guard_trace, KuberAI.emit in *.
  destruct (KuberAI.price_invalid (KuberAI.goldPriceINR p)) eqn:E.
  - rewrite bind_emit, bind_gets.
    cbn [KuberAI.apply KuberAI.set_goldPriceINR KuberAI.pricePerGram].
    cbn [KuberAI.set_goldPriceINR KuberAI.goldPriceINR] in Hx.
    injection Hx as <-.
    unfold write_if_present; cbn [KuberAI.text_of].
    destruct (KuberAI.pricePerGram p) eqn:P.
    + rewrite bind_assoc, bind_gets.
      cbn [KuberAI.set_goldPriceINR KuberAI.goldPriceINR].
      unfold KuberAI.toFixed_of. rewrite bind_assoc, bind_ret, bind_emit.
      rewrite Htail by reflexivity.
      unfold prepend, quote_trace, write_if_present.
      destruct q as [[g t1] t2]; destruct p; simpl in *; rewrite P; reflexivity.
    + rewrite bind_ret, Htail by reflexivity.
      unfold prepend, show_quote, quote_trace, write_if_present.
      destruct q as [[g t1] t2]; destruct p; simpl in *; rewrite P; reflexivity.
  - rewrite bind_ret, bind_gets.
    unfold write_if_present; cbn [KuberAI.text_of].
    destruct (KuberAI.pricePerGram p) eqn:P.
    + rewrite bind_assoc, bind_gets, Hx.
      unfold KuberAI.toFixed_of. rewrite bind_assoc, bind_ret, bind_emit.
      rewrite Htail by (destruct p; simpl in *; exact Hx).
      unfold prepend, quote_trace, write_if_present.
      destruct q as [[g t1] t2]; destruct p; simpl in *; rewrite P; reflexivity.
    + rewrite bind_ret, Htail by exact Hx.
      unfold prepend, show_quote, quote_trace, write_if_present.
      destruct q as [[g t1] t2]; destruct p; simpl in *; rewrite P; reflexivity.
Qed.

(** *** Rounding keeps the sign *)

Lemma shr_1_nonneg (mrs : shr_record) :
  (0 <= shr_m mrs)%Z -> (0 <= shr_m (shr_1 mrs))%Z.
Proof.
  destruct mrs as [m r s]; simpl.
  destruct m as [|q|q]; simpl; [lia| |lia].
  destruct q; simpl; lia.
Qed.

Lemma iter_shr_1_nonneg (n : positive) (mrs : shr_record) :
  (0 <= shr_m mrs)%Z -> (0 <= shr_m (iter_pos shr_1 n mrs))%Z.
Proof.
  revert mrs; induction n as [n IH|n IH|]; intros mrs H; simpl.
  - apply IH, IH, shr_1_nonneg, H.
  - apply IH, IH, H.
  - apply shr_1_nonneg, H.
Qed.

Lemma shr_fexp_nonneg (m e : Z) (l : location) :
  (0 <= m)%Z -> (0 <= shr_m (fst (shr_fexp Num.prec Num.emax m e l)))%Z.
Proof.
  intros H. unfold shr_fexp, shr.
  assert (H0 : (0 <= shr_m (shr_record_of_loc m l))%Z).
  { destruct l as [|[]]; exact H. }
  destruct (fexp Num.prec Num.emax (Zdigits2 m + e) - e)%Z; simpl; auto.
  apply iter_shr_1_nonneg, H0.
Qed.

Lemma round_nearest_even_nonneg (m : Z) (l : location) :
  (0 <= m)%Z -> (0 <= round_nearest_even m l)%Z.
Proof.
  intros H. destruct l as [|[]]; simpl; try lia.
  destruct (Z.even m); lia.
Qed.

Lemma binary_round_aux_signed (s : bool) (m e : Z) (l : location) :
  (0 <= m)%Z -> signed s (binary_round_aux Num.prec Num.emax s m e l).
Proof.
  intros H. unfold binary_round_aux.
  pose proof (shr_fexp_nonneg m e l H) as H1.
  destruct (shr_fexp Num.prec Num.emax m e l) as [mrs' e'].
  simpl in H1.
  pose proof (shr_fexp_nonneg _ e' loc_Exact
                (round_nearest_even_nonneg _ (loc_of_shr_record mrs') H1)) as H2.
  destruct (shr_fexp Num.prec Num.emax _ e' loc_Exact) as [mrs'' e''].
  simpl in H2.
  destruct (shr_m mrs'') as [|q|q]; [exact eq_refl| |lia].
  destruct (e'' <=? Num.emax - Num.prec)%Z; exact eq_refl.
Qed.

Lemma mul_positive_signed (m m' : positive) (e e' : Z) :
  signed false (Num.mul (S754_finite false m e) (S754_finite false m' e')).
Proof.
  unfold Num.mul, SFmul. apply binary_round_aux_signed. lia.
Qed.

Lemma add_positive_signed (m : positive) (e : Z) (y : Num.number) :
  signed false y -> signed false (Num.add (S754_finite false m e) y).
Proof.
  destruct y as [s|s| |s m' e']; simpl; intros H; try contradiction; subst s;
    try exact eq_refl.
  unfold Num.add, SFadd, binary_normalize. cbn [cond_Zopp].
  set (a := fst (shl_align m e (Z.min e e'))).
  set (b := fst (shl_align m' e' (Z.min e e'))).
  change (Z.pos a + Z.pos b)%Z with (Z.pos (a + b)).
  unfold binary_round.
  destruct (shl_align (a + b) (Z.min e e') _) as [mz ez].
  apply binary_round_aux_signed. lia.
Qed.

Lemma signed_not_nan (s : bool) (x : Num.number) : signed s x -> Num.isNaN x = false.
Proof. destruct x; simpl; auto; contradiction. Qed.

Lemma ltb_zero_cases (a : Num.number) :
  Num.ltb Num.zero a = true ->
  a = Num.Infinity \/ exists m e, a = S754_finite false m e.
Proof.
  destruct a as [s|s| |s m e]; try destruct s; try discriminate.
  - left; reflexivity.
  - right; eauto.
Qed.

Lemma quote_texts_valid (x : Num.number) (v : string) :
  let a := Num.parseFloat v in
  Num.ltb Num.zero a = true ->
  Num.ltb Num.zero x = true ->
  Num.isFinite (Num.div a x) = true ->
  quote_texts x v =
    ((Num.toFixed 4 (Num.div a x) ++ " grams (" ++ KuberAI.rupee
        ++ Num.toFixed 2 a ++ ")")%string,
     (KuberAI.rupee ++ Num.toFixed 2 (Num.mul a KuberAI.gstRate))%string,
     (KuberAI.rupee
        ++ Num.toFixed 2 (Num.add a (Num.mul a KuberAI.gstRate)))%string).
Proof.
  intros a Ha Hx Hfin. unfold quote_texts. fold a.
  destruct (String.eqb_spec v EmptyString) as [->|_].
  { discriminate Ha. }
  destruct (ltb_zero_cases a Ha) as [Ea|(m & e & Ea)].
  { exfalso. rewrite Ea in Hfin.
    destruct (ltb_zero_cases x Hx) as [->|(m' & e' & ->)]; discriminate Hfin. }
  rewrite Ea in *. cbn [Num.isNaN orb].
  change (Num.leb (S754_finite false m e) Num.zero) with false. cbv iota.
  pose proof (mul_positive_signed m 8646911284551352 e (-58)) as Hg.
  change (S754_finite false 8646911284551352 (-58)) with KuberAI.gstRate in Hg.
  rewrite (signed_not_nan _ _ Hg).
  rewrite (signed_not_nan _ _ (add_positive_signed m e _ Hg)).
  rewrite Hfin.
  destruct (Num.div (S754_finite false m e) x); try discriminate Hfin; reflexivity.
Qed.


Lemma guard_price_bad (p : KuberAI.page) :
  KuberAI.price_invalid (KuberAI.goldPriceINR p) = true ->
  KuberAI.goldPriceINR (guard_price p) = Number KuberAI.fallback_price.
Proof. intros H. unfold guard_price. rewrite H. reflexivity. Qed.


(** What [updateGoldCalculation] leaves on a page that has the amount
    field: the price the guard settled on, the three texts computed from
    it, and a trace of writes only. *)
Lemma updateGoldCalculation_fields (p : KuberAI.page) (value : string) :
  KuberAI.amountInput p = Some value ->
  exists x,
    KuberAI.goldPriceINR (guard_price p) = Number x /\
    Num.ltb Num.zero x = true /\
    let r := KuberAI.updateGoldCalculation p in
    let q := quote_texts x (Str.trim value) in
    out r = Done tt /\
    KuberAI.goldPriceINR (final r) = Number x /\
    KuberAI.goldAmountSpan (final r)
      = KuberAI.write (KuberAI.goldAmountSpan p) (fst (fst q)) /\
    KuberAI.gstAmount (final r) = KuberAI.write (KuberAI.gstAmount p) (snd (fst q)) /\
    KuberAI.totalAmount (final r) = KuberAI.write (KuberAI.totalAmount p) (snd q) /\
    (forall req, ~ In (KuberAI.Fetch req) (trace r)) /\
    (forall msg, ~ In (KuberAI.Alert msg) (trace r)).
Proof.
  intros Ha.
  destruct (guard_price_positive p) as (x & Hx & Hpos).
  exists x. split; [exact Hx|]. split; [exact Hpos|].
  intros r q. subst r.
  rewrite (updateGoldCalculation_run p value x Ha Hx). fold q.
  cbn [out final trace].
  destruct q as [[g s] t]. cbn [fst snd].
  unfold guard_price, guard_trace, quote_trace, write_if_present in *.
  split; [reflexivity|].
  destruct (KuberAI.price_invalid (KuberAI.goldPriceINR p));
    destruct p; cbn in *;
    (split; [exact Hx|]); (split; [reflexivity|]); (split; [reflexivity|]);
    (split; [reflexivity|]);
    split; intros z Hin;
    repeat match goal with
           | H : In _ (_ ++ _) |- _ => apply in_app_or in H; destruct H
           | H : In _ (match ?o with _ => _ end) |- _ => destruct o
           | H : In _ (_ :: _) |- _ => destruct H
           | H : _ \/ _ |- _ => destruct H
           | H : In _ [] |- _ => destruct H
           | H : _ = _ |- _ => discriminate H
           end.
Qed.

Lemma price_bad_invalid (v : value) : price_bad v -> KuberAI.price_invalid v = true.
Proof.
  intros [->|(x & -> & [H|H])]; [reflexivity| |];
    unfold KuberAI.price_invalid; rewrite H.
  - rewrite orb_true_r; reflexivity.
  - apply orb_true_r.
Qed.





(** *** The shape of a fixed-point rendering *)










(** C2 (amended). In the primary controller, a quote computation on a
    page with the amount field ends with a stored price that is a number
    above zero, which is the one the grams are computed from; a stored
    price that was missing, not above zero or not a number has been
    replaced by the fallback constant [5469.25] (itself finite and above
    zero). Without the amount field nothing is computed or written. A
    price fetch that fails stores the fallback constant again. The
    simpler controller has no guard: its quote computation leaves the
    stored price as it is, and so does a price fetch that fails. *)
Theorem quote_price_guard :
  (forall (p : KuberAI.page) (value : string),
      KuberAI.amountInput p = Some value ->
      let r := KuberAI.updateGoldCalculation p in
      let a := Num.parseFloat (Str.trim value) in
      (price_bad (KuberAI.goldPriceINR p) ->
       KuberAI.goldPriceINR (final r) = Number KuberAI.fallback_price) /\
      exists x,
        KuberAI.goldPriceINR (final r) = Number x /\
        Num.ltb Num.zero x = true /\
        (Num.ltb Num.zero a = true ->
         Num.isFinite (Num.div a x) = true ->
         KuberAI.goldAmountSpan (final r)
           = KuberAI.write (KuberAI.goldAmountSpan p)
               (Num.toFixed 4 (Num.div a x) ++ " grams (" ++ KuberAI.rupee
                  ++ Num.toFixed 2 a ++ ")")%string)) /\
  (forall p : KuberAI.page,
      KuberAI.amountInput p = None ->
      KuberAI.updateGoldCalculation p = mk_result (Done tt) p []) /\
  (forall (r : reply value) (p : KuberAI.page),
      failed r = true ->
      KuberAI.updateGoldPrice_reply r p =
        mk_result (Done tt)
          (KuberAI.set_goldPriceINR (Number KuberAI.fallback_price) p)
          [KuberAI.SetPrice (Number KuberAI.fallback_price)]) /\
  (Num.isFinite KuberAI.fallback_price = true /\
   Num.ltb Num.zero KuberAI.fallback_price = true) /\
  (forall p : GoldChatBot.page,
      GoldChatBot.goldPrice (final (GoldChatBot.updateGoldCalculation p))
      = GoldChatBot.goldPrice p) /\
  (forall (r : reply value) (p : GoldChatBot.page),
      failed r = true ->
      GoldChatBot.updateGoldPrice_reply r p = mk_result (Done tt) p []).
Proof.
  split; [|split; [|split; [|split; [|split]]]].
  - intros p value Ha r a.
    destruct (updateGoldCalculation_fields p value Ha)
      as (x & Hx & Hpos & _ & Hp & Hg & _).
    fold r in Hp, Hg.
    split.
    + intros Hbad. rewrite Hp, <- Hx.
      apply guard_price_bad, price_bad_invalid, Hbad.
    + exists x. split; [exact Hp|]. split; [exact Hpos|].
      intros Ha0 Hfin.
      rewrite (quote_texts_valid x (Str.trim value) Ha0 Hpos Hfin) in Hg.
      exact Hg.
  - intros p Ha. unfold KuberAI.updateGoldCalculation.
    rewrite bind_gets, Ha. reflexivity.
  - intros r p Hr.
    destruct r as [|ok [| |v]]; try discriminate Hr; reflexivity.
  - split; reflexivity.
  - intros p. reflexivity.
  - intros r p Hr.
    destruct r as [|ok [| |v]]; try discriminate Hr; reflexivity.
Qed.

(** On the sample page with NaN stored as the price. *)
Lemma quote_price_guard_witness :
  let p := quote_page (Number Num.NaN) "5000" in
  let r := KuberAI.updateGoldCalculation p in
  price_bad (KuberAI.goldPriceINR p) /\
  KuberAI.goldPriceINR (final r) = Number KuberAI.fallback_price /\
  KuberAI.goldPriceINR
    (final (KuberAI.updateGoldPrice_reply (@NetworkError value) p))
    = Number KuberAI.fallback_price.
Proof.
  intros p r.
  assert (B : price_bad (KuberAI.goldPriceINR p)).
  { right. exists Num.NaN. split; [reflexivity|right; reflexivity]. }
  destruct quote_price_guard as (Hguard & _ & Hfetch & _ & _ & _).
  split; [exact B|].
  split.
  - exact (proj1 (Hguard p "5000" eq_refl) B).
  - rewrite (Hfetch NetworkError p eq_refl). reflexivity.
Defined.

(** The simpler controller with the price 0 stored, and the primary one
    with the price +Infinity stored. *)
Lemma price_guard_counterexample :
  (let p := simple_page_with (Number Num.zero) "100" in
   let r := GoldChatBot.updateGoldCalculation p in
   Num.leb Num.zero Num.zero = true /\
   GoldChatBot.goldPrice (final r) = Number Num.zero /\
   GoldChatBot.goldAmountSpan (final r) = "Infinity grams" /\
   GoldChatBot.goldPrice
     (final (GoldChatBot.updateGoldPrice_reply (@NetworkError value) p))
     = Number Num.zero) /\
  (let p := quote_page (Number Num.Infinity) "5000" in
   let r := KuberAI.updateGoldCalculation p in
   KuberAI.goldPriceINR (final r) = Number Num.Infinity /\
   Num.isFinite Num.Infinity = false /\
   KuberAI.goldAmountSpan (final r)
     = Some ("0.0000 grams (" ++ KuberAI.rupee ++ "5000.00)")%string).
Proof.
  split; vm_compute; repeat split.
Qed.

(** ** Navigation *)

Lemma update_nth_app {A} (f : A -> A) (pre : list A) (x : A) (r : list A) :
  KuberAI.update_nth (List.length pre) f (pre ++ x :: r) = pre ++ f x :: r.
Proof. induction pre as [|y pre IH]; simpl; [reflexivity|]. rewrite IH. reflexivity. Qed.

Lemma bind_emit_primary {B} (e : KuberAI.event) (k : unit -> KuberAI.M B)
      (s : KuberAI.page) :
  bind (KuberAI.emit e) k s = prepend [e] (k tt (KuberAI.apply e s)).
Proof. reflexivity. Qed.

Lemma set_navItems_twice (a b : list KuberAI.nav_item) (s : KuberAI.page) :
  KuberAI.set_navItems a (KuberAI.set_navItems b s) = KuberAI.set_navItems a s.
Proof. reflexivity. Qed.

Lemma set_contentSections_twice (a b : list KuberAI.content_section) (s : KuberAI.page) :
  KuberAI.set_contentSections a (KuberAI.set_contentSections b s)
  = KuberAI.set_contentSections a s.
Proof. reflexivity. Qed.

Lemma nav_callback_run (name : string) (it : KuberAI.nav_item)
      (pre r : list KuberAI.nav_item) (s : KuberAI.page) :
  KuberAI.navItems s = pre ++ it :: r ->
  nav_callback name (List.length pre) it s
  = mk_result (Done tt)
      (KuberAI.set_navItems (pre ++ mark_nav name it :: r) s)
      (KuberAI.NavClass (List.length pre) false
         :: (if nav_matches name it then [KuberAI.NavClass (List.length pre) true] else [])).
Proof.
  intros Hs. unfold nav_callback, mark_nav, nav_matches.
  rewrite bind_emit_primary. cbn [KuberAI.apply]. rewrite Hs, update_nth_app.
  destruct (KuberAI.data_section it) as [a|]; [destruct (String.eqb a name)|].
  - unfold KuberAI.emit, emit, prepend. cbn [out final trace KuberAI.apply].
    cbn [KuberAI.navItems KuberAI.set_navItems]. rewrite update_nth_app.
    destruct it; reflexivity.
  - reflexivity.
  - reflexivity.
Qed.

Lemma section_callback_run (name : string) (c : KuberAI.content_section)
      (pre r : list KuberAI.content_section) (s : KuberAI.page) :
  KuberAI.contentSections s = pre ++ c :: r ->
  section_callback name (List.length pre) c s
  = mk_result (Done tt)
      (KuberAI.set_contentSections (pre ++ mark_section name c :: r) s)
      (KuberAI.SectionClass (List.length pre) false
         :: (if section_matches name c
             then [KuberAI.SectionClass (List.length pre) true] else [])).
Proof.
  intros Hs. unfold section_callback, mark_section, section_matches.
  rewrite bind_emit_primary. cbn [KuberAI.apply]. rewrite Hs, update_nth_app.
  destruct (String.eqb (KuberAI.section_id c) (name ++ "-section")%string).
  - unfold KuberAI.emit, emit, prepend. cbn [out final trace KuberAI.apply].
    cbn [KuberAI.contentSections KuberAI.set_contentSections]. rewrite update_nth_app.
    destruct c; reflexivity.
  - reflexivity.
Qed.

Lemma forEach_nav (name : string) (l pre : list KuberAI.nav_item) (s : KuberAI.page) :
  KuberAI.navItems s = pre ++ l ->
  forEach (nav_callback name) (List.length pre) l s
  = mk_result (Done tt)
      (KuberAI.set_navItems (pre ++ map (mark_nav name) l) s)
      (nav_events name (List.length pre) l).
Proof.
  revert pre s. induction l as [|it l IH]; intros pre s Hs.
  - simpl. unfold ret. rewrite <- Hs. destruct s; reflexivity.
  - cbn [forEach map nav_events].
    rewrite (bind_done _ _ _ _ _ _ (nav_callback_run name it pre l s Hs)).
    replace (S (List.length pre)) with (List.length (pre ++ [mark_nav name it]))
      by (rewrite length_app; simpl; lia).
    rewrite IH by (cbn; rewrite <- app_assoc; reflexivity).
    unfold prepend. cbn [out final trace].
    rewrite set_navItems_twice, <- !app_assoc. reflexivity.
Qed.

Lemma forEach_section (name : string) (l pre : list KuberAI.content_section)
      (s : KuberAI.page) :
  KuberAI.contentSections s = pre ++ l ->
  forEach (section_callback name) (List.length pre) l s
  = mk_result (Done tt)
      (KuberAI.set_contentSections (pre ++ map (mark_section name) l) s)
      (section_events name (List.length pre) l).
Proof.
  revert pre s. induction l as [|c l IH]; intros pre s Hs.
  - simpl. unfold ret. rewrite <- Hs. destruct s; reflexivity.
  - cbn [forEach map section_events].
    rewrite (bind_done _ _ _ _ _ _ (section_callback_run name c pre l s Hs)).
    replace (S (List.length pre)) with (List.length (pre ++ [mark_section name c]))
      by (rewrite length_app; simpl; lia).
    rewrite IH by (cbn; rewrite <- app_assoc; reflexivity).
    unfold prepend. cbn [out final trace].
    rewrite set_contentSections_twice, <- !app_assoc. reflexivity.
Qed.

Lemma switchSection_run (name : string) (p : KuberAI.page) :
  KuberAI.switchSection name p =
    match KuberAI.sectionData name with
    | KuberAI.Absent =>
        mk_result (Thrown TypeError) (marked name p) (loop_events name p)
    | KuberAI.Own d =>
        mk_result (Done tt)
          (with_header name (KuberAI.title d) (KuberAI.subtitle d) (marked name p))
          (loop_events name p
             ++ header_events name (KuberAI.title d) (KuberAI.subtitle d))
    | KuberAI.Inherited =>
        mk_result (Done tt)
          (with_header name EmptyString EmptyString (marked name p))
          (loop_events name p ++ header_events name EmptyString EmptyString)
    end.
Proof.
  unfold KuberAI.switchSection.
  rewrite bind_gets.
  change (fun (i : nat) (item : KuberAI.nav_item) => _)
    with (nav_callback name) at 1.
  rewrite (bind_done _ _ _ _ _ _ (forEach_nav name (KuberAI.navItems p) [] p eq_refl)).
  rewrite bind_gets. cbn [KuberAI.contentSections KuberAI.set_navItems app].
  change (fun (i : nat) (section : KuberAI.content_section) => _)
    with (section_callback name) at 1.
  rewrite (bind_done _ _ _ _ _ _
             (forEach_section name (KuberAI.contentSections p) []
                (KuberAI.set_navItems (map (mark_nav name) (KuberAI.navItems p)) p)
                eq_refl)).
  cbn [app]. fold (marked name p).
  unfold loop_events, header_events, with_header, KuberAI.updateAnalytics.
  destruct (KuberAI.sectionData name) as [d| |].
  - rewrite bind_assoc, !bind_emit_primary. cbn [KuberAI.apply KuberAI.set_text].
    destruct (String.eqb name "analytics"); unfold KuberAI.emit, emit, ret, prepend;
      cbn [out final trace KuberAI.apply]; rewrite <- ?app_assoc; reflexivity.
  - rewrite bind_assoc, !bind_emit_primary. cbn [KuberAI.apply KuberAI.set_text].
    destruct (String.eqb name "analytics"); unfold KuberAI.emit, emit, ret, prepend;
      cbn [out final trace KuberAI.apply]; rewrite <- ?app_assoc; reflexivity.
  - rewrite bind_throw. unfold prepend; cbn [out final trace].
    rewrite !app_nil_r. reflexivity.
Qed.

Lemma visible_marked (name : string) (l : list KuberAI.content_section) :
  filter KuberAI.section_active (map (mark_section name) l)
  = map (mark_section name) (filter (section_matches name) l).
Proof.
  induction l as [|c l IH]; [reflexivity|].
  cbn [map filter]. unfold mark_section at 1. cbn [KuberAI.section_active KuberAI.set_section_active].
  destruct (section_matches name c); cbn [map]; rewrite IH; reflexivity.
Qed.

Lemma active_marked (name : string) (l : list KuberAI.content_section)
      (c : KuberAI.content_section) :
  In c (map (mark_section name) l) ->
  KuberAI.section_active c = true <->
  KuberAI.section_id c = (name ++ "-section")%string.
Proof.
  intros H. apply in_map_iff in H. destruct H as (c0 & <- & _).
  unfold mark_section, section_matches. cbn.
  split; intros H.
  - apply String.eqb_eq, H.
  - apply String.eqb_eq, H.
Qed.

Lemma nav_events_no_fetch (name : string) (l : list KuberAI.nav_item) (i : nat) :
  filter is_analytics_fetch (nav_events name i l) = [].
Proof.
  revert i; induction l as [|it l IH]; intros i; [reflexivity|].
  cbn [nav_events filter is_analytics_fetch].
  rewrite filter_app, IH. destruct (nav_matches name it); reflexivity.
Qed.

Lemma section_events_no_fetch (name : string) (l : list KuberAI.content_section) (i : nat) :
  filter is_analytics_fetch (section_events name i l) = [].
Proof.
  revert i; induction l as [|c l IH]; intros i; [reflexivity|].
  cbn [section_events filter is_analytics_fetch].
  rewrite filter_app, IH. destruct (section_matches name c); reflexivity.
Qed.

Lemma loop_events_no_fetch (name : string) (p : KuberAI.page) :
  filter is_analytics_fetch (loop_events name p) = [].
Proof.
  unfold loop_events. rewrite filter_app, nav_events_no_fetch, section_events_no_fetch.
  reflexivity.
Qed.

Lemma header_events_refreshes (name t s : string) :
  analytics_refreshes (header_events name t s)
  = (if String.eqb name "analytics" then 1 else 0)%nat.
Proof.
  unfold analytics_refreshes, header_events.
  destruct (String.eqb name "analytics"); reflexivity.
Qed.

Lemma sectionData_own_lookup (name : string) (d : KuberAI.section_entry) :
  In (name, d) KuberAI.sectionData_own -> KuberAI.sectionData name = KuberAI.Own d.
Proof.
  intros H. cbn in H.
  destruct H as [H|[H|[H|[H|[]]]]]; injection H as <- <-; reflexivity.
Qed.

(** C8. Switching to a section of the header table, on a page that has
    exactly one content section for it, returns normally and leaves
    exactly one content section active: a section is active afterwards
    if and only if it is the one of the name (every other one has had
    its mark cleared). The header title and subtitle are the table's
    entry for the name, and the call starts one analytics refresh when
    the name is [analytics] and none otherwise. *)
Theorem switchSection_shows_one_section :
  forall (p : KuberAI.page) (name : string) (d : KuberAI.section_entry),
    In (name, d) KuberAI.sectionData_own ->
    List.length (filter (section_matches name) (KuberAI.contentSections p)) = 1%nat ->
    let r := KuberAI.switchSection name p in
    out r = Done tt /\
    List.length (visible (final r)) = 1%nat /\
    (forall c, In c (KuberAI.contentSections (final r)) ->
               KuberAI.section_active c = true <->
               KuberAI.section_id c = (name ++ "-section")%string) /\
    KuberAI.sectionTitle (final r) = KuberAI.title d /\
    KuberAI.sectionSubtitle (final r) = KuberAI.subtitle d /\
    KuberAI.currentSection (final r) = name /\
    analytics_refreshes (trace r) = (if String.eqb name "analytics" then 1 else 0)%nat.
Proof.
  intros p name d Hd Hone r. subst r.
  rewrite switchSection_run, (sectionData_own_lookup name d Hd).
  cbn [out final trace].
  split; [reflexivity|].
  split.
  { unfold visible, with_header, marked.
    cbn [KuberAI.contentSections KuberAI.set_currentSection KuberAI.set_sectionSubtitle
           KuberAI.set_sectionTitle KuberAI.set_contentSections].
    rewrite visible_marked, length_map. exact Hone. }
  split.
  { intros c Hc. apply (active_marked name (KuberAI.contentSections p)). exact Hc. }
  split; [reflexivity|]. split; [reflexivity|]. split; [reflexivity|].
  unfold analytics_refreshes. rewrite filter_app, loop_events_no_fetch.
  apply header_events_refreshes.
Qed.

(** Switching the sample page to analytics. *)
Lemma switchSection_shows_one_section_witness :
  let r := KuberAI.switchSection "analytics" sample_page in
  out r = Done tt /\
  visible (final r) = [KuberAI.mk_content_section "analytics-section" true] /\
  KuberAI.sectionTitle (final r) = "Analytics Dashboard" /\
  analytics_refreshes (trace r) = 1%nat.
Proof.
  destruct (switchSection_shows_one_section sample_page "analytics"
              {| KuberAI.title := "Analytics Dashboard";
                 KuberAI.subtitle :=
                   "Track your investment performance and platform metrics" |})
    as (Ho & _ & _ & Ht & _ & _ & Hr).
  - right; left; reflexivity.
  - reflexivity.
  - split; [exact Ho|]. split; [reflexivity|]. split; [exact Ht|exact Hr].
Defined.

(** C10 (amended). For a name under which the header table has nothing
    (none of its four entries and no member inherited from
    [Object.prototype]), [switchSection] clears the mark of every nav
    item and content section, marks again those that carry the name,
    and then throws on reading the header entry: the header, the
    current section and the analytics are untouched, and no section is
    left visible when the page has none under that name. The call
    returns normally exactly when the lookup finds something; for an
    inherited member it writes an empty title and subtitle. *)
Theorem switchSection_unknown_name_fails :
  (forall (p : KuberAI.page) (name : string),
      KuberAI.sectionData name = KuberAI.Absent ->
      let r := KuberAI.switchSection name p in
      out r = Thrown TypeError /\
      KuberAI.navItems (final r) = map (mark_nav name) (KuberAI.navItems p) /\
      KuberAI.contentSections (final r)
        = map (mark_section name) (KuberAI.contentSections p) /\
      (filter (section_matches name) (KuberAI.contentSections p) = [] ->
       visible (final r) = []) /\
      KuberAI.sectionTitle (final r) = KuberAI.sectionTitle p /\
      KuberAI.sectionSubtitle (final r) = KuberAI.sectionSubtitle p /\
      KuberAI.currentSection (final r) = KuberAI.currentSection p /\
      analytics_refreshes (trace r) = 0%nat) /\
  (forall name : string,
      KuberAI.sectionData name = KuberAI.Absent <->
      ~ In name (map fst KuberAI.sectionData_own) /\
      ~ In name KuberAI.object_prototype_keys) /\
  (forall (p : KuberAI.page) (name : string),
      out (KuberAI.switchSection name p) = Done tt <->
      KuberAI.sectionData name <> KuberAI.Absent) /\
  (forall (p : KuberAI.page) (name : string),
      KuberAI.sectionData name = KuberAI.Inherited ->
      let r := KuberAI.switchSection name p in
      out r = Done tt /\
      KuberAI.sectionTitle (final r) = EmptyString /\
      KuberAI.sectionSubtitle (final r) = EmptyString /\
      KuberAI.currentSection (final r) = name).
Proof.
  split; [|split; [|split]].
  - intros p name Habs r. subst r.
    rewrite switchSection_run, Habs. cbn [out final trace].
    split; [reflexivity|]. split; [reflexivity|]. split; [reflexivity|].
    split.
    { intros Hnone. unfold visible, marked.
      cbn [KuberAI.contentSections KuberAI.set_contentSections].
      rewrite visible_marked, Hnone. reflexivity. }
    split; [reflexivity|]. split; [reflexivity|]. split; [reflexivity|].
    unfold analytics_refreshes. rewrite loop_events_no_fetch. reflexivity.
  - intros name. unfold KuberAI.sectionData.
    assert (Hown : forall l : list (string * KuberAI.section_entry),
               KuberAI.assoc name l = None <-> ~ In name (map fst l)).
    { induction l as [|[k a] l IH]; cbn.
      - tauto.
      - destruct (String.eqb_spec name k) as [->|Hne].
        + split; [discriminate|]. intros H; exfalso; apply H; left; reflexivity.
        + rewrite IH. split.
          * intros H [E|E]; [apply Hne; symmetry; exact E|apply H, E].
          * intros H E. apply H. right. exact E. }
    assert (Hproto : forall l : list string,
               existsb (String.eqb name) l = false <-> ~ In name l).
    { intros l. split.
      - intros H Hin.
        assert (T : existsb (String.eqb name) l = true).
        { apply existsb_exists. exists name. split; [exact Hin|apply String.eqb_refl]. }
        congruence.
      - intros H. destruct (existsb (String.eqb name) l) eqn:E; [|reflexivity].
        exfalso. apply existsb_exists in E. destruct E as (k & Hin & Hk).
        apply String.eqb_eq in Hk. subst k. exact (H Hin). }
    destruct (KuberAI.assoc name KuberAI.sectionData_own) as [d|] eqn:Ea.
    + split; [discriminate|].
      intros [H _]. apply Hown in H. congruence.
    + destruct (existsb (String.eqb name) KuberAI.object_prototype_keys) eqn:Ep.
      * split; [discriminate|].
        intros [_ H]. apply Hproto in H. congruence.
      * split; [|reflexivity].
        intros _. split; [apply Hown, Ea|apply Hproto, Ep].
  - intros p name. rewrite switchSection_run.
    destruct (KuberAI.sectionData name); cbn [out];
      split; intros H; try discriminate; try reflexivity; congruence.
  - intros p name Hin r. subst r.
    rewrite switchSection_run, Hin. cbn [out final].
    repeat split; reflexivity.
Qed.

(** Switching the sample page, which has no settings section, to
    settings. *)
Lemma switchSection_unknown_name_fails_witness :
  let r := KuberAI.switchSection "settings" sample_page in
  KuberAI.sectionData "settings" = KuberAI.Absent /\
  out r = Thrown TypeError /\
  visible (final r) = [] /\
  KuberAI.sectionTitle (final r) = "AI Assistant" /\
  analytics_refreshes (trace r) = 0%nat.
Proof.
  destruct (proj1 switchSection_unknown_name_fails sample_page "settings" eq_refl)
    as (Ho & _ & _ & Hv & Ht & _ & _ & Hr).
  split; [reflexivity|]. split; [exact Ho|].
  split; [apply Hv; reflexivity|]. split; [exact Ht|exact Hr].
Defined.

(** A page that has a settings section the table does not know, and
    the name of a member every object inherits. *)
Lemma switchSection_unknown_counterexample :
  (let r := KuberAI.switchSection "settings" settings_page in
   KuberAI.assoc "settings" KuberAI.sectionData_own = None /\
   out r = Thrown TypeError /\
   visible (final r) = [KuberAI.mk_content_section "settings-section" true]) /\
  (let r := KuberAI.switchSection "constructor" sample_page in
   KuberAI.assoc "constructor" KuberAI.sectionData_own = None /\
   out r = Done tt /\
   KuberAI.currentSection (final r) = "constructor").
Proof.
  split; vm_compute; repeat split.
Qed.

(** ** A purchase that succeeded *)







(** * Further properties *)

(** ** What every handler keeps *)

Section Keeping.
Context {S E : Type}.
Variable apply : E -> S -> S.
Variable R : S -> S -> Prop.
Hypothesis R_refl : forall s, R s s.
Hypothesis R_trans : forall s1 s2 s3, R s1 s2 -> R s2 s3 -> R s1 s3.
Hypothesis R_apply : forall e s, R s (apply e s).







End Keeping.

Section Emitting.
Context {S E : Type}.
Variable apply : E -> S -> S.
Variable P : E -> Prop.

Lemma emits_ret {A} (a : A) : emits_only P (ret (S:=S) (E:=E) a).
Proof. intros s e []. Qed.

Lemma emits_throw {A} (x : exn) : emits_only P (throw (S:=S) (E:=E) (A:=A) x).
Proof. intros s e []. Qed.

Lemma emits_gets {A} (f : S -> A) : emits_only P (gets (E:=E) f).
Proof. intros s e []. Qed.

Lemma emits_emit (e : E) : P e -> emits_only P (emit apply e).
Proof. intros H s e' [<-|[]]. exact H. Qed.

Lemma emits_bind {A B} (m : M (S:=S) (E:=E) A) (k : A -> M B) :
  emits_only P m -> (forall a, emits_only P (k a)) -> emits_only P (bind m k).
Proof.
  intros Hm Hk s e. unfold bind. specialize (Hm s).
  destruct (m s) as [[a|x] s1 t1]; cbn [out final trace] in *.
  - intros Hin. apply in_app_or in Hin. destruct Hin as [Hin|Hin].
    + apply Hm, Hin.
    + apply (Hk a s1), Hin.
  - apply Hm.
Qed.

Lemma emits_try_catch {A} (m : M (S:=S) (E:=E) A) (h : exn -> M A) :
  emits_only P m -> (forall x, emits_only P (h x)) -> emits_only P (try_catch m h).
Proof.
  intros Hm Hh s e. unfold try_catch. specialize (Hm s).
  destruct (m s) as [[a|x] s1 t1]; cbn [out final trace] in *.
  - apply Hm.
  - intros Hin. apply in_app_or in Hin. destruct Hin as [Hin|Hin].
    + apply Hm, Hin.
    + apply (Hh x s1), Hin.
Qed.

Lemma emits_forEach {A} (f : nat -> A -> M (S:=S) (E:=E) unit) (l : list A) :
  (forall i x, emits_only P (f i x)) -> forall i, emits_only P (forEach f i l).
Proof.
  intros Hf. induction l as [|x l IH]; intros i; cbn [forEach].
  - apply emits_ret.
  - apply emits_bind; [apply Hf|intros _; apply IH].
Qed.
End Emitting.

Create HintDb handlers.
#[local] Hint Unfold
  KuberAIEvents.handle KuberAIEvents.showPurchaseModal KuberAIEvents.call
  KuberAIEvents.setupPurchaseModal KuberAIEvents.switchSection_of
  KuberAIEvents.tick
  KuberAI.sendMessage KuberAI.sendMessage_reply KuberAI.addMessage
  KuberAI.showTypingIndicator KuberAI.hideTypingIndicator
  KuberAI.processPurchase KuberAI.processPurchase_reply KuberAI.showSuccessModal
  KuberAI.updateGoldCalculation KuberAI.reset_displays KuberAI.set_if_present
  KuberAI.updateGoldPrice KuberAI.updateGoldPrice_reply KuberAI.updateAnalytics
  KuberAI.switchSection KuberAI.toFixed_of KuberAI.emit
  GoldChatBotEvents.handle
  GoldChatBot.sendMessage GoldChatBot.sendMessage_reply GoldChatBot.addMessage
  GoldChatBot.showTypingIndicator GoldChatBot.hideTypingIndicator
  GoldChatBot.processPurchase GoldChatBot.processPurchase_reply
  GoldChatBot.showSuccessModal GoldChatBot.gather GoldChatBot.showPurchaseModal
  GoldChatBot.updateGoldCalculation GoldChatBot.updateGoldPrice
  GoldChatBot.updateGoldPrice_reply GoldChatBot.toFixed_of GoldChatBot.emit
  : handlers.

















(** One step through the structure of a handler, for its effects. *)
Ltac emit_step :=
  first
    [ apply emits_ret
    | apply emits_throw
    | apply emits_gets
    | apply emits_emit
    | apply emits_bind; [|intros ?]
    | apply emits_try_catch; [|intros ?]
    | apply emits_forEach; intros ? ?
    | match goal with
      | |- emits_only _ (match ?x with _ => _ end) => destruct x
      | |- emits_only _ (if ?x then _ else _) => destruct x
      end ].

Ltac emitting :=
  autounfold with handlers; cbv beta zeta;
  repeat (emit_step; cbv beta zeta).

(** X3. Every request a handler of the primary controller sends goes to
    one of the four endpoints, a POST with a body to [/chat] or
    [/purchase], a GET without one to [/gold-price] or [/analytics]; and
    only the submission of the purchase form and the reply to it ever
    alert. *)
Theorem requests_go_to_the_backend :
  forall (fmt : Num.number -> string) (i : KuberAIEvents.input),
    emits_only to_endpoint (KuberAIEvents.handle fmt i) /\
    (about_purchase i = false -> emits_only silent (KuberAIEvents.handle fmt i)).
Proof.
  intros fmt i. split.
  - destruct i; emitting; cbn; auto;
      unfold endpoint; cbn; intuition congruence.
  - intros Hi. destruct i; try discriminate Hi; emitting; exact I.
Qed.

(** A click on the send button alerts nothing. *)
Lemma requests_go_to_the_backend_witness :
  about_purchase KuberAIEvents.SendClick = false /\
  emits_only silent (KuberAIEvents.handle (Num.toFixed 2) KuberAIEvents.SendClick).
Proof.
  split; [reflexivity|].
  apply (proj2 (requests_go_to_the_backend (Num.toFixed 2) KuberAIEvents.SendClick)).
  reflexivity.
Defined.

(** ** Opening the purchase modal *)

(** X4. [showPurchaseModal] of the primary controller always throws a
    TypeError: it calls [setupPurchaseModal], which the class does not
    declare. By then the modal is shown and the stored price is a number
    above zero (the fallback when it was not), but the quote is not
    computed: the amount, GST, total and price texts are as they were. *)
Theorem showPurchaseModal_throws_before_the_quote :
  forall p : KuberAI.page,
    let r := KuberAIEvents.showPurchaseModal p in
    out r = Thrown TypeError /\
    trace r
      = KuberAI.SetDisplay KuberAI.PurchaseModal "block"
          :: (if KuberAI.price_invalid (KuberAI.goldPriceINR p)
              then [KuberAI.SetPrice (Number KuberAI.fallback_price)] else []) /\
    KuberAI.purchaseModal (final r) = "block" /\
    (exists x, KuberAI.goldPriceINR (final r) = Number x /\
               Num.ltb Num.zero x = true) /\
    KuberAI.goldAmountSpan (final r) = KuberAI.goldAmountSpan p /\
    KuberAI.gstAmount (final r) = KuberAI.gstAmount p /\
    KuberAI.totalAmount (final r) = KuberAI.totalAmount p /\
    KuberAI.pricePerGram (final r) = KuberAI.pricePerGram p.
Proof.
  intros p r. subst r.
  unfold KuberAIEvents.showPurchaseModal, KuberAIEvents.call,
    KuberAIEvents.setupPurchaseModal.
  rewrite bind_emit_primary, bind_gets.
  cbn [KuberAI.apply KuberAI.goldPriceINR KuberAI.set_purchaseModal].
  destruct (KuberAI.price_invalid (KuberAI.goldPriceINR p)) eqn:E.
  - rewrite bind_emit_primary, bind_throw. cbn.
    repeat split. exists KuberAI.fallback_price. split; reflexivity.
  - rewrite bind_ret, bind_throw. cbn.
    repeat split. apply positive_of_valid, E.
Qed.

(** ** Submitting a purchase, the other way round *)

Lemma blank_false (o : option string) : ~ is_blank o -> KuberAI.blank o = false.
Proof.
  intros H. destruct (KuberAI.blank o) eqn:B; [|reflexivity].
  exfalso. apply H. destruct o as [s|]; [|left; reflexivity].
  right. exists s. split; [reflexivity|].
  simpl in B. apply orb_true_iff in B. destruct B as [B|B].
  - apply String.eqb_eq in B. subst s. reflexivity.
  - apply String.eqb_eq in B. exact B.
Qed.

Lemma amount_accepted (p : KuberAI.page) :
  ~ amount_rejected p ->
  KuberAI.missing (KuberAI.amountInput p)
  || Num.isNaN (form_amount p) || Num.leb (form_amount p) Num.zero = false /\
  Num.ltb (form_amount p) KuberAI.minimum_amount = false.
Proof.
  intros H. unfold amount_rejected in H.
  assert (M : KuberAI.missing (KuberAI.amountInput p) = false).
  { destruct (KuberAI.amountInput p) as [s|] eqn:Ea; simpl.
    - destruct (String.eqb_spec s EmptyString) as [->|]; [|reflexivity].
      exfalso. apply H. right; left. reflexivity.
    - exfalso. apply H. left. reflexivity. }
  rewrite M.
  destruct (Num.isNaN (form_amount p)) eqn:N;
    [exfalso; apply H; right; right; left; reflexivity|].
  destruct (Num.leb (form_amount p) Num.zero) eqn:L;
    [exfalso; apply H; right; right; right; left; reflexivity|].
  destruct (Num.ltb (form_amount p) KuberAI.minimum_amount) eqn:T;
    [exfalso; apply H; right; right; right; right; reflexivity|].
  split; reflexivity.
Qed.

Lemma json_of_positive (a : Num.number) :
  Num.isNaN a = false -> Num.leb a Num.zero = false ->
  json_of_number a = if Num.isFinite a then JNum a else JNull.
Proof.
  destruct a as [s|s| |s m e]; intros H1 H2; try reflexivity.
  destruct s; discriminate H2.
Qed.

(** X5. [processPurchase] of the primary controller sends a request
    exactly when the form passes its checks: a name and an email that
    are not blank, and an amount text from which [parseFloat] reads a
    number of at least 830 (a text that starts with such a number, as
    [830abc], or that is read as Infinity, as [1e400], passes). The
    request is then the only effect, a POST to [/purchase] with the
    user id, the trimmed name and email and the number read, written
    [null] when it is Infinity, and the page is unchanged. *)
Theorem processPurchase_sends_exactly_the_valid_form :
  (forall p : KuberAI.page,
      form_valid p ->
      KuberAI.processPurchase p
      = mk_result (Done tt) p [KuberAI.Fetch (purchase_request p)]) /\
  (forall p : KuberAI.page,
      (exists r, In (KuberAI.Fetch r) (trace (KuberAI.processPurchase p))) ->
      form_valid p).
Proof.
  split.
  - intros p (Hn & He & Ha).
    unfold KuberAI.processPurchase. rewrite !bind_gets.
    rewrite (blank_false _ Hn), (blank_false _ He).
    fold (form_amount p).
    destruct (amount_accepted p Ha) as [Hbad Hlow]. rewrite Hbad, Hlow.
    rewrite bind_gets.
    apply orb_false_elim in Hbad; destruct Hbad as [Hbad Hle].
    apply orb_false_elim in Hbad; destruct Hbad as [_ Hnan].
    unfold purchase_request. rewrite (json_of_positive _ Hnan Hle). reflexivity.
  - intros p [r Hin]. revert Hin.
    unfold KuberAI.processPurchase. rewrite !bind_gets.
    fold (form_amount p).
    destruct (KuberAI.blank (KuberAI.formUserName p)) eqn:Bn;
      [intros [H|[]]; discriminate H|].
    destruct (KuberAI.blank (KuberAI.formUserEmail p)) eqn:Be;
      [intros [H|[]]; discriminate H|].
    destruct (KuberAI.missing (KuberAI.amountInput p)
              || Num.isNaN (form_amount p)
              || Num.leb (form_amount p) Num.zero) eqn:Bad;
      [intros [H|[]]; discriminate H|].
    destruct (Num.ltb (form_amount p) KuberAI.minimum_amount) eqn:Low;
      [intros [H|[]]; discriminate H|].
    intros _.
    apply orb_false_elim in Bad; destruct Bad as [Bad Hle].
    apply orb_false_elim in Bad; destruct Bad as [Hmiss Hnan].
    repeat split.
    + intros H. apply blank_true in H. congruence.
    + intros H. apply blank_true in H. congruence.
    + intros [H|[H|[H|[H|H]]]]; try congruence;
        rewrite H in Hmiss; discriminate Hmiss.
Qed.

(** The sample form is sent as it stands, trimmed; with [1e400] as the
    amount it is sent too, and the body carries [null]. *)
Lemma processPurchase_sends_exactly_the_valid_form_witness :
  form_valid sample_page /\
  KuberAI.processPurchase sample_page
  = mk_result (Done tt) sample_page
      [KuberAI.Fetch
         {| url := "/purchase"; verb := POST;
            body := Some [ ("user_id", JStr "kuber_k3x9a1b2c");
                           ("user_name", JStr "Asha Rao");
                           ("email", JStr "asha@example.com");
                           ("amount_inr", JNum (Num.of_Z 5000)) ] |}] /\
  form_valid (amount_page "1e400") /\
  KuberAI.processPurchase (amount_page "1e400")
  = mk_result (Done tt) (amount_page "1e400")
      [KuberAI.Fetch
         {| url := "/purchase"; verb := POST;
            body := Some [ ("user_id", JStr "kuber_k3x9a1b2c");
                           ("user_name", JStr "Asha Rao");
                           ("email", JStr "asha@example.com");
                           ("amount_inr", JNull) ] |}].
Proof.
  assert (V : form_valid sample_page).
  { apply (proj2 processPurchase_sends_exactly_the_valid_form).
    eexists. vm_compute. left. reflexivity. }
  assert (W : form_valid (amount_page "1e400")).
  { apply (proj2 processPurchase_sends_exactly_the_valid_form).
    eexists. vm_compute. left. reflexivity. }
  split; [exact V|]. split.
  - rewrite (proj1 processPurchase_sends_exactly_the_valid_form sample_page V).
    vm_compute. reflexivity.
  - split; [exact W|].
    rewrite (proj1 processPurchase_sends_exactly_the_valid_form _ W).
    vm_compute. reflexivity.
Defined.

(** ** A purchase that did not succeed *)

(** X6. When the purchase reply is not a success (no reply, an unreadable
    or null body, a status that is not OK, or no success flag), the
    primary controller alerts exactly once and changes nothing on the
    page. For a body with a status that is not OK the alert quotes the
    field [detail], for an OK body without the success flag the field
    [message], each replaced by "Unknown error" when missing. *)
Theorem processPurchase_failure_alerts_once :
  forall (fmt : Num.number -> string) (r : reply KuberAI.purchase_data)
         (p : KuberAI.page),
    purchase_succeeded r = false ->
    (exists msg,
        KuberAI.processPurchase_reply fmt r p
        = mk_result (Done tt) p [KuberAI.Alert msg]) /\
    (forall d, r = Response false (Object d) ->
               KuberAI.processPurchase_reply fmt r p
               = mk_result (Done tt) p
                   [KuberAI.Alert ("Investment processing failed: "
                                   ++ KuberAI.or_else (KuberAI.detail d)
                                        "Unknown error")%string]) /\
    (forall d, r = Response true (Object d) ->
               KuberAI.processPurchase_reply fmt r p
               = mk_result (Done tt) p
                   [KuberAI.Alert ("Investment processing failed: "
                                   ++ KuberAI.or_else (KuberAI.message d)
                                        "Unknown error")%string]).
Proof.
  intros fmt r p Hr.
  split; [|split].
  - destruct r as [|[|] [| |d]]; cbn in Hr;
      try (eexists; reflexivity).
    unfold KuberAI.processPurchase_reply. rewrite Hr. eexists; reflexivity.
  - intros d ->. reflexivity.
  - intros d ->. cbn in Hr.
    unfold KuberAI.processPurchase_reply. rewrite Hr. reflexivity.
Qed.

(** A response that is not OK, with the reason of the backend. *)
Lemma processPurchase_failure_alerts_once_witness :
  let d := {| KuberAI.detail := Some "Amount must be at least 830";
              KuberAI.success := false; KuberAI.transaction_id := EmptyString;
              KuberAI.gold_grams := EmptyString; KuberAI.message := None |} in
  KuberAI.processPurchase_reply (Num.toFixed 2) (Response false (Object d)) sample_page
  = mk_result (Done tt) sample_page
      [KuberAI.Alert "Investment processing failed: Amount must be at least 830"].
Proof.
  intros d.
  exact (proj1 (proj2 (processPurchase_failure_alerts_once (Num.toFixed 2)
                         (Response false (Object d)) sample_page eq_refl))
           d eq_refl).
Defined.

(** X7. A successful purchase reply is reported as a failure when the
    success modal cannot be filled: with no stored price, or with no
    amount field, the purchase modal is hidden and then the connection
    alert is shown; the success modal is not opened, no message is added
    to the chat and no analytics request is sent. *)
Theorem purchase_success_lost_without_price :
  forall (fmt : Num.number -> string) (d : KuberAI.purchase_data)
         (p : KuberAI.page),
    KuberAI.success d = true ->
    KuberAI.goldPriceINR p = Undefined \/ KuberAI.amountInput p = None ->
    KuberAI.processPurchase_reply fmt (Response true (Object d)) p
    = mk_result (Done tt) (KuberAI.set_purchaseModal "none" p)
        [ KuberAI.SetDisplay KuberAI.PurchaseModal "none";
          KuberAI.Alert
            "Investment processing failed. Please check your connection and try again." ].
Proof.
  intros fmt d p Hs H.
  unfold KuberAI.processPurchase_reply, KuberAI.showSuccessModal, try_catch.
  rewrite Hs, bind_emit_primary, !bind_assoc, bind_gets.
  cbn [KuberAI.apply KuberAI.amountInput KuberAI.set_purchaseModal].
  destruct (KuberAI.amountInput p) as [value|] eqn:Ea.
  - destruct H as [H|H]; [|discriminate H].
    rewrite !bind_assoc, bind_gets.
    cbn [KuberAI.goldPriceINR KuberAI.set_purchaseModal]. rewrite H.
    reflexivity.
  - reflexivity.
Qed.

(** A success reply on a page that stores no price. *)
Lemma purchase_success_lost_without_price_witness :
  let r := KuberAI.processPurchase_reply (Num.toFixed 2)
             (Response true (Object sample_success)) (priced_page Undefined) in
  out r = Done tt /\
  KuberAI.purchaseModal (final r) = "none" /\
  KuberAI.successModal (final r) = "none" /\
  KuberAI.chatMessages (final r) = [] /\
  KuberAI.amountInput (final r) = Some "5000".
Proof.
  intros r. subst r.
  rewrite (purchase_success_lost_without_price (Num.toFixed 2) sample_success
             (priced_page Undefined) eq_refl (or_introl eq_refl)).
  repeat split.
Defined.

(** ** The price, fetched *)


(** ** The quote, computed again *)




(** ** Sending a message that is not blank *)

Lemma sendMessage_run (p : KuberAI.page) :
  let t := Str.trim (KuberAI.messageInput p) in
  let m := user_message (Str.replace_newlines "<br>" t) (KuberAI.clock p) in
  t <> EmptyString ->
  KuberAI.sendMessage p
  = mk_result (Done tt)
      (KuberAI.set_chatMessages (KuberAI.chatMessages p ++ [m; TypingIndicator])
         (KuberAI.set_messageInput EmptyString p))
      [ KuberAI.AppendChat m; KuberAI.SetMessageInput EmptyString;
        KuberAI.AppendChat TypingIndicator;
        KuberAI.Fetch (chat_request t (KuberAI.userId p)) ].
Proof.
  intros t m Ht.
  unfold KuberAI.sendMessage. rewrite bind_gets. fold t.
  destruct (String.eqb_spec t EmptyString) as [E|_]; [contradiction|].
  unfold KuberAI.addMessage, KuberAI.showTypingIndicator.
  rewrite !bind_assoc, bind_gets, !bind_emit_primary, bind_gets.
  unfold KuberAI.emit, emit, prepend. cbn [out final trace app].
  destruct p. cbn. rewrite <- app_assoc. reflexivity.
Qed.

(** X10. A message that is not blank is sent trimmed, in both controllers:
    the user message is added to the chat (line feeds as [<br>] in the
    primary controller, inside [<p>] in the simpler one), the input is
    cleared, the typing placeholder is added, and one POST to [/chat]
    carries the trimmed text and the user id, in this order. A quick
    button first overwrites the input with its text, then does the same.
    A key sends only when it is Enter without Shift. *)
Theorem sending_shows_and_posts_the_trimmed_text :
  (forall p : KuberAI.page,
      let t := Str.trim (KuberAI.messageInput p) in
      let m := user_message (Str.replace_newlines "<br>" t) (KuberAI.clock p) in
      let r := KuberAI.sendMessage p in
      t <> EmptyString ->
      out r = Done tt /\
      trace r
        = [ KuberAI.AppendChat m; KuberAI.SetMessageInput EmptyString;
            KuberAI.AppendChat TypingIndicator;
            KuberAI.Fetch (chat_request t (KuberAI.userId p)) ] /\
      KuberAI.chatMessages (final r) = KuberAI.chatMessages p ++ [m; TypingIndicator] /\
      KuberAI.messageInput (final r) = EmptyString) /\
  (forall p : GoldChatBot.page,
      let t := Str.trim (GoldChatBot.messageInput p) in
      let m := user_message ("<p>" ++ t ++ "</p>")%string (GoldChatBot.clock p) in
      let r := GoldChatBot.sendMessage p in
      t <> EmptyString ->
      out r = Done tt /\
      trace r
        = [ GoldChatBot.AppendChat m; GoldChatBot.SetMessageInput EmptyString;
            GoldChatBot.AppendChat TypingIndicator;
            GoldChatBot.Fetch (chat_request t (GoldChatBot.userId p)) ] /\
      GoldChatBot.chatMessages (final r)
        = GoldChatBot.chatMessages p ++ [m; TypingIndicator] /\
      GoldChatBot.messageInput (final r) = EmptyString) /\
  (forall (fmt : Num.number -> string) (text : string) (p : KuberAI.page),
      let t := Str.trim text in
      let m := user_message (Str.replace_newlines "<br>" t) (KuberAI.clock p) in
      let r := KuberAIEvents.handle fmt (KuberAIEvents.QuickClick (Some text)) p in
      t <> EmptyString ->
      out r = Done tt /\
      trace r
        = [ KuberAI.SetMessageInput text;
            KuberAI.AppendChat m; KuberAI.SetMessageInput EmptyString;
            KuberAI.AppendChat TypingIndicator;
            KuberAI.Fetch (chat_request t (KuberAI.userId p)) ] /\
      KuberAI.chatMessages (final r) = KuberAI.chatMessages p ++ [m; TypingIndicator] /\
      KuberAI.messageInput (final r) = EmptyString) /\
  (forall (fmt : Num.number -> string) (key : string) (shiftKey : bool)
          (p : KuberAI.page),
      KuberAIEvents.handle fmt (KuberAIEvents.KeyPress key shiftKey) p
      = if String.eqb key "Enter" && negb shiftKey
        then KuberAI.sendMessage p
        else mk_result (Done tt) p []).
Proof.
  split; [|split; [|split]].
  - intros p t m r Ht. subst r.
    rewrite (sendMessage_run p Ht). repeat split.
  - intros p t m r Ht. subst r.
    unfold GoldChatBot.sendMessage. rewrite bind_gets. fold t.
    destruct (String.eqb_spec t EmptyString) as [E|_]; [contradiction|].
    unfold GoldChatBot.addMessage, GoldChatBot.showTypingIndicator.
    rewrite !bind_assoc, bind_gets.
    unfold GoldChatBot.emit. rewrite !bind_emit, bind_gets.
    unfold emit, prepend. cbn [out final trace app].
    destruct p. cbn. rewrite <- app_assoc. repeat split.
  - intros fmt text p t m r Ht. subst r.
    cbn [KuberAIEvents.handle KuberAIEvents.attribute_value].
    rewrite bind_emit_primary.
    cbn [KuberAI.apply].
    rewrite (sendMessage_run (KuberAI.set_messageInput text p)) by exact Ht.
    repeat split.
  - intros fmt key shiftKey p. cbn [KuberAIEvents.handle].
    destruct (String.eqb key "Enter" && negb shiftKey); reflexivity.
Qed.

(** A quick button whose text has a space after it. *)
Lemma sending_shows_and_posts_the_trimmed_text_witness :
  let r := KuberAIEvents.handle (Num.toFixed 2)
             (KuberAIEvents.QuickClick (Some "What is the gold price? ")) sample_page in
  out r = Done tt /\
  trace r
    = [ KuberAI.SetMessageInput "What is the gold price? ";
        KuberAI.AppendChat (user_message "What is the gold price?" "10:30 AM");
        KuberAI.SetMessageInput EmptyString;
        KuberAI.AppendChat TypingIndicator;
        KuberAI.Fetch (chat_request "What is the gold price?" "kuber_k3x9a1b2c") ].
Proof.
  intros r.
  destruct (proj1 (proj2 (proj2 sending_shows_and_posts_the_trimmed_text))
              (Num.toFixed 2) "What is the gold price? " sample_page)
    as (Ho & Ht & _).
  - vm_compute. discriminate.
  - split; [exact Ho|exact Ht].
Defined.

(** ** The reply to a message *)

(** X11. A chat reply ends with exactly one new bot message, after the
    removal of the first element of the document with the id
    [typing-indicator]: the typing placeholder, when neither a message
    before it nor the details of the success modal, where they come
    first, hold an element with that id. In the primary controller a
    body with a text [response] is shown with its line feeds as [<br>],
    with the purchase suggestion when the body asks for it, whatever
    the status; a null body or a [response] that is no text gives the
    apology, after a second removal. The simpler controller shows
    whatever [response] is, [undefined] included. *)
Theorem chat_reply_is_shown_or_apologized_for :
  (forall (ok : bool) (d : chat_data) (text : string) (p : KuberAI.page),
      response d = Some text ->
      let ids := KuberAI.typing_ids p in
      let m := reply_message (Str.replace_newlines "<br>" text) (KuberAI.clock p)
                 (purchase_encouraged d) in
      let r := KuberAI.sendMessage_reply (Response ok (Object d)) p in
      out r = Done tt /\
      trace r
        = (if KuberAI.chat_holds p || KuberAI.details_hold p
           then [KuberAI.RemoveTyping] else []) ++ [KuberAI.AppendChat m] /\
      KuberAI.chatMessages (final r)
        = KuberAI.chatMessages (KuberAI.remove_first_typing p) ++ [m] /\
      (forall pre post,
          KuberAI.details_first p && KuberAI.details_hold p = false ->
          existsb (holds_typing ids) pre = false ->
          KuberAI.chatMessages p = pre ++ TypingIndicator :: post ->
          final r = KuberAI.set_chatMessages (pre ++ post ++ [m]) p)) /\
  (forall (r : reply chat_data) (p : KuberAI.page),
      unreadable r = true ->
      let res := KuberAI.sendMessage_reply r p in
      out res = Done tt /\
      KuberAI.chatMessages (final res)
        = KuberAI.chatMessages
            (KuberAI.remove_first_typing (KuberAI.remove_first_typing p))
            ++ [bot_message KuberAI.apology (KuberAI.clock p)]) /\
  (forall (ok : bool) (d : chat_data) (p : GoldChatBot.page),
      let ids := GoldChatBot.typing_ids p in
      let m := reply_message ("<p>" ++ GoldChatBot.interpolate (response d) ++ "</p>")%string
                 (GoldChatBot.clock p) (purchase_encouraged d) in
      let r := GoldChatBot.sendMessage_reply (Response ok (Object d)) p in
      out r = Done tt /\
      GoldChatBot.chatMessages (final r)
        = GoldChatBot.chatMessages (GoldChatBot.remove_first_typing p) ++ [m] /\
      (forall pre post,
          GoldChatBot.details_first p && GoldChatBot.details_hold p = false ->
          existsb (holds_typing ids) pre = false ->
          GoldChatBot.chatMessages p = pre ++ TypingIndicator :: post ->
          final r = GoldChatBot.set_chatMessages (pre ++ post ++ [m]) p)).
Proof.
  split; [|split].
  - intros ok d text p Hd ids m r. subst r.
    unfold KuberAI.sendMessage_reply.
    assert (E : (KuberAI.hideTypingIndicator ;;
                 KuberAI.addMessage (response d) Bot (purchase_encouraged d))%eff p
                = mk_result (Done tt)
                    (KuberAI.set_chatMessages
                       (KuberAI.chatMessages (KuberAI.remove_first_typing p) ++ [m])
                       (KuberAI.remove_first_typing p))
                    ((if KuberAI.chat_holds p || KuberAI.details_hold p
                      then [KuberAI.RemoveTyping] else []) ++ [KuberAI.AppendChat m])).
    { rewrite (bind_done _ _ _ _ _ _ (hideTypingIndicator_run p)).
      rewrite Hd. unfold KuberAI.addMessage. rewrite bind_gets.
      unfold KuberAI.emit, emit, prepend. cbn [out final trace KuberAI.apply].
      rewrite remove_first_clock.
      subst m ids. unfold reply_message. cbn [sender_eqb]. rewrite andb_true_r.
      reflexivity. }
    unfold try_catch. rewrite E. cbn [out final trace].
    split; [reflexivity|]. split; [reflexivity|].
    split; [destruct (KuberAI.remove_first_typing p); reflexivity|].
    intros pre post Hdet Hpre Hlog.
    rewrite (remove_first_in_chat p pre post TypingIndicator Hdet Hpre eq_refl Hlog).
    destruct p; cbn. rewrite <- app_assoc. reflexivity.
  - intros r p Hr res. subst res.
    assert (E : forall (m : KuberAI.M unit) (t : list KuberAI.event),
               m p = mk_result (Thrown TypeError) (KuberAI.remove_first_typing p) t ->
               let res := try_catch m
                            (fun _ => (KuberAI.hideTypingIndicator ;;
                                       KuberAI.addMessage (Some KuberAI.apology) Bot false)%eff) p in
               out res = Done tt /\
               KuberAI.chatMessages (final res)
               = KuberAI.chatMessages
                   (KuberAI.remove_first_typing (KuberAI.remove_first_typing p))
                   ++ [bot_message KuberAI.apology (KuberAI.clock p)]).
    { intros m t Hm. unfold try_catch. rewrite Hm. cbn [out final trace].
      rewrite (bind_done _ _ _ _ _ _ (hideTypingIndicator_run _)).
      unfold KuberAI.addMessage. rewrite bind_gets.
      unfold KuberAI.emit, emit, prepend. cbn [out final trace KuberAI.apply].
      rewrite !remove_first_clock.
      destruct (KuberAI.remove_first_typing (KuberAI.remove_first_typing p)).
      split; reflexivity. }
    destruct r as [|ok [| |d]]; try discriminate Hr.
    + unfold KuberAI.sendMessage_reply. eapply E.
      rewrite (bind_done _ _ _ _ _ _ (hideTypingIndicator_run p)).
      reflexivity.
    + cbn in Hr. destruct (response d) eqn:Hd; [discriminate Hr|].
      unfold KuberAI.sendMessage_reply. eapply E.
      rewrite (bind_done _ _ _ _ _ _ (hideTypingIndicator_run p)).
      rewrite Hd. reflexivity.
  - intros ok d p ids m r. subst r.
    unfold GoldChatBot.sendMessage_reply.
    assert (E : (GoldChatBot.hideTypingIndicator ;;
                 GoldChatBot.addMessage (response d) Bot (purchase_encouraged d))%eff p
                = mk_result (Done tt)
                    (GoldChatBot.set_chatMessages
                       (GoldChatBot.chatMessages (GoldChatBot.remove_first_typing p) ++ [m])
                       (GoldChatBot.remove_first_typing p))
                    ((if GoldChatBot.chat_holds p || GoldChatBot.details_hold p
                      then [GoldChatBot.RemoveTyping] else [])
                       ++ [GoldChatBot.AppendChat m])).
    { rewrite (bind_done _ _ _ _ _ _ (simple_hideTypingIndicator_run p)).
      unfold GoldChatBot.addMessage. rewrite bind_gets.
      unfold GoldChatBot.emit, emit, prepend. cbn [out final trace GoldChatBot.apply].
      rewrite simple_remove_first_clock.
      subst m ids. unfold reply_message. cbn [sender_eqb]. rewrite andb_true_r.
      reflexivity. }
    unfold try_catch. rewrite E. cbn [out final trace].
    split; [reflexivity|].
    split; [destruct (GoldChatBot.remove_first_typing p); reflexivity|].
    intros pre post Hdet Hpre Hlog.
    rewrite (simple_remove_first_in_chat p pre post TypingIndicator Hdet Hpre eq_refl Hlog).
    destruct p; cbn. rewrite <- app_assoc. reflexivity.
Qed.

(** A reply without a [response], while two requests are in flight:
    both placeholders leave the log. *)
Lemma chat_reply_is_shown_or_apologized_for_witness :
  let r := Response true (Object {| response := None; purchase_encouraged := false |}) in
  let res := KuberAI.sendMessage_reply r two_waiting_page in
  unreadable r = true /\
  out res = Done tt /\
  existsb is_typing (KuberAI.chatMessages (final res)) = false /\
  List.length (KuberAI.chatMessages (final res)) = 3%nat.
Proof.
  intros r res.
  destruct (proj1 (proj2 chat_reply_is_shown_or_apologized_for) r two_waiting_page eq_refl)
    as [Ho Hc].
  fold res in Ho, Hc.
  split; [reflexivity|]. split; [exact Ho|].
  rewrite Hc. split; reflexivity.
Defined.

(** ** One switch after another *)

Lemma mark_nav_twice (a b : string) (l : list KuberAI.nav_item) :
  map (mark_nav b) (map (mark_nav a) l) = map (mark_nav b) l.
Proof. rewrite map_map. apply map_ext. intros it. reflexivity. Qed.

Lemma mark_section_twice (a b : string) (l : list KuberAI.content_section) :
  map (mark_section b) (map (mark_section a) l) = map (mark_section b) l.
Proof. rewrite map_map. apply map_ext. intros c. reflexivity. Qed.

Lemma marked_twice (a b : string) (p : KuberAI.page) :
  KuberAI.navItems (marked b (final (KuberAI.switchSection a p)))
    = KuberAI.navItems (marked b p) /\
  KuberAI.contentSections (marked b (final (KuberAI.switchSection a p)))
    = KuberAI.contentSections (marked b p).
Proof.
  rewrite (switchSection_run a p).
  destruct (KuberAI.sectionData a); cbn;
    rewrite ?mark_nav_twice, ?mark_section_twice; split; reflexivity.
Qed.

(** X12. Two calls of [switchSection] in a row mark the nav items and the
    content sections as the second call alone does; when the second name
    is in the header table the whole page is the one the second call
    alone gives. After any call, the nav items marked active are exactly
    those whose [data-section] is the name asked for. *)
Theorem the_last_switch_wins :
  (forall (a b : string) (p : KuberAI.page),
      let r := KuberAI.switchSection b (final (KuberAI.switchSection a p)) in
      KuberAI.navItems (final r) = KuberAI.navItems (final (KuberAI.switchSection b p)) /\
      KuberAI.contentSections (final r)
        = KuberAI.contentSections (final (KuberAI.switchSection b p))) /\
  (forall (a b : string) (p : KuberAI.page),
      KuberAI.sectionData b <> KuberAI.Absent ->
      final (KuberAI.switchSection b (final (KuberAI.switchSection a p)))
      = final (KuberAI.switchSection b p)) /\
  (forall (b : string) (p : KuberAI.page) (it : KuberAI.nav_item),
      In it (KuberAI.navItems (final (KuberAI.switchSection b p))) ->
      KuberAI.nav_active it = true <-> KuberAI.data_section it = Some b).
Proof.
  split; [|split].
  - intros a b p r. subst r.
    destruct (marked_twice a b p) as [Hn Hc].
    rewrite (switchSection_run b (final (KuberAI.switchSection a p))).
    rewrite (switchSection_run b p).
    destruct (KuberAI.sectionData b); cbn [final];
      unfold with_header; cbn; cbn in Hn, Hc; rewrite Hn, Hc; split; reflexivity.
  - intros a b p Hb.
    rewrite (switchSection_run b (final (KuberAI.switchSection a p))).
    rewrite (switchSection_run b p).
    rewrite (switchSection_run a p).
    destruct (KuberAI.sectionData b) as [d| |]; [| |contradiction];
      destruct (KuberAI.sectionData a); cbn [final];
      unfold with_header, marked; cbn;
      rewrite ?mark_nav_twice, ?mark_section_twice; reflexivity.
  - intros b p it Hin.
    rewrite (switchSection_run b p) in Hin.
    assert (Hin' : In it (map (mark_nav b) (KuberAI.navItems p))).
    { destruct (KuberAI.sectionData b); exact Hin. }
    apply in_map_iff in Hin'. destruct Hin' as (it0 & <- & _).
    unfold mark_nav, nav_matches. cbn.
    destruct (KuberAI.data_section it0) as [s|]; split; intros H;
      try discriminate.
    + apply String.eqb_eq in H. subst s. reflexivity.
    + injection H as ->. apply String.eqb_refl.
Qed.

(** From chat to analytics and on to the market. *)
Lemma the_last_switch_wins_witness :
  final (KuberAI.switchSection "market"
           (final (KuberAI.switchSection "analytics" sample_page)))
  = final (KuberAI.switchSection "market" sample_page) /\
  visible (final (KuberAI.switchSection "market" sample_page))
  = [KuberAI.mk_content_section "market-section" true].
Proof.
  split.
  - apply (proj1 (proj2 the_last_switch_wins)). vm_compute. discriminate.
  - vm_compute. reflexivity.
Defined.

(** ** The interval *)

(** X13. The 30 second interval leaves the page alone and always requests
    the gold price, preceded by an analytics request exactly when the
    current section is [analytics]. So after a switch to a section of the
    header table the interval refreshes the analytics only if that
    section is [analytics]; after a switch that failed (a name the table
    does not have) it behaves as before the switch. *)
Theorem tick_refreshes_analytics_on_its_section :
  (forall p : KuberAI.page,
      KuberAIEvents.tick p
      = mk_result (Done tt) p
          ((if String.eqb (KuberAI.currentSection p) "analytics"
            then [KuberAI.Fetch {| url := "/analytics"; verb := GET; body := None |}]
            else [])
             ++ [KuberAI.Fetch {| url := "/gold-price"; verb := GET; body := None |}])) /\
  (forall (name : string) (p : KuberAI.page),
      KuberAI.sectionData name <> KuberAI.Absent ->
      analytics_refreshes
        (trace (KuberAIEvents.tick (final (KuberAI.switchSection name p))))
      = (if String.eqb name "analytics" then 1 else 0)%nat) /\
  (forall (name : string) (p : KuberAI.page),
      KuberAI.sectionData name = KuberAI.Absent ->
      trace (KuberAIEvents.tick (final (KuberAI.switchSection name p)))
      = trace (KuberAIEvents.tick p)).
Proof.
  assert (T : forall p : KuberAI.page,
             KuberAIEvents.tick p
             = mk_result (Done tt) p
                 ((if String.eqb (KuberAI.currentSection p) "analytics"
                   then [KuberAI.Fetch {| url := "/analytics"; verb := GET; body := None |}]
                   else [])
                    ++ [KuberAI.Fetch {| url := "/gold-price"; verb := GET; body := None |}])).
  { intros p. unfold KuberAIEvents.tick. rewrite bind_gets.
    destruct (String.eqb (KuberAI.currentSection p) "analytics"); reflexivity. }
  split; [exact T|split].
  - intros name p Hn. rewrite T. cbn [trace].
    rewrite (switchSection_run name p).
    destruct (KuberAI.sectionData name) as [d| |]; [| |contradiction];
      cbn; destruct (String.eqb name "analytics"); reflexivity.
  - intros name p Hn. rewrite !T. cbn [trace].
    rewrite (switchSection_run name p), Hn. reflexivity.
Qed.

(** After a switch to analytics, and after one to the market. *)
Lemma tick_refreshes_analytics_on_its_section_witness :
  analytics_refreshes
    (trace (KuberAIEvents.tick (final (KuberAI.switchSection "analytics" sample_page))))
  = 1%nat /\
  analytics_refreshes
    (trace (KuberAIEvents.tick (final (KuberAI.switchSection "market" sample_page))))
  = 0%nat.
Proof.
  split;
    rewrite (proj1 (proj2 tick_refreshes_analytics_on_its_section));
    solve [reflexivity | vm_compute; discriminate].
Defined.

(** ** The simpler controller without a price *)

Lemma div_by_nan (a : Num.number) : Num.div a Num.NaN = Num.NaN.
Proof. destruct a; reflexivity. Qed.

(** X14. The simpler controller stores whatever the price reply holds: a
    reply without the price field leaves [undefined] as the stored price
    (and the price text as it was). From then on the quote shows
    "NaN grams" for every amount; with a stored price of zero it shows
    "NaN grams", "Infinity grams" or "-Infinity grams", never a number. *)
Theorem simple_quote_needs_a_price :
  (forall (ok : bool) (p : GoldChatBot.page),
      GoldChatBot.updateGoldPrice_reply (Response ok (Object Undefined)) p
      = mk_result (Done tt) (GoldChatBot.set_goldPrice Undefined p)
          [GoldChatBot.SetPrice Undefined]) /\
  (forall p : GoldChatBot.page,
      GoldChatBot.goldPrice p = Undefined ->
      GoldChatBot.goldAmountSpan (final (GoldChatBot.updateGoldCalculation p))
      = "NaN grams") /\
  (forall (p : GoldChatBot.page) (s : bool),
      GoldChatBot.goldPrice p = Number (S754_zero s) ->
      let shown :=
        GoldChatBot.goldAmountSpan (final (GoldChatBot.updateGoldCalculation p)) in
      shown = "NaN grams" \/ shown = "Infinity grams" \/ shown = "-Infinity grams").
Proof.
  split; [|split].
  - intros ok p. reflexivity.
  - intros p Hp.
    unfold GoldChatBot.updateGoldCalculation. rewrite !bind_gets, Hp.
    cbn [to_number]. rewrite div_by_nan. reflexivity.
  - intros p s Hp shown. subst shown.
    unfold GoldChatBot.updateGoldCalculation. rewrite !bind_gets, Hp.
    cbn [to_number]. unfold GoldChatBot.or_zero.
    destruct (Num.parseFloat (GoldChatBot.amountInput p)) as [s'|s'| |s' m e];
      cbn [Num.truthy].
    + left. reflexivity.
    + destruct s', s; auto.
    + left. reflexivity.
    + destruct s', s; auto.
Qed.

(** A price reply without the field, then an amount typed in. *)
Lemma simple_quote_needs_a_price_witness :
  let p := final (GoldChatBot.updateGoldPrice_reply
                    (Response true (Object Undefined))
                    (simple_page_with (Number GoldChatBot.initial_price) "100")) in
  GoldChatBot.goldPrice p = Undefined /\
  GoldChatBot.goldAmountSpan (final (GoldChatBot.updateGoldCalculation p))
  = "NaN grams".
Proof.
  intros p.
  assert (H : GoldChatBot.goldPrice p = Undefined) by reflexivity.
  split; [exact H|].
  exact (proj1 (proj2 simple_quote_needs_a_price) p H).
Defined.

(** ** The purchase reply of the simpler controller *)



(** ** What every handler of the simpler controller keeps *)



(** ** A quick button that has nothing to say *)

(** X17. A quick button that has no [data-message], or a blank one, sends
    nothing: in both controllers its click overwrites the message input
    with the attribute (the empty text when it is missing), so that a
    draft typed there is lost, and that write is the only effect. *)
Theorem quick_button_without_text_only_clears :
  (forall (fmt : Num.number -> string) (a : option string) (p : KuberAI.page),
      Str.trim (KuberAIEvents.attribute_value a) = EmptyString ->
      KuberAIEvents.handle fmt (KuberAIEvents.QuickClick a) p
      = mk_result (Done tt)
          (KuberAI.set_messageInput (KuberAIEvents.attribute_value a) p)
          [KuberAI.SetMessageInput (KuberAIEvents.attribute_value a)]) /\
  (forall (a : option string) (p : GoldChatBot.page),
      Str.trim (GoldChatBotEvents.attribute_value a) = EmptyString ->
      GoldChatBotEvents.handle (GoldChatBotEvents.QuickClick a) p
      = mk_result (Done tt)
          (GoldChatBot.set_messageInput (GoldChatBotEvents.attribute_value a) p)
          [GoldChatBot.SetMessageInput (GoldChatBotEvents.attribute_value a)]).
Proof.
  split.
  - intros fmt a p Ha.
    cbn [KuberAIEvents.handle]. rewrite bind_emit_primary.
    cbn [KuberAI.apply]. unfold KuberAI.sendMessage. rewrite bind_gets.
    cbn [KuberAI.messageInput KuberAI.set_messageInput]. rewrite Ha. reflexivity.
  - intros a p Ha.
    cbn [GoldChatBotEvents.handle]. unfold GoldChatBot.emit. rewrite bind_emit.
    cbn [GoldChatBot.apply]. unfold GoldChatBot.sendMessage. rewrite bind_gets.
    cbn [GoldChatBot.messageInput GoldChatBot.set_messageInput]. rewrite Ha. reflexivity.
Qed.

(** A quick button without the attribute, pressed over a draft. *)
Lemma quick_button_without_text_only_clears_witness :
  let p := KuberAI.set_messageInput "a draft" sample_page in
  let r := KuberAIEvents.handle (Num.toFixed 2) (KuberAIEvents.QuickClick None) p in
  KuberAI.messageInput (final r) = EmptyString /\
  KuberAI.chatMessages (final r) = KuberAI.chatMessages p /\
  trace r = [KuberAI.SetMessageInput EmptyString].
Proof.
  intros p r. unfold r.
  rewrite (proj1 quick_button_without_text_only_clears (Num.toFixed 2) None p)
    by reflexivity.
  repeat split.
Defined.

(** ** The analytics counters *)

(** X18. The rest of [updateAnalytics] never throws. Without a body (no
    reply, an unreadable or null body) no counter is written. With a
    body, each of the first three counters that is present shows its
    field (the empty text for a missing users or transactions field,
    "undefinedg" for a missing gold field); the revenue counter shows
    the formatted revenue, and keeps its text when the body has no
    revenue, the other three being updated all the same. *)
Theorem updateAnalytics_reply_fills_what_it_can :
  forall (fmt : Num.number -> string) (r : reply Analytics.analytics_data)
         (p : Analytics.panel),
    let res := Analytics.updateAnalytics_reply fmt r p in
    out res = Done tt /\
    match r with
    | Response _ (Object data) =>
        Analytics.totalUsers (final res)
          = Analytics.write (Analytics.totalUsers p)
              (Analytics.assigned (Analytics.total_users data)) /\
        Analytics.totalTransactions (final res)
          = Analytics.write (Analytics.totalTransactions p)
              (Analytics.assigned (Analytics.total_transactions data)) /\
        Analytics.totalGoldSold (final res)
          = Analytics.write (Analytics.totalGoldSold p)
              (Analytics.interpolate (Analytics.total_gold_sold_grams data) ++ "g")%string /\
        Analytics.totalRevenue (final res)
          = match Analytics.total_revenue_inr data with
            | Number x =>
                Analytics.write (Analytics.totalRevenue p) (KuberAI.rupee ++ fmt x)%string
            | Undefined => Analytics.totalRevenue p
            end
    | _ => final res = p /\ trace res = []
    end.
Proof.
  intros fmt r p res. subst res.
  destruct r as [|ok [| |data]].
  - repeat split.
  - repeat split.
  - destruct p as [[u|] [t|] [g|] [v|]]; repeat split.
  - destruct data as [du dt dg [|x]];
      destruct p as [[u|] [t|] [g|] [v|]]; repeat split.
Qed.

(** ** What [trim] leaves for [parseFloat] *)



























(** ** The amount of the quote and the amount of the purchase *)





(** ** A nav item without [data-section] *)

Lemma unnamed_callback_run (it : KuberAI.nav_item)
      (pre r : list KuberAI.nav_item) (s : KuberAI.page) :
  KuberAI.navItems s = pre ++ it :: r ->
  exists t,
    unnamed_callback (List.length pre) it s
    = mk_result (Done tt) (KuberAI.set_navItems (pre ++ mark_unnamed it :: r) s) t /\
    forallb is_class_change t = true.
Proof.
  intros Hs. unfold unnamed_callback, mark_unnamed.
  rewrite bind_emit_primary. cbn [KuberAI.apply]. rewrite Hs, update_nth_app.
  destruct (KuberAI.data_section it) as [a|] eqn:Ha.
  - eexists. split.
    + unfold ret, prepend. cbn [out final trace present negb app]. reflexivity.
    + reflexivity.
  - eexists. split.
    + unfold KuberAI.emit, emit, prepend. cbn [out final trace KuberAI.apply].
      cbn [KuberAI.navItems KuberAI.set_navItems]. rewrite update_nth_app.
      destruct it; reflexivity.
    + reflexivity.
Qed.

Lemma forEach_unnamed (l pre : list KuberAI.nav_item) (s : KuberAI.page) :
  KuberAI.navItems s = pre ++ l ->
  exists t,
    forEach unnamed_callback (List.length pre) l s
    = mk_result (Done tt) (KuberAI.set_navItems (pre ++ map mark_unnamed l) s) t /\
    forallb is_class_change t = true.
Proof.
  revert pre s. induction l as [|it l IH]; intros pre s Hs.
  - exists []. split; [|reflexivity].
    simpl. unfold ret. rewrite <- Hs. destruct s; reflexivity.
  - destruct (unnamed_callback_run it pre l s Hs) as (t1 & H1 & C1).
    cbn [forEach map].
    rewrite (bind_done _ _ _ _ _ _ H1).
    replace (S (List.length pre)) with (List.length (pre ++ [mark_unnamed it]))
      by (rewrite length_app; simpl; lia).
    destruct (IH (pre ++ [mark_unnamed it])
                (KuberAI.set_navItems (pre ++ mark_unnamed it :: l) s))
      as (t2 & H2 & C2).
    { cbn. rewrite <- app_assoc. reflexivity. }
    rewrite H2. exists (t1 ++ t2). split.
    + unfold prepend. cbn [out final trace].
      rewrite set_navItems_twice, <- !app_assoc. reflexivity.
    + rewrite forallb_app, C1, C2. reflexivity.
Qed.

Lemma section_events_classes (name : string) (l : list KuberAI.content_section)
      (i : nat) :
  forallb is_class_change (section_events name i l) = true.
Proof.
  revert i; induction l as [|c l IH]; intros i; [reflexivity|].
  cbn [section_events forallb is_class_change].
  rewrite forallb_app, IH. destruct (section_matches name c); reflexivity.
Qed.

Lemma switchSection_unnamed_run (p : KuberAI.page) :
  exists t,
    KuberAIEvents.switchSection_of None p
    = mk_result (Thrown TypeError)
        (KuberAI.set_contentSections
           (map (mark_section "null") (KuberAI.contentSections p))
           (KuberAI.set_navItems (map mark_unnamed (KuberAI.navItems p)) p)) t /\
    forallb is_class_change t = true.
Proof.
  unfold KuberAIEvents.switchSection_of.
  rewrite bind_gets.
  change (fun (i : nat) (item : KuberAI.nav_item) => _) with unnamed_callback at 1.
  destruct (forEach_unnamed (KuberAI.navItems p) [] p eq_refl) as (t & Ht & Ct).
  rewrite (bind_done _ _ _ _ _ _ Ht).
  rewrite bind_gets. cbn [KuberAI.contentSections KuberAI.set_navItems app].
  change (fun (i : nat) (section : KuberAI.content_section) => _)
    with (section_callback "null") at 1.
  rewrite (bind_done _ _ _ _ _ _
             (forEach_section "null" (KuberAI.contentSections p) []
                (KuberAI.set_navItems (map mark_unnamed (KuberAI.navItems p)) p)
                eq_refl)).
  unfold prepend, throw. cbn [out final trace app].
  eexists. split; [reflexivity|].
  rewrite app_nil_r, forallb_app, Ct, section_events_classes. reflexivity.
Qed.

(** X20. A click on a nav item that has no [data-section] calls
    [switchSection] with [null]: the nav items without the attribute
    are the ones marked active, every content section is hidden but one
    with the id [null-section], and the call throws a TypeError on the
    header lookup. The title, the subtitle and the current section stay
    as they were, and the only effects are the changes of the marks. *)
Theorem nav_click_without_section_fails :
  forall (fmt : Num.number -> string) (p : KuberAI.page),
    let r := KuberAIEvents.handle fmt (KuberAIEvents.NavClick None) p in
    out r = Thrown TypeError /\
    KuberAI.navItems (final r) = map mark_unnamed (KuberAI.navItems p) /\
    KuberAI.contentSections (final r)
      = map (mark_section "null") (KuberAI.contentSections p) /\
    KuberAI.sectionTitle (final r) = KuberAI.sectionTitle p /\
    KuberAI.sectionSubtitle (final r) = KuberAI.sectionSubtitle p /\
    KuberAI.currentSection (final r) = KuberAI.currentSection p /\
    forallb is_class_change (trace r) = true.
Proof.
  intros fmt p r. subst r.
  cbn [KuberAIEvents.handle].
  destruct (switchSection_unnamed_run p) as (t & -> & Ct).
  cbn [out final trace]. destruct p; repeat split; exact Ct.
Qed.
